(** * Appointment scheduling core of the Hospital Management System

    A shallow embedding of the Flask handlers that book, cancel and update
    appointments, record treatments and declare availability windows
    (blueprints/patient.py, blueprints/doctor.py, blueprints/admin.py) over
    the SQLite schema of database.py.

    Tables are lists of rows in rowid order.  Every handler runs on its own
    connection: statements act on the connection's working copy, [commit]
    publishes it, [rollback] discards it, and closing the connection at the
    end of the request keeps only what was committed.  Storage failures are
    driven by an oracle, one bit per [db.execute]/[db.commit] call.

    Conventions.  Identifiers read from the database or the session are
    INTEGER column values; identifiers taken from the URL are arbitrary
    integers and may not fit the 64 bits sqlite3 binds.  The forms submit
    dates and times as text ('2025-01-31', '09:30'); the DATE and TIME
    columns have NUMERIC affinity, so what is stored and compared is a
    [Value]: the number a text denotes when SQLite reads it as one, the text
    otherwise.  Text is compared as Python and SQLite compare it, byte-wise
    lexicographically.  Two functions of SQLite are not part of the
    repository and are taken as parameters: [numeric], the conversion NUMERIC
    affinity applies to a text, and [sql_time], the built-in time() as
    evaluated by one statement ([None] standing for SQL NULL; time('now')
    reads the clock, so each request has its own).

    A request is served with no other connection writing between its
    statements; [step] and [reachable] are about requests served one at a
    time. *)

From Stdlib Require Import List ZArith Lia Bool String Ascii DecimalString.
From Stdlib Require QArith Qcanon.
Import ListNotations.
Local Open Scope Z_scope.
Local Open Scope string_scope.
Local Open Scope list_scope.

(** ** Schema (database.py, init_db) *)

(** users.role: CHECK(role IN ('admin', 'doctor', 'patient')). *)
Inductive Role : Type := admin | doctor | patient.

(** status TEXT CHECK(status IN ('active', 'blacklisted')) on doctors and
    patients. *)
Inductive AccountStatus : Type := active | blacklisted.

(** appointments.status:
    CHECK(status IN ('Booked', 'Completed', 'Cancelled', 'Rescheduled')). *)
Inductive Status : Type := Booked | Completed | Cancelled | Rescheduled.

(** models.User, the fields the handlers read from [current_user]. *)
Record User : Type := mkUser {
  user_id : Z;
  role : Role
}.

Record PatientRow : Type := mkPatient {
  pat_patient_id : Z;
  pat_user_id : Z;
  pat_status : AccountStatus
}.

Record DoctorRow : Type := mkDoctor {
  doc_doctor_id : Z;
  doc_user_id : Z;
  doc_status : AccountStatus
}.

(** ** Values of the DATE and TIME columns

    A column declared DATE or TIME has NUMERIC affinity: a text bound to it
    that SQLite reads as a number ('2027', '10.0', ' 1e1') is stored as
    that number, any other text ('2025-06-02', '09:30') as it is.  Numbers
    are compared by value whatever their storage class (INTEGER or REAL),
    texts byte by byte, and a number never equals a text; so a number is
    held here by its value, and equality of values is what SQLite's [=] and
    UNIQUE test.  Python reads a number as an int or a float and a text as
    a str. *)
Inductive Number : Type :=
  | Finite (q : Qcanon.Qc)
  | Infinite (negative : bool).   (* '1e999' and '-1e999' *)

Inductive Value : Type :=
  | VNumber (x : Number)
  | VText (s : string).

Definition number_eqb (x y : Number) : bool :=
  match x, y with
  | Finite p, Finite q =>
      QArith_base.Qeq_bool (Qcanon.this p) (Qcanon.this q)
  | Infinite a, Infinite b => Bool.eqb a b
  | _, _ => false
  end.

(** [column = ?] on a column with NUMERIC affinity, both sides as values. *)
Definition value_eqb (v w : Value) : bool :=
  match v, w with
  | VNumber x, VNumber y => number_eqb x y
  | VText s, VText t => String.eqb s t
  | _, _ => false
  end.

(** NUMERIC affinity applied to a bound text: to the parameter of an INSERT
    or UPDATE before it is stored, and to the parameter of a comparison with
    the column before it is compared.  [numeric s] is the number SQLite
    reads [s] as, [None] when it reads none. *)
Definition numeric_affinity (numeric : string -> option Number) (s : string)
    : Value :=
  match numeric s with
  | Some x => VNumber x
  | None => VText s
  end.

(** doctor_availability, UNIQUE(doctor_id, date, start_time);
    date DATE, start_time TIME, end_time TIME. *)
Record Availability : Type := mkAvailability {
  availability_id : Z;
  av_doctor_id : Z;
  av_date : Value;
  start_time : Value;
  end_time : Value;
  is_available : bool
}.

(** appointments; appointment_date DATE, appointment_time TIME.  The status
    column carries a CHECK but no NOT NULL, so it can hold NULL ([None]): a
    CHECK whose expression evaluates to NULL is not a violation in SQLite. *)
Record Appointment : Type := mkAppointment {
  appointment_id : Z;
  app_patient_id : Z;
  app_doctor_id : Z;
  appointment_date : Value;
  appointment_time : Value;
  status : option Status;
  reason : option string;
  app_created_at : string;
  app_updated_at : string
}.

(** treatments, appointment_id INTEGER UNIQUE NOT NULL.  follow_up_date is
    declared DATE: what SQLite stores is the value the submitted text takes
    under NUMERIC affinity, which the text determines.  No statement
    compares the column and no handler computes with it, so the row keeps
    the submitted text here. *)
Record Treatment : Type := mkTreatment {
  treatment_id : Z;
  tr_appointment_id : Z;
  diagnosis : option string;
  prescription : option string;
  notes : option string;
  follow_up_date : option string;
  tr_created_at : string;
  tr_updated_at : string
}.

Record DB : Type := mkDB {
  patients : list PatientRow;
  doctors : list DoctorRow;
  doctor_availability : list Availability;
  appointments : list Appointment;
  treatments : list Treatment
}.

Definition set_doctor_availability (db : DB) (l : list Availability) : DB :=
  mkDB (patients db) (doctors db) l (appointments db) (treatments db).

Definition set_appointments (db : DB) (l : list Appointment) : DB :=
  mkDB (patients db) (doctors db) (doctor_availability db) l (treatments db).

Definition set_treatments (db : DB) (l : list Treatment) : DB :=
  mkDB (patients db) (doctors db) (doctor_availability db) (appointments db) l.

(** INTEGER PRIMARY KEY AUTOINCREMENT: one more than the largest rowid.  No
    handler deletes rows, so the largest rowid ever used is the largest one
    present. *)
Definition autoincrement (ids : list Z) : Z :=
  1 + fold_right Z.max 0 ids.

(** The CHECK constraint on appointments.status applied to a bound value:
    [None] is a violation, [Some None] is NULL (accepted), [Some (Some s)] a
    listed status. *)
Definition status_of_text (s : string) : option Status :=
  if String.eqb s "Booked" then Some Booked
  else if String.eqb s "Completed" then Some Completed
  else if String.eqb s "Cancelled" then Some Cancelled
  else if String.eqb s "Rescheduled" then Some Rescheduled
  else None.

Definition check_status (v : option string) : option (option Status) :=
  match v with
  | None => Some None
  | Some s =>
      match status_of_text s with
      | Some st => Some (Some st)
      | None => None
      end
  end.

(** [status NOT IN ('Cancelled', 'Rescheduled')] as a WHERE condition: a NULL
    status makes the condition NULL and the row is not selected. *)
Definition status_not_in_cancelled_rescheduled (s : option Status) : bool :=
  match s with
  | Some Booked | Some Completed => true
  | Some Cancelled | Some Rescheduled => false
  | None => false
  end.

(** ** Connections, transactions and exceptions *)

Inductive Exn : Type :=
  | IntegrityError   (* sqlite3: a constraint failed *)
  | OperationalError (* sqlite3: the storage call itself failed *)
  | TypeError        (* Python: subscripting None; int < str *)
  | IndexError       (* Python: list index out of range *)
  | OverflowError.   (* sqlite3: Python int too large to convert to
                        SQLite INTEGER *)

Record Conn : Type := mkConn {
  committed : DB;
  working : DB;
  faults : list bool
}.

Definition Tx (A : Type) : Type := Conn -> (Exn + A) * Conn.

Definition ret {A : Type} (a : A) : Tx A :=
  fun c => (inr a, c).

Definition bind {A B : Type} (m : Tx A) (k : A -> Tx B) : Tx B :=
  fun c =>
    match m c with
    | (inl e, c') => (inl e, c')
    | (inr a, c') => k a c'
    end.

Definition raise {A : Type} (e : Exn) : Tx A :=
  fun c => (inl e, c).

(** try: body / except Exception as e: handler e *)
Definition try_except {A : Type} (body : Tx A) (handler : Exn -> Tx A) : Tx A :=
  fun c =>
    match body c with
    | (inl e, c') => handler e c'
    | (inr a, c') => (inr a, c')
    end.

Declare Scope tx_scope.
Delimit Scope tx_scope with tx.
Notation "x <- m ;; k" := (bind m (fun x => k))
  (at level 61, m at next level, right associativity) : tx_scope.
Notation "m ;;; k" := (bind m (fun _ => k))
  (at level 61, right associativity) : tx_scope.
Local Open Scope tx_scope.

(** One round trip to the storage layer; the oracle says whether it fails. *)
Definition storage_call : Tx unit :=
  fun c =>
    match faults c with
    | true :: fs => (inl OperationalError, mkConn (committed c) (working c) fs)
    | false :: fs => (inr tt, mkConn (committed c) (working c) fs)
    | [] => (inr tt, c)
    end.

(** db.execute('SELECT ...').fetchone() / .fetchall() *)
Definition fetch {A : Type} (q : DB -> A) : Tx A :=
  storage_call ;;; (fun c => (inr (q (working c)), c)).

(** db.execute('INSERT ...' / 'UPDATE ...') *)
Definition execute (stmt : DB -> Exn + DB) : Tx unit :=
  storage_call ;;;
  (fun c =>
     match stmt (working c) with
     | inl e => (inl e, c)
     | inr d => (inr tt, mkConn (committed c) d (faults c))
     end).

(** Binding a Python int to a statement: sqlite3 holds 64-bit integers. *)
Definition int64 (n : Z) : bool :=
  Z.leb (-9223372036854775808) n && Z.ltb n 9223372036854775808.

Definition bind_int (n : Z) : Tx unit :=
  if int64 n then ret tt else raise OverflowError.

(** [fetch] and [execute] for a statement one of whose parameters is an
    identifier taken from the URL (<int:...>): the statement is prepared,
    then the parameters are bound, then it runs. *)
Definition fetch_id {A : Type} (id : Z) (q : DB -> A) : Tx A :=
  storage_call ;;; bind_int id ;;; (fun c => (inr (q (working c)), c)).

Definition execute_id (id : Z) (stmt : DB -> Exn + DB) : Tx unit :=
  storage_call ;;; bind_int id ;;;
  (fun c =>
     match stmt (working c) with
     | inl e => (inl e, c)
     | inr d => (inr tt, mkConn (committed c) d (faults c))
     end).

(** db.commit() *)
Definition commit : Tx unit :=
  storage_call ;;;
  (fun c => (inr tt, mkConn (working c) (working c) (faults c))).

(** db.rollback() *)
Definition rollback : Tx unit :=
  fun c => (inr tt, mkConn (committed c) (committed c) (faults c)).

(** Queries whose rows only feed a template. *)
Fixpoint page_queries (n : nat) : Tx unit :=
  match n with
  | O => ret tt
  | S n' => storage_call ;;; page_queries n'
  end.

(** A query whose rows only feed a template and that binds an identifier
    taken from the URL. *)
Definition page_query_id (id : Z) : Tx unit :=
  storage_call ;;; bind_int id.

(** row['column'] on the result of fetchone(). *)
Definition subscript {A : Type} (row : option A) : Tx A :=
  match row with
  | Some a => ret a
  | None => raise TypeError
  end.

(** value < s in Python, [s] a str: defined when the column value is read
    as a str, a TypeError when it is read as an int or a float. *)
Definition less_than (v : Value) (s : string) : Tx bool :=
  match v with
  | VText t => ret (String.ltb t s)
  | VNumber _ => raise TypeError
  end.

(** xs[i] *)
Definition index {A : Type} (xs : list A) (i : nat) : Tx A :=
  match nth_error xs i with
  | Some a => ret a
  | None => raise IndexError
  end.

(** for i in range(n): body i *)
Fixpoint for_each (l : list nat) (body : nat -> Tx unit) : Tx unit :=
  match l with
  | [] => ret tt
  | i :: l' => body i ;;; for_each l' body
  end.

Definition for_range (n : nat) (body : nat -> Tx unit) : Tx unit :=
  for_each (seq 0 n) body.

(** What the user sees: the flashed message of each handler path. *)
Inductive Flash : Type :=
  | LoginRequired           (* flask-login: 'Please log in to access this
                               page.' *)
  | AccessDenied            (* 'Access denied. ... privileges required.' *)
  | AllFieldsRequired       (* 'All fields are required.' *)
  | CannotBookPast          (* 'Cannot book past appointments.' *)
  | SlotAlreadyBooked       (* 'Time slot already booked.' *)
  | DoctorNotAvailable      (* 'Doctor is not available at this time.' *)
  | AppointmentBooked       (* 'Appointment booked!' *)
  | AppointmentNotFound     (* 'Appointment not found.' *)
  | CannotCancelPast        (* 'Cannot cancel past appointments.' *)
  | AppointmentCancelled    (* 'Appointment cancelled.' *)
  | TreatmentUpdated        (* 'Appointment and treatment updated successfully!' *)
  | StatusUpdated           (* 'Appointment status updated!' *)
  | AvailabilityUpdated     (* 'Availability updated successfully!' *)
  | ErrorFlash (e : Exn).   (* f'Error: {e}' *)

Inductive Response : Type :=
  | Flashed (f : Flash)
  | Crashed (e : Exn).      (* an exception no handler caught: HTTP 500 *)

(** One request: open a connection on the stored database, run the handler,
    close the connection (app.py, close_connection). *)
Definition serve (h : Tx Flash) (fs : list bool) (db : DB) : Response * DB :=
  match h (mkConn db db fs) with
  | (inl e, c) => (Crashed e, committed c)
  | (inr f, c) => (Flashed f, committed c)
  end.

Definition role_eqb (a b : Role) : bool :=
  match a, b with
  | admin, admin | doctor, doctor | patient, patient => true
  | _, _ => false
  end.

(** @login_required, the outer decorator of every route: flask-login sends
    an anonymous caller to the login page. *)
Definition login_required (current_user : option User)
    (f : User -> Tx Flash) : Tx Flash :=
  match current_user with
  | Some u => f u
  | None => ret LoginRequired
  end.

(** @login_required above one of the role decorators patient_required,
    doctor_required, admin_required. *)
Definition role_required (r : Role) (current_user : option User)
    (f : User -> Tx Flash) : Tx Flash :=
  login_required current_user (fun u =>
    if role_eqb (role u) r then f u else ret AccessDenied).

Definition patient_required := role_required patient.
Definition doctor_required := role_required doctor.
Definition admin_required := role_required admin.

(** ** Statements shared by the blueprints *)

(** SELECT patient_id FROM patients WHERE user_id = ? *)
Definition select_patient (uid : Z) (db : DB) : option PatientRow :=
  find (fun p => Z.eqb (pat_user_id p) uid) (patients db).

(** SELECT doctor_id FROM doctors WHERE user_id = ? *)
Definition select_doctor (uid : Z) (db : DB) : option DoctorRow :=
  find (fun d => Z.eqb (doc_user_id d) uid) (doctors db).

Definition with_status (a : Appointment) (st : option Status) (now : string)
    : Appointment :=
  mkAppointment (appointment_id a) (app_patient_id a) (app_doctor_id a)
    (appointment_date a) (appointment_time a) st (reason a)
    (app_created_at a) now.

(** UPDATE appointments SET status = ?, updated_at = CURRENT_TIMESTAMP
    WHERE appointment_id = ?
    The CHECK constraint is evaluated on the rows the statement changes. *)
Definition update_appointment_status (id : Z) (st : option string)
    (now : string) (db : DB) : Exn + DB :=
  if existsb (fun a => Z.eqb (appointment_id a) id) (appointments db) then
    match check_status st with
    | None => inl IntegrityError
    | Some v =>
        inr (set_appointments db
               (map (fun a => if Z.eqb (appointment_id a) id
                              then with_status a v now else a)
                    (appointments db)))
    end
  else inr db.

(** ** blueprints/patient.py *)

Module patient_bp.

(** request.form of /appointment/book.  [None] is a missing field;
    [f_doctor_id] is the submitted identifier as the INTEGER columns hold
    it. *)
Record BookingForm : Type := mkBookingForm {
  f_doctor_id : option Z;
  f_appointment_date : option string;
  f_appointment_time : option string;
  f_reason : option string
}.

(** all([doctor_id, appointment_date, appointment_time]): every field
    present and non-empty. *)
Definition required_fields (form : BookingForm) : option (Z * string * string) :=
  match f_doctor_id form, f_appointment_date form, f_appointment_time form with
  | Some d, Some date, Some time =>
      if negb (String.eqb date "") && negb (String.eqb time "")
      then Some (d, date, time)
      else None
  | _, _, _ => None
  end.

(** The WHERE clause of the double-booking check; the bound date and time
    are compared with the columns after NUMERIC affinity. *)
Definition occupies (numeric : string -> option Number) (d : Z)
    (date time : string) (a : Appointment) : bool :=
  Z.eqb (app_doctor_id a) d
  && value_eqb (appointment_date a) (numeric_affinity numeric date)
  && value_eqb (appointment_time a) (numeric_affinity numeric time)
  && status_not_in_cancelled_rescheduled (status a).

(** SELECT * FROM appointments
    WHERE doctor_id = ? AND appointment_date = ? AND appointment_time = ?
      AND status NOT IN ('Cancelled', 'Rescheduled') *)
Definition select_existing (numeric : string -> option Number) (d : Z)
    (date time : string) (db : DB) : option Appointment :=
  find (occupies numeric d date time) (appointments db).

(** x BETWEEN lo AND hi on the results of time(): NULL operands select
    nothing, text is compared byte-wise. *)
Definition between (x lo hi : option string) : bool :=
  match x, lo, hi with
  | Some x', Some lo', Some hi' => String.leb lo' x' && String.leb x' hi'
  | _, _, _ => false
  end.

(** The WHERE clause of the availability check.  The bound date is compared
    with the column after NUMERIC affinity; time() is applied to the bound
    text and to the stored values. *)
Definition covers (numeric : string -> option Number)
    (sql_time : Value -> option string)
    (d : Z) (date time : string) (w : Availability) : bool :=
  Z.eqb (av_doctor_id w) d
  && value_eqb (av_date w) (numeric_affinity numeric date)
  && Bool.eqb (is_available w) true
  && between (sql_time (VText time)) (sql_time (start_time w))
       (sql_time (end_time w)).

(** SELECT * FROM doctor_availability
    WHERE doctor_id = ? AND date = ? AND is_available = 1
      AND time(?) BETWEEN time(start_time) AND time(end_time) *)
Definition select_available (numeric : string -> option Number)
    (sql_time : Value -> option string)
    (d : Z) (date time : string) (db : DB) : option Availability :=
  find (covers numeric sql_time d date time) (doctor_availability db).

(** INSERT INTO appointments
      (patient_id, doctor_id, appointment_date, appointment_time, status, reason)
    VALUES (?, ?, ?, ?, 'Booked', ?)
    The table has no UNIQUE constraint on the slot and foreign keys are not
    enforced: the statement is accepted whatever the table holds. *)
Definition insert_appointment (numeric : string -> option Number)
    (pid d : Z) (date time : string)
    (why : option string) (now : string) (db : DB) : Exn + DB :=
  inr (set_appointments db
         (appointments db ++
          [mkAppointment (autoincrement (map appointment_id (appointments db)))
             pid d (numeric_affinity numeric date)
             (numeric_affinity numeric time) (Some Booked) why now now])).

(** POST /appointment/book.  [sql_time] is time() as the availability
    query of this request evaluates it. *)
Definition book_appointment (numeric : string -> option Number)
    (sql_time : Value -> option string)
    (current_user : option User) (form : BookingForm) (today now : string)
    : Tx Flash :=
  patient_required current_user (fun u =>
    patient <- fetch (select_patient (user_id u)) ;;
    patient_id <- subscript (option_map pat_patient_id patient) ;;
    match required_fields form with
    | None => ret AllFieldsRequired
    | Some (d, date, time) =>
        if String.ltb date today then ret CannotBookPast
        else
          existing <- fetch (select_existing numeric d date time) ;;
          match existing with
          | Some _ => ret SlotAlreadyBooked
          | None =>
              available <-
                fetch (select_available numeric sql_time d date time) ;;
              match available with
              | None => ret DoctorNotAvailable
              | Some _ =>
                  try_except
                    (execute (insert_appointment numeric patient_id d date
                                time (f_reason form) now) ;;;
                     commit ;;;
                     ret AppointmentBooked)
                    (fun e =>
                       rollback ;;;
                       page_queries 2 ;;;
                       ret (ErrorFlash e))
              end
          end
    end).

(** SELECT * FROM appointments WHERE appointment_id = ? AND patient_id = ? *)
Definition select_appointment (id pid : Z) (db : DB) : option Appointment :=
  find (fun a => Z.eqb (appointment_id a) id && Z.eqb (app_patient_id a) pid)
       (appointments db).

(** UPDATE appointments
    SET status = 'Cancelled', updated_at = CURRENT_TIMESTAMP
    WHERE appointment_id = ? *)
Definition update_cancelled (id : Z) (now : string) (db : DB) : Exn + DB :=
  update_appointment_status id (Some "Cancelled") now db.

(** GET /appointment/cancel/<int:appointment_id> *)
Definition cancel_appointment (current_user : option User) (id : Z)
    (today now : string) : Tx Flash :=
  patient_required current_user (fun u =>
    patient <- fetch (select_patient (user_id u)) ;;
    try_except
      (patient_id <- subscript (option_map pat_patient_id patient) ;;
       appointment <- fetch_id id (select_appointment id patient_id) ;;
       match appointment with
       | None => ret AppointmentNotFound
       | Some a =>
           past <- less_than (appointment_date a) today ;;
           if past : bool then ret CannotCancelPast
           else
             execute_id id (update_cancelled id now) ;;;
             commit ;;;
             ret AppointmentCancelled
       end)
      (fun e => rollback ;;; ret (ErrorFlash e))).

End patient_bp.

(** ** blueprints/doctor.py *)

Module doctor_bp.

(** request.form of /appointment/update/<id>; a missing field binds NULL. *)
Record TreatmentForm : Type := mkTreatmentForm {
  f_status : option string;
  f_diagnosis : option string;
  f_prescription : option string;
  f_notes : option string;
  f_follow_up_date : option string
}.

(** SELECT treatment_id FROM treatments WHERE appointment_id = ? *)
Definition select_treatment (id : Z) (db : DB) : option Treatment :=
  find (fun t => Z.eqb (tr_appointment_id t) id) (treatments db).

Definition with_fields (t : Treatment) (form : TreatmentForm) (now : string)
    : Treatment :=
  mkTreatment (treatment_id t) (tr_appointment_id t)
    (f_diagnosis form) (f_prescription form) (f_notes form)
    (f_follow_up_date form) (tr_created_at t) now.

(** UPDATE treatments
    SET diagnosis = ?, prescription = ?, notes = ?, follow_up_date = ?,
        updated_at = CURRENT_TIMESTAMP
    WHERE appointment_id = ? *)
Definition update_treatment (id : Z) (form : TreatmentForm) (now : string)
    (db : DB) : Exn + DB :=
  inr (set_treatments db
         (map (fun t => if Z.eqb (tr_appointment_id t) id
                        then with_fields t form now else t)
              (treatments db))).

(** INSERT INTO treatments
      (appointment_id, diagnosis, prescription, notes, follow_up_date)
    VALUES (?, ?, ?, ?, ?)
    subject to UNIQUE(appointment_id). *)
Definition insert_treatment (id : Z) (form : TreatmentForm) (now : string)
    (db : DB) : Exn + DB :=
  if existsb (fun t => Z.eqb (tr_appointment_id t) id) (treatments db)
  then inl IntegrityError
  else
    inr (set_treatments db
           (treatments db ++
            [mkTreatment (autoincrement (map treatment_id (treatments db))) id
               (f_diagnosis form) (f_prescription form) (f_notes form)
               (f_follow_up_date form) now now])).

(** POST /appointment/update/<int:appointment_id> *)
Definition update_appointment (current_user : option User) (id : Z)
    (form : TreatmentForm) (now : string) : Tx Flash :=
  doctor_required current_user (fun _ =>
    try_except
      (execute_id id (update_appointment_status id (f_status form) now) ;;;
       existing_treatment <- fetch_id id (select_treatment id) ;;
       match existing_treatment with
       | Some _ => execute_id id (update_treatment id form now)
       | None => execute_id id (insert_treatment id form now)
       end ;;;
       commit ;;;
       ret TreatmentUpdated)
      (fun e =>
         rollback ;;;
         page_query_id id ;;;
         page_query_id id ;;;
         ret (ErrorFlash e))).

(** request.form.getlist of /availability. *)
Record AvailabilityForm : Type := mkAvailabilityForm {
  dates : list string;
  start_times : list string;
  end_times : list string;
  availabilities : list string
}.

(** str(i) *)
Definition str (i : nat) : string :=
  NilEmpty.string_of_uint (Nat.to_uint i).

(** SELECT availability_id FROM doctor_availability
    WHERE doctor_id = ? AND date = ? AND start_time = ? *)
Definition same_key (numeric : string -> option Number) (d : Z)
    (date start : string) (w : Availability) : bool :=
  Z.eqb (av_doctor_id w) d
  && value_eqb (av_date w) (numeric_affinity numeric date)
  && value_eqb (start_time w) (numeric_affinity numeric start).

Definition select_window (numeric : string -> option Number) (d : Z)
    (date start : string) (db : DB) : option Availability :=
  find (same_key numeric d date start) (doctor_availability db).

(** UPDATE doctor_availability SET end_time = ?, is_available = ?
    WHERE availability_id = ? *)
Definition update_window (numeric : string -> option Number) (stop : string)
    (open : bool) (aid : Z) (db : DB) : Exn + DB :=
  inr (set_doctor_availability db
         (map (fun w => if Z.eqb (availability_id w) aid
                        then mkAvailability (availability_id w) (av_doctor_id w)
                               (av_date w) (start_time w)
                               (numeric_affinity numeric stop) open
                        else w)
              (doctor_availability db))).

(** INSERT INTO doctor_availability
      (doctor_id, date, start_time, end_time, is_available)
    VALUES (?, ?, ?, ?, ?)
    subject to UNIQUE(doctor_id, date, start_time). *)
Definition insert_window (numeric : string -> option Number) (d : Z)
    (date start stop : string) (open : bool) (db : DB) : Exn + DB :=
  if existsb (same_key numeric d date start) (doctor_availability db)
  then inl IntegrityError
  else
    inr (set_doctor_availability db
           (doctor_availability db ++
            [mkAvailability
               (autoincrement (map availability_id (doctor_availability db)))
               d (numeric_affinity numeric date)
               (numeric_affinity numeric start)
               (numeric_affinity numeric stop) open])).

(** The body of the loop over the submitted rows: declare one window. *)
Definition declare_window (numeric : string -> option Number) (d : Z)
    (date start stop : string) (open : bool) : Tx unit :=
  existing <- fetch (select_window numeric d date start) ;;
  match existing with
  | Some w => execute (update_window numeric stop open (availability_id w))
  | None => execute (insert_window numeric d date start stop open)
  end.

(** POST /availability *)
Definition availability (numeric : string -> option Number)
    (current_user : option User) (form : AvailabilityForm) : Tx Flash :=
  doctor_required current_user (fun u =>
    doctor <- fetch (select_doctor (user_id u)) ;;
    d <- subscript (option_map doc_doctor_id doctor) ;;
    try_except
      (for_range (List.length (dates form)) (fun i =>
         date <- index (dates form) i ;;
         start <- index (start_times form) i ;;
         stop <- index (end_times form) i ;;
         declare_window numeric d date start stop
           (existsb (String.eqb (str i)) (availabilities form))) ;;;
       commit ;;;
       ret AvailabilityUpdated)
      (fun e =>
         rollback ;;;
         page_queries 7 ;;;
         ret (ErrorFlash e))).

End doctor_bp.

(** ** blueprints/admin.py *)

Module admin_bp.

(** POST /appointment/update/<int:appointment_id> *)
Definition update_appointment (current_user : option User) (id : Z)
    (st : option string) (now : string) : Tx Flash :=
  admin_required current_user (fun _ =>
    try_except
      (execute_id id (update_appointment_status id st now) ;;;
       commit ;;;
       ret StatusUpdated)
      (fun e => rollback ;;; ret (ErrorFlash e))).

End admin_bp.

(** ** The system as a transition system

    A request carries what it reads from its environment: the session's
    user, the form or the identifier in the URL, the clock readings, and for
    a booking time() as its availability query evaluates it. *)

Inductive Request : Type :=
  | BookAppointment (sql_time : Value -> option string)
      (current_user : option User)
      (form : patient_bp.BookingForm) (today now : string)
  | CancelAppointment (current_user : option User) (id : Z)
      (today now : string)
  | DoctorUpdate (current_user : option User) (id : Z)
      (form : doctor_bp.TreatmentForm) (now : string)
  | AdminUpdate (current_user : option User) (id : Z)
      (st : option string) (now : string)
  | DeclareAvailability (current_user : option User)
      (form : doctor_bp.AvailabilityForm).

Definition handler (numeric : string -> option Number) (r : Request)
    : Tx Flash :=
  match r with
  | BookAppointment sql_time cu form today now =>
      patient_bp.book_appointment numeric sql_time cu form today now
  | CancelAppointment cu id today now =>
      patient_bp.cancel_appointment cu id today now
  | DoctorUpdate cu id form now => doctor_bp.update_appointment cu id form now
  | AdminUpdate cu id st now => admin_bp.update_appointment cu id st now
  | DeclareAvailability cu form => doctor_bp.availability numeric cu form
  end.

(** The database after a request that was served alone: from its first
    statement to its commit no other connection wrote.  The SELECTs of a
    handler run outside a transaction, so between two connections the
    statements of two requests can interleave; such runs are not steps
    (see [patient_bp.insert_appointment] for what the INSERT of a booking
    does not check). *)
Definition step (numeric : string -> option Number) (r : Request)
    (fs : list bool) (db : DB) : DB :=
  snd (serve (handler numeric r) fs db).

(** ** A concrete instance for the examples

    [plain_numeric] and [clock_time] stand for SQLite in the examples.  They
    agree with SQLite on the texts the examples use and are not meant
    beyond them:
    - [plain_numeric] reads a plain decimal numeral of at most fifteen
      digits, also when followed by a point and zeros ('2027', '10',
      '10.0'), as that integer, and no other text as a number; in
      particular not a text with a colon or an inner hyphen ('09:30',
      '2025-06-02');
    - [clock_time] completes 'HH:MM' to 'HH:MM:00' and keeps 'HH:MM:SS', for
      hours up to 24, and reads a whole number from 0 to 5373484, stored or
      written as such a numeral, as a Julian day, whose time is noon; every
      other value is mapped to NULL here. *)

Definition digit (c : ascii) : option nat :=
  let n := nat_of_ascii c in
  if (Nat.leb 48 n && Nat.leb n 57)%bool then Some (n - 48)%nat else None.

Definition two_digits (a b : ascii) (bound : nat) : bool :=
  match digit a, digit b with
  | Some x, Some y => Nat.ltb (10 * x + y) bound
  | _, _ => false
  end.

(** The leading digits of [s] read in base ten onto [acc], how many there
    were, and the rest of [s]. *)
Fixpoint leading_digits (s : string) (acc : Z) (n : nat)
    : Z * nat * string :=
  match s with
  | EmptyString => (acc, n, s)
  | String c rest =>
      match digit c with
      | Some k => leading_digits rest (10 * acc + Z.of_nat k) (S n)
      | None => (acc, n, s)
      end
  end.

Fixpoint all_zeros (s : string) : bool :=
  match s with
  | EmptyString => true
  | String c rest => Ascii.eqb c "0" && all_zeros rest
  end.

Definition whole (z : Z) : Number :=
  Finite (Qcanon.Q2Qc (QArith_base.inject_Z z)).

Definition plain_numeric (s : string) : option Number :=
  match leading_digits s 0 0 with
  | (z, n, rest) =>
      if (Nat.ltb 0 n && Nat.leb n 15)%bool then
        match rest with
        | EmptyString => Some (whole z)
        | String c zeros =>
            if (Ascii.eqb c "." && all_zeros zeros)%bool
            then Some (whole z) else None
        end
      else None
  end.

Definition hh_mm (s : string) : option string :=
  match s with
  | String h1 (String h2 (String sep (String m1 (String m2 rest)))) =>
      if (two_digits h1 h2 25 && Ascii.eqb sep ":" && two_digits m1 m2 60)%bool
      then
        match rest with
        | EmptyString => Some (String.append s ":00")
        | String sep' (String s1 (String s2 EmptyString)) =>
            if (Ascii.eqb sep' ":" && two_digits s1 s2 60)%bool
            then Some s else None
        | _ => None
        end
      else None
  | _ => None
  end.

Definition julian_day (x : option Number) : option string :=
  match x with
  | Some (Finite q) =>
      let n := QArith_base.Qnum (Qcanon.this q) in
      if (Pos.eqb (QArith_base.Qden (Qcanon.this q)) 1
          && Z.leb 0 n && Z.leb n 5373484)%bool
      then Some "12:00:00" else None
  | _ => None
  end.

Definition clock_time (v : Value) : option string :=
  match v with
  | VText s =>
      match hh_mm s with
      | Some t => Some t
      | None => julian_day (plain_numeric s)
      end
  | VNumber x => julian_day (Some x)
  end.

(** Doctor 1 (user 10) with a morning window on 2025-06-02, doctor 2
    (user 11), patients 1 and 2 (users 20 and 21); no appointments yet. *)
Definition clinic : DB :=
  mkDB
    [mkPatient 1 20 active; mkPatient 2 21 active]
    [mkDoctor 1 10 active; mkDoctor 2 11 active]
    [mkAvailability 1 1 (VText "2025-06-02") (VText "09:00") (VText "12:00")
       true]
    []
    [].

Definition alice : User := mkUser 20 patient.
Definition bob : User := mkUser 21 patient.
Definition dr_smith : User := mkUser 10 doctor.
Definition dr_jones : User := mkUser 11 doctor.
Definition root : User := mkUser 1 admin.

Definition slot_0930 : patient_bp.BookingForm :=
  patient_bp.mkBookingForm (Some 1) (Some "2025-06-02") (Some "09:30")
    (Some "checkup").


(** The clinic after alice's 09:30 visit to doctor 1 was completed. *)
Definition visit : Appointment :=
  mkAppointment 1 1 1 (VText "2025-06-02") (VText "09:30") (Some Completed)
    (Some "checkup")
    "2025-06-01 08:00:00" "2025-06-02 10:00:00".

Definition clinic_after_visit : DB :=
  set_appointments clinic [visit].

Definition flu : doctor_bp.TreatmentForm :=
  doctor_bp.mkTreatmentForm (Some "Completed") (Some "flu") (Some "rest")
    None None.

Definition cold : doctor_bp.TreatmentForm :=
  doctor_bp.mkTreatmentForm (Some "Completed") (Some "cold") (Some "tea")
    (Some "no fever") (Some "2025-06-09").

(** The clinic after alice booked the 09:30 slot of doctor 1. *)
Definition booking : Appointment :=
  mkAppointment 1 1 1 (VText "2025-06-02") (VText "09:30") (Some Booked)
    (Some "checkup")
    "2025-06-01 08:00:00" "2025-06-01 08:00:00".

Definition clinic_booked : DB :=
  set_appointments clinic [booking].

(** The clinic after the administrator blacklisted doctor 1 and patient 1
    (admin.py, delete_doctor and delete_patient): the ledger keeps the
    doctor's windows. *)
Definition clinic_blacklisted : DB :=
  mkDB
    [mkPatient 1 20 blacklisted; mkPatient 2 21 active]
    [mkDoctor 1 10 blacklisted; mkDoctor 2 11 active]
    (doctor_availability clinic)
    []
    [].

(** alice books 09:30, cancels, bob books 09:30, and the administrator sets
    alice's appointment back to Booked. *)
Definition rebooked : DB :=
  step plain_numeric
    (BookAppointment clock_time (Some bob) slot_0930 "2025-06-01" "t3") []
    (step plain_numeric
       (CancelAppointment (Some alice) 1 "2025-06-01" "t2") []
       (step plain_numeric
          (BookAppointment clock_time (Some alice) slot_0930 "2025-06-01" "t1")
          [] clinic)).

Definition double_booked : DB :=
  step plain_numeric (AdminUpdate (Some root) 1 (Some "Booked") "t4") []
    rebooked.
(** ** Specification-level views of the writes *)

(** The appointments table after a status write to [id]. *)
Definition set_status (id : Z) (v : option Status) (now : string)
    (l : list Appointment) : list Appointment :=
  map (fun a => if Z.eqb (appointment_id a) id then with_status a v now else a) l.

(** The treatments table after an upsert for appointment [id]. *)
Definition upsert_treatment (id : Z) (form : doctor_bp.TreatmentForm)
    (now : string) (l : list Treatment) : list Treatment :=
  if existsb (fun t => Z.eqb (tr_appointment_id t) id) l
  then map (fun t => if Z.eqb (tr_appointment_id t) id
                     then doctor_bp.with_fields t form now else t) l
  else l ++ [mkTreatment (autoincrement (map treatment_id l)) id
               (doctor_bp.f_diagnosis form) (doctor_bp.f_prescription form)
               (doctor_bp.f_notes form) (doctor_bp.f_follow_up_date form)
               now now].

(** What an appointment is about: every column but status and updated_at. *)
Definition particulars (a : Appointment)
    : Z * Z * Z * Value * Value * option string * string :=
  (appointment_id a, app_patient_id a, app_doctor_id a, appointment_date a,
   appointment_time a, reason a, app_created_at a).

(** A status write to [id], said column by column: the table keeps its rows
    in their order, a row with the identifier [id] has the status [v] and
    the update time [now], every other row has the status and the update
    time it had, and no row changes in any other column. *)
Definition status_written (id : Z) (v : option Status) (now : string)
    (l l' : list Appointment) : Prop :=
  Forall2
    (fun a a' =>
       particulars a' = particulars a
       /\ (appointment_id a = id -> status a' = v /\ app_updated_at a' = now)
       /\ (appointment_id a <> id ->
           status a' = status a /\ app_updated_at a' = app_updated_at a))
    l l'.

(** A treatment upsert for appointment [id], said column by column: the
    records of other appointments are the ones there were, there is a
    record for [id], and every record for [id] holds the four submitted
    fields and the update time [now]. *)
Definition treatment_recorded (id : Z) (form : doctor_bp.TreatmentForm)
    (now : string) (l l' : list Treatment) : Prop :=
  (forall t, tr_appointment_id t <> id -> (In t l' <-> In t l))
  /\ (exists t, In t l' /\ tr_appointment_id t = id)
  /\ (forall t, In t l' -> tr_appointment_id t = id ->
        diagnosis t = doctor_bp.f_diagnosis form
        /\ prescription t = doctor_bp.f_prescription form
        /\ notes t = doctor_bp.f_notes form
        /\ follow_up_date t = doctor_bp.f_follow_up_date form
        /\ tr_updated_at t = now).

(** Both effects of the clinician's update, applied together. *)
Definition applied (id : Z) (v : option Status) (form : doctor_bp.TreatmentForm)
    (now : string) (db : DB) : DB :=
  mkDB (patients db) (doctors db) (doctor_availability db)
    (set_status id v now (appointments db))
    (upsert_treatment id form now (treatments db)).

(** PRIMARY KEY and UNIQUE constraints of the schema. *)
Definition appointment_ids_unique (db : DB) : Prop :=
  NoDup (map appointment_id (appointments db)).

Definition treatments_unique (db : DB) : Prop :=
  NoDup (map tr_appointment_id (treatments db)).

Definition window_key (w : Availability) : Z * Value * Value :=
  (av_doctor_id w, av_date w, start_time w).

Definition windows_unique (db : DB) : Prop :=
  NoDup (map window_key (doctor_availability db)).

(** ** Slots and the double-booking invariant *)

(** An appointment holds its slot unless its status is Cancelled or
    Rescheduled. *)
Definition holds_slot (a : Appointment) : Prop :=
  status a <> Some Cancelled /\ status a <> Some Rescheduled.

Definition same_slot (a b : Appointment) : Prop :=
  app_doctor_id a = app_doctor_id b
  /\ appointment_date a = appointment_date b
  /\ appointment_time a = appointment_time b.

(** No two rows of the appointments table hold the same slot. *)
Definition no_double_booking (db : DB) : Prop :=
  forall a b,
    In a (appointments db) -> In b (appointments db) ->
    appointment_id a <> appointment_id b ->
    same_slot a b -> holds_slot a -> holds_slot b -> False.

(** No appointment has a NULL status. *)
Definition statuses_set (db : DB) : Prop :=
  forall a, In a (appointments db) -> status a <> None.

(** ** Reachable states *)

(** A freshly initialised database: directory and ledger as seeded, no
    appointment and no treatment yet. *)
Definition fresh (db : DB) : Prop :=
  appointments db = [] /\ treatments db = [] /\ windows_unique db.

(** States reachable from a fresh database by requests served one at a
    time, each let through by [allowed] in the state it arrives in; the
    oracle is arbitrary, and so is what time() reads for each booking. *)
Inductive reachable (numeric : string -> option Number)
    (allowed : DB -> Request -> Prop) : DB -> Prop :=
  | reach_fresh (db : DB) :
      fresh db -> reachable numeric allowed db
  | reach_step (db : DB) (r : Request) (fs : list bool) :
      reachable numeric allowed db -> allowed db r ->
      reachable numeric allowed (step numeric r fs db).

(** Booking, cancellation, the doctor's status update and the admin's
    status override. *)
Definition appointment_operation (r : Request) : Prop :=
  match r with
  | BookAppointment _ _ _ _ _ | CancelAppointment _ _ _ _
  | DoctorUpdate _ _ _ _ | AdminUpdate _ _ _ _ => True
  | DeclareAvailability _ _ => False
  end.

(** A status write that cannot give a slot a second holder: it is refused
    by the CHECK constraint, or it writes Cancelled or Rescheduled, or it
    writes Booked or Completed to rows that are Booked or Completed
    already. *)
Definition keeps_slots (db : DB) (id : Z) (st : option string) : Prop :=
  forall a, In a (appointments db) -> appointment_id a = id ->
    match check_status st with
    | None => True
    | Some (Some Cancelled) | Some (Some Rescheduled) => True
    | Some (Some Booked) | Some (Some Completed) =>
        status a = Some Booked \/ status a = Some Completed
    | Some None => False
    end.

(** Every request, with the status writes restricted to [keeps_slots]. *)
Definition guarded (db : DB) (r : Request) : Prop :=
  match r with
  | DoctorUpdate _ id form _ => keeps_slots db id (doctor_bp.f_status form)
  | AdminUpdate _ id st _ => keeps_slots db id st
  | _ => True
  end.

(** The window a declaration leaves under its key. *)
Definition redeclared (numeric : string -> option Number) (stop : string)
    (open : bool) (w : Availability) : Availability :=
  mkAvailability (availability_id w) (av_doctor_id w) (av_date w)
    (start_time w) (numeric_affinity numeric stop) open.

(** The ledger after one declaration: the pure effect of the loop body of
    [doctor_bp.availability]. *)
Definition declared (numeric : string -> option Number) (d : Z)
    (date start stop : string) (open : bool)
    (l : list Availability) : list Availability :=
  match find (doctor_bp.same_key numeric d date start) l with
  | Some w =>
      map (fun x => if Z.eqb (availability_id x) (availability_id w)
                    then redeclared numeric stop open x else x) l
  | None =>
      l ++ [mkAvailability (autoincrement (map availability_id l))
              d (numeric_affinity numeric date)
              (numeric_affinity numeric start)
              (numeric_affinity numeric stop) open]
  end.

(** A declaration under [key], said column by column: the ledger keeps its
    rows in their order, with their identifiers and keys; a row under [key]
    has the end time [stop] and the flag [open]; every other row has the
    end time and the flag it had. *)
Definition window_redeclared (key : Z * Value * Value) (stop : Value)
    (open : bool) (l l' : list Availability) : Prop :=
  Forall2
    (fun x x' =>
       availability_id x' = availability_id x
       /\ window_key x' = window_key x
       /\ (window_key x = key -> end_time x' = stop /\ is_available x' = open)
       /\ (window_key x <> key ->
           end_time x' = end_time x /\ is_available x' = is_available x))
    l l'.

(** Everything but the ledger is as in [db]. *)
Definition same_but_windows (db w : DB) : Prop :=
  patients w = patients db /\ doctors w = doctors db
  /\ appointments w = appointments db /\ treatments w = treatments db.

(** isOpenAt(clinicianId, date, time) in the words of the specification:
    some window of that clinician and date has the open flag set and
    start <= time <= end.  The window's date is the value the requested
    date denotes; the times are read through [sql_time]. *)
Definition isOpenAt (numeric : string -> option Number)
    (sql_time : Value -> option string) (db : DB)
    (d : Z) (date time : string) : Prop :=
  exists w t lo hi,
    In w (doctor_availability db)
    /\ av_doctor_id w = d /\ av_date w = numeric_affinity numeric date
    /\ is_available w = true
    /\ sql_time (VText time) = Some t
    /\ sql_time (start_time w) = Some lo
    /\ sql_time (end_time w) = Some hi
    /\ String.leb lo t = true /\ String.leb t hi = true.

(** Some appointment at (clinician, date, time) is Booked or Completed: its
    date and time are the values the requested date and time denote. *)
Definition slot_taken (numeric : string -> option Number) (db : DB) (d : Z)
    (date time : string) : Prop :=
  exists a,
    In a (appointments db)
    /\ app_doctor_id a = d
    /\ appointment_date a = numeric_affinity numeric date
    /\ appointment_time a = numeric_affinity numeric time
    /\ (status a = Some Booked \/ status a = Some Completed).

(** ** Transactions that do not publish, and transactions that fail safely *)

(** [keeps m]: [m] never changes the committed database. *)
Definition keeps {A : Type} (m : Tx A) : Prop :=
  forall c r c', m c = (r, c') -> committed c' = committed c.

(** [safe m]: when [m] raises, the committed database is the one it
    started from. *)
Definition safe {A : Type} (m : Tx A) : Prop :=
  forall c e c', m c = (inl e, c') -> committed c' = committed c.


(** [preserves P m]: [m] maintains [P] on the working database. *)
Definition preserves {A : Type} (P : DB -> Prop) (m : Tx A) : Prop :=
  forall c r c', m c = (r, c') -> P (working c) -> P (working c').

(** ** Further views used by the properties of the handlers *)

(** The role a request's route demands, and the user who sends it. *)
Definition required_role (r : Request) : Role :=
  match r with
  | BookAppointment _ _ _ _ _ | CancelAppointment _ _ _ _ => patient
  | DoctorUpdate _ _ _ _ | DeclareAvailability _ _ => doctor
  | AdminUpdate _ _ _ _ => admin
  end.

Definition request_user (r : Request) : option User :=
  match r with
  | BookAppointment _ cu _ _ _ | CancelAppointment cu _ _ _
  | DoctorUpdate cu _ _ _ | AdminUpdate cu _ _ _
  | DeclareAvailability cu _ => cu
  end.

(** [l1] is an initial segment of [l2]. *)
Definition prefix {A : Type} (l1 l2 : list A) : Prop :=
  exists rest, l2 = l1 ++ rest.

(** Row [i] of the availability form, when all three lists reach it. *)
Definition form_row (form : doctor_bp.AvailabilityForm) (i : nat)
    : option (string * string * string * bool) :=
  match nth_error (doctor_bp.dates form) i,
        nth_error (doctor_bp.start_times form) i,
        nth_error (doctor_bp.end_times form) i with
  | Some date, Some start, Some stop =>
      Some (date, start, stop,
            existsb (String.eqb (doctor_bp.str i))
              (doctor_bp.availabilities form))
  | _, _, _ => None
  end.

(** The ledger after declaring the rows [ix] of the form, in order; [None]
    when a row is incomplete. *)
Fixpoint declare_rows (numeric : string -> option Number) (d : Z)
    (form : doctor_bp.AvailabilityForm)
    (ix : list nat) (l : list Availability) : option (list Availability) :=
  match ix with
  | [] => Some l
  | i :: ix' =>
      match form_row form i with
      | Some (date, start, stop, open) =>
          declare_rows numeric d form ix'
            (declared numeric d date start stop open l)
      | None => None
      end
  end.

(** What a window says: every column but its id. *)
Definition window_columns (w : Availability)
    : Z * Value * Value * Value * bool :=
  (av_doctor_id w, av_date w, start_time w, end_time w, is_available w).

(** ** The user directory (database.py, users table)

    The routes of auth.py and the directory routes of admin.py read and
    write the users table beside the tables above.  [site.Site] adds it to
    the database; transactions over a site work as those over [DB].
    Werkzeug's password hashing is taken as parameters: [check_password_hash]
    and [generate_password_hash], the latter with the salt it draws.
    Foreign keys are declared but never enforced: no connection sets
    PRAGMA foreign_keys. *)

Module site.

(** users: email TEXT UNIQUE NOT NULL,
    role CHECK(role IN ('admin', 'doctor', 'patient')),
    status TEXT DEFAULT 'active' CHECK(status IN ('active', 'blacklisted')).
    The status may be NULL: a NULL passes the CHECK, and the edit routes of
    admin.py write the submitted status, which is None when the field is
    missing. *)
Record UserRow : Type := mkUserRow {
  ur_user_id : Z;
  ur_name : string;
  ur_email : string;
  ur_password : string;
  ur_role : Role;
  ur_status : option AccountStatus
}.

Record Site : Type := mkSite {
  users : list UserRow;
  base : DB
}.

Definition set_users (s : Site) (l : list UserRow) : Site :=
  mkSite l (base s).

Definition set_base (s : Site) (db : DB) : Site :=
  mkSite (users s) db.

Record Conn : Type := mkConn {
  committed : Site;
  working : Site;
  faults : list bool
}.

Definition Tx (A : Type) : Type := Conn -> (Exn + A) * Conn.

Definition ret {A : Type} (a : A) : Tx A :=
  fun c => (inr a, c).

Definition bind {A B : Type} (m : Tx A) (k : A -> Tx B) : Tx B :=
  fun c =>
    match m c with
    | (inl e, c') => (inl e, c')
    | (inr a, c') => k a c'
    end.

Definition raise {A : Type} (e : Exn) : Tx A :=
  fun c => (inl e, c).

Definition try_except {A : Type} (body : Tx A) (handler : Exn -> Tx A) : Tx A :=
  fun c =>
    match body c with
    | (inl e, c') => handler e c'
    | (inr a, c') => (inr a, c')
    end.

Definition storage_call : Tx unit :=
  fun c =>
    match faults c with
    | true :: fs => (inl OperationalError, mkConn (committed c) (working c) fs)
    | false :: fs => (inr tt, mkConn (committed c) (working c) fs)
    | [] => (inr tt, c)
    end.

Definition fetch {A : Type} (q : Site -> A) : Tx A :=
  bind storage_call (fun _ c => (inr (q (working c)), c)).

Definition execute (stmt : Site -> Exn + Site) : Tx unit :=
  bind storage_call (fun _ c =>
    match stmt (working c) with
    | inl e => (inl e, c)
    | inr s => (inr tt, mkConn (committed c) s (faults c))
    end).

Definition commit : Tx unit :=
  bind storage_call (fun _ c =>
    (inr tt, mkConn (working c) (working c) (faults c))).

(** Binding an identifier taken from the URL; see [int64]. *)
Definition bind_int (n : Z) : Tx unit :=
  if int64 n then ret tt else raise OverflowError.

Definition fetch_id {A : Type} (id : Z) (q : Site -> A) : Tx A :=
  bind storage_call (fun _ =>
  bind (bind_int id) (fun _ c => (inr (q (working c)), c))).

Definition execute_id (id : Z) (stmt : Site -> Exn + Site) : Tx unit :=
  bind storage_call (fun _ =>
  bind (bind_int id) (fun _ c =>
    match stmt (working c) with
    | inl e => (inl e, c)
    | inr s => (inr tt, mkConn (committed c) s (faults c))
    end)).

Definition rollback : Tx unit :=
  fun c => (inr tt, mkConn (committed c) (committed c) (faults c)).

Fixpoint page_queries (n : nat) : Tx unit :=
  match n with
  | O => ret tt
  | S n' => bind storage_call (fun _ => page_queries n')
  end.

Definition subscript {A : Type} (row : option A) : Tx A :=
  match row with
  | Some a => ret a
  | None => raise TypeError
  end.

(** for x in xs: body x *)
Fixpoint for_in {A : Type} (xs : list A) (body : A -> Tx unit) : Tx unit :=
  match xs with
  | [] => ret tt
  | x :: xs' => bind (body x) (fun _ => for_in xs' body)
  end.

(** A statement on the tables of [DB], run on the site. *)
Definition on_base (stmt : DB -> Exn + DB) (s : Site) : Exn + Site :=
  match stmt (base s) with
  | inl e => inl e
  | inr db => inr (set_base s db)
  end.

(** One request on a site. *)
Definition serve {A : Type} (h : Tx A) (fs : list bool) (s : Site)
    : (Exn + A) * Site :=
  match h (mkConn s s fs) with
  | (r, c) => (r, committed c)
  end.

End site.

Declare Scope site_scope.
Delimit Scope site_scope with site.
Notation "x <- m ;; k" := (site.bind m (fun x => k))
  (at level 61, m at next level, right associativity) : site_scope.
Notation "m ;;; k" := (site.bind m (fun _ => k))
  (at level 61, right associativity) : site_scope.

(** Python truthiness of a form field: present and non-empty. *)
Definition truthy (v : option string) : bool :=
  match v with
  | Some s => negb (String.eqb s "")
  | None => false
  end.

Definition text (v : option string) : string :=
  match v with
  | Some s => s
  | None => ""
  end.

(** ** app.py *)

Module app.

(** load_user: SELECT * FROM users WHERE user_id = ?; the status column is
    not consulted. *)
Definition load_user (uid : Z) (s : site.Site) : option User :=
  match find (fun r => Z.eqb (site.ur_user_id r) uid) (site.users s) with
  | Some r => Some (mkUser (site.ur_user_id r) (site.ur_role r))
  | None => None
  end.

End app.

(** ** Statements on the directory *)

Definition set_patients (db : DB) (l : list PatientRow) : DB :=
  mkDB l (doctors db) (doctor_availability db) (appointments db)
    (treatments db).

Definition set_doctors (db : DB) (l : list DoctorRow) : DB :=
  mkDB (patients db) l (doctor_availability db) (appointments db)
    (treatments db).

(** SELECT * FROM users WHERE email = ? *)
Definition select_user_by_email (email : string) (s : site.Site)
    : option site.UserRow :=
  find (fun r => String.eqb (site.ur_email r) email) (site.users s).

(** INSERT INTO users (name, email, password, role, status)
    VALUES (?, ?, ?, ?, 'active'), subject to UNIQUE(email). *)
Definition insert_user (name email password : string) (r : Role)
    (s : site.Site) : Exn + site.Site :=
  if existsb (fun x => String.eqb (site.ur_email x) email) (site.users s)
  then inl IntegrityError
  else
    inr (site.set_users s
           (site.users s ++
            [site.mkUserRow (autoincrement (map site.ur_user_id (site.users s)))
               name email password r (Some active)])).

(** cursor.lastrowid after INSERT INTO users: the largest user_id. *)
Definition lastrowid_users (s : site.Site) : Z :=
  fold_right Z.max 0 (map site.ur_user_id (site.users s)).

(** CHECK(gender IN ('Male', 'Female', 'Other')); NULL passes. *)
Definition check_gender (g : option string) : bool :=
  match g with
  | None => true
  | Some s =>
      String.eqb s "Male" || String.eqb s "Female" || String.eqb s "Other"
  end.

(** INSERT INTO patients (user_id, age, gender, ..., status)
    VALUES (?, ?, ?, ..., 'active'), subject to UNIQUE(user_id) and the
    CHECK on gender. *)
Definition insert_patient (uid : Z) (gender : option string) (db : DB)
    : Exn + DB :=
  if existsb (fun p => Z.eqb (pat_user_id p) uid) (patients db)
     || negb (check_gender gender)
  then inl IntegrityError
  else
    inr (set_patients db
           (patients db ++
            [mkPatient (autoincrement (map pat_patient_id (patients db)))
               uid active])).

(** INSERT INTO doctors (user_id, specialization, ..., status)
    VALUES (?, ?, ..., 'active'), subject to UNIQUE(user_id). *)
Definition insert_doctor (uid : Z) (db : DB) : Exn + DB :=
  if existsb (fun d => Z.eqb (doc_user_id d) uid) (doctors db)
  then inl IntegrityError
  else
    inr (set_doctors db
           (doctors db ++
            [mkDoctor (autoincrement (map doc_doctor_id (doctors db)))
               uid active])).

(** UPDATE users SET status = 'blacklisted' WHERE user_id = ? *)
Definition blacklist_user (uid : Z) (s : site.Site) : Exn + site.Site :=
  inr (site.set_users s
         (map (fun r => if Z.eqb (site.ur_user_id r) uid
                        then site.mkUserRow (site.ur_user_id r) (site.ur_name r)
                               (site.ur_email r) (site.ur_password r)
                               (site.ur_role r) (Some blacklisted)
                        else r)
              (site.users s))).


(** UPDATE patients SET status = 'blacklisted' WHERE patient_id = ? *)
Definition blacklist_patient (id : Z) (db : DB) : Exn + DB :=
  inr (set_patients db
         (map (fun p => if Z.eqb (pat_patient_id p) id
                        then mkPatient (pat_patient_id p) (pat_user_id p)
                               blacklisted
                        else p)
              (patients db))).

(** ** blueprints/auth.py *)

Module auth_bp.

Inductive Outcome : Type :=
  | RedirectIndex        (* current_user.is_authenticated *)
  | ProvideBoth          (* 'Please provide both email and password' *)
  | Suspended            (* 'Your account has been suspended. ...' *)
  | LoggedIn (u : User)  (* login_user(user), redirect to the dashboard *)
  | InvalidCredentials   (* 'Invalid email or password' *)
  | FillRequired         (* 'Please fill in all required fields' *)
  | PasswordsDiffer      (* 'Passwords do not match' *)
  | PasswordTooShort     (* 'Password must be at least 6 characters' *)
  | EmailRegistered      (* 'Email already registered' *)
  | Registered           (* 'Registration successful! Please login.' *)
  | RegistrationFailed (e : Exn).  (* f'Registration failed: {e}' *)

Local Open Scope site_scope.

(** POST /login *)
Definition login (check_password_hash : string -> string -> bool)
    (current_user : option User) (email password : option string)
    : site.Tx Outcome :=
  match current_user with
  | Some _ => site.ret RedirectIndex
  | None =>
      if negb (truthy email) || negb (truthy password)
      then site.ret ProvideBoth
      else
        user_data <- site.fetch (select_user_by_email (text email)) ;;
        match user_data with
        | Some r =>
            if check_password_hash (site.ur_password r) (text password)
            then
              match site.ur_status r with
              | Some blacklisted => site.ret Suspended
              | _ =>
                  site.ret (LoggedIn (mkUser (site.ur_user_id r)
                                        (site.ur_role r)))
              end
            else site.ret InvalidCredentials
        | None => site.ret InvalidCredentials
        end
  end.

(** request.form of /register: the fields the route tests or the schema
    constrains.  Age, contact, address, blood group and emergency contact
    are stored as submitted. *)
Record RegisterForm : Type := mkRegisterForm {
  f_name : option string;
  f_email : option string;
  f_password : option string;
  f_confirm_password : option string;
  f_gender : option string
}.

(** POST /register.  Text is a string of one-byte characters, so that
    len(password) is [String.length]. *)
Definition register (generate_password_hash : string -> string -> string)
    (salt : string) (current_user : option User) (form : RegisterForm)
    : site.Tx Outcome :=
  match current_user with
  | Some _ => site.ret RedirectIndex
  | None =>
      if negb (truthy (f_name form) && truthy (f_email form)
               && truthy (f_password form)
               && truthy (f_confirm_password form))
      then site.ret FillRequired
      else if negb (String.eqb (text (f_password form))
                      (text (f_confirm_password form)))
      then site.ret PasswordsDiffer
      else if Nat.ltb (String.length (text (f_password form))) 6
      then site.ret PasswordTooShort
      else
        existing <- site.fetch (select_user_by_email (text (f_email form))) ;;
        match existing with
        | Some _ => site.ret EmailRegistered
        | None =>
            site.try_except
              (site.execute
                 (insert_user (text (f_name form)) (text (f_email form))
                    (generate_password_hash salt (text (f_password form)))
                    patient) ;;;
               user_id <- (fun c => (inr (lastrowid_users (site.working c)), c)) ;;
               site.execute (site.on_base (insert_patient user_id
                                             (f_gender form))) ;;;
               site.commit ;;;
               site.ret Registered)
              (fun e => site.rollback ;;; site.ret (RegistrationFailed e))
        end
  end.

End auth_bp.

(** ** blueprints/admin.py, the directory routes *)

Module admin_directory.

Inductive Outcome : Type :=
  | LoginRequired        (* flask-login: 'Please log in to access this
                            page.' *)
  | AccessDenied         (* 'Access denied. Admin privileges required.' *)
  | DoctorBlacklisted    (* 'Doctor has been blacklisted' *)
  | PatientBlacklisted   (* 'Patient has been blacklisted' *)
  | ErrorFlash (e : Exn) (* f'Error: {str(e)}' *)
  | FillRequired         (* 'Please fill in all required fields' *)
  | EmailExists          (* 'Email already exists' *)
  | DoctorAdded          (* 'Doctor added successfully!' *)
  | ErrorAdding (e : Exn).  (* f'Error adding doctor: {str(e)}' *)

Local Open Scope site_scope.

(** @login_required above @admin_required. *)
Definition admin_required (current_user : option User)
    (f : site.Tx Outcome) : site.Tx Outcome :=
  match current_user with
  | Some u => if role_eqb (role u) admin then f else site.ret AccessDenied
  | None => site.ret LoginRequired
  end.


(** SELECT user_id FROM patients WHERE patient_id = ? *)
Definition select_patient_by_id (id : Z) (s : site.Site) : option PatientRow :=
  find (fun p => Z.eqb (pat_patient_id p) id) (patients (site.base s)).


(** GET /patient/delete/<int:patient_id> *)
Definition delete_patient (current_user : option User) (patient_id : Z)
    : site.Tx Outcome :=
  admin_required current_user
    (site.try_except
       (patient <- site.fetch_id patient_id
                     (select_patient_by_id patient_id) ;;
        user_id <- site.subscript (option_map pat_user_id patient) ;;
        site.execute (blacklist_user user_id) ;;;
        site.execute_id patient_id
          (site.on_base (blacklist_patient patient_id)) ;;;
        site.commit ;;;
        site.ret PatientBlacklisted)
       (fun e => site.rollback ;;; site.ret (ErrorFlash e))).

(** request.form of /doctor/add: the fields the route tests.  Department,
    contact, qualification and experience are stored as submitted. *)
Record DoctorForm : Type := mkDoctorForm {
  f_name : option string;
  f_email : option string;
  f_password : option string;
  f_specialization : option string
}.

(** time_slots = [('09:00', '12:00'), ('14:00', '17:00')] *)
Definition time_slots : list (string * string) :=
  [("09:00", "12:00"); ("14:00", "17:00")].

(** POST /doctor/add.  [day i] is
    (datetime.now() + timedelta(days=i)).strftime('%Y-%m-%d').  After the
    INSERT INTO doctors the route reads cursor.lastrowid again, but [cursor]
    is still the cursor of the INSERT INTO users: the value bound to
    doctor_id is the new user's id. *)
Definition add_doctor (numeric : string -> option Number)
    (generate_password_hash : string -> string -> string)
    (salt : string) (day : nat -> string) (current_user : option User)
    (form : DoctorForm) : site.Tx Outcome :=
  admin_required current_user
    (if negb (truthy (f_name form) && truthy (f_email form)
              && truthy (f_password form) && truthy (f_specialization form))
     then site.page_queries 1 ;;; site.ret FillRequired
     else
       existing <- site.fetch (select_user_by_email (text (f_email form))) ;;
       match existing with
       | Some _ => site.page_queries 1 ;;; site.ret EmailExists
       | None =>
           site.try_except
             (site.execute
                (insert_user (text (f_name form)) (text (f_email form))
                   (generate_password_hash salt (text (f_password form)))
                   doctor) ;;;
              user_id <- (fun c => (inr (lastrowid_users (site.working c)), c)) ;;
              site.execute (site.on_base (insert_doctor user_id)) ;;;
              doctor_id <- (fun c => (inr user_id, c)) ;;
              site.for_in (seq 0 7) (fun i =>
                site.for_in time_slots (fun slot =>
                  site.execute
                    (site.on_base
                       (doctor_bp.insert_window numeric doctor_id (day i)
                          (fst slot) (snd slot) true)))) ;;;
              site.commit ;;;
              site.ret DoctorAdded)
             (fun e =>
                site.rollback ;;;
                site.page_queries 1 ;;;
                site.ret (ErrorAdding e))
       end).

End admin_directory.

(** Transactions on a site that do not publish, and that fail safely. *)
Definition site_keeps {A : Type} (m : site.Tx A) : Prop :=
  forall c r c', m c = (r, c') -> site.committed c' = site.committed c.

Definition site_safe {A : Type} (m : site.Tx A) : Prop :=
  forall c e c', m c = (inl e, c') -> site.committed c' = site.committed c.

(** ** Instances for the directory examples *)

(** A stand-in for Werkzeug in the examples: the 'hash' is the salt, a
    dollar sign and the password. *)
Definition toy_hash (salt password : string) : string :=
  String.append salt (String.append "$" password).

Fixpoint after_dollar (s : string) : string :=
  match s with
  | EmptyString => EmptyString
  | String c rest => if Ascii.eqb c "$" then rest else after_dollar rest
  end.

Definition toy_check (hash password : string) : bool :=
  String.eqb (after_dollar hash) password.

(** The clinic with its user directory. *)
Definition clinic_site : site.Site :=
  site.mkSite
    [site.mkUserRow 1 "System Admin" "admin@hospital.com" "s$admin123" admin
       (Some active);
     site.mkUserRow 10 "Dr. John Smith" "john.smith@hospital.com"
       "s$doctor123" doctor (Some active);
     site.mkUserRow 11 "Dr. Sarah Jones" "sarah.j@hospital.com"
       "s$doctor123" doctor (Some active);
     site.mkUserRow 20 "Alice" "alice@example.com" "s$alice-pw" patient
       (Some active);
     site.mkUserRow 21 "Bob" "bob@example.com" "s$bob-pw" patient
       (Some active)]
    clinic.

(** ** Views of the directory routes *)

(** The default windows of a new doctor: the two time slots on each of the
    seven days from today, open. *)
Definition default_windows (numeric : string -> option Number) (d : Z)
    (day : nat -> string) : list (Z * Value * Value * Value * bool) :=
  flat_map
    (fun i => map (fun slot => (d, numeric_affinity numeric (day i),
                                numeric_affinity numeric (fst slot),
                                numeric_affinity numeric (snd slot), true))
                admin_directory.time_slots)
    (seq 0 7).

(** [s'] is [s] with windows of the given columns appended to the ledger. *)
Definition appends_windows (s s' : site.Site)
    (cols : list (Z * Value * Value * Value * bool)) : Prop :=
  site.users s' = site.users s
  /\ exists ws,
       site.base s' =
       set_doctor_availability (site.base s)
         (doctor_availability (site.base s) ++ ws)
       /\ map window_columns ws = cols.

(** The calendar of the examples. *)
Definition june (i : nat) : string :=
  String.append "2025-06-0" (doctor_bp.str (S i)).
(** ** Generic facts *)

Lemma find_none_existsb {A : Type} (f : A -> bool) (l : list A) :
  find f l = None -> existsb f l = false.
Proof.
  induction l as [|x l IH]; simpl; [reflexivity|].
  destruct (f x); [discriminate|]. exact IH.
Qed.

Lemma find_some_existsb {A : Type} (f : A -> bool) (l : list A) (a : A) :
  find f l = Some a -> existsb f l = true.
Proof.
  intros H. apply find_some in H. apply existsb_exists.
  exists a. exact H.
Qed.


Lemma map_id_when {A : Type} (f : A -> A) (l : list A) :
  (forall x, In x l -> f x = x) -> map f l = l.
Proof.
  induction l as [|x l IH]; simpl; intros H; [reflexivity|].
  rewrite H by (left; reflexivity). rewrite IH; [reflexivity|].
  intros y Hy. apply H. right. exact Hy.
Qed.

Lemma string_ltb_irrefl (s : string) : String.ltb s s = false.
Proof.
  unfold String.ltb.
  assert (H : String.compare s s = Eq).
  { induction s as [|c s IH]; simpl; [reflexivity|].
    assert (Hc : Ascii.compare c c = Eq).
    { unfold Ascii.compare. apply N.compare_refl. }
    rewrite Hc. exact IH. }
  rewrite H. reflexivity.
Qed.

Lemma string_leb_refl (s : string) : String.leb s s = true.
Proof.
  unfold String.leb.
  generalize (string_ltb_irrefl s). unfold String.ltb.
  destruct (String.compare s s) eqn:E; try reflexivity; try discriminate.
  intros _.
  assert (H := String.compare_antisym s s). rewrite E in H. discriminate.
Qed.

Lemma string_ltb_not_leb (a b : string) :
  String.ltb a b = true -> String.leb b a = false.
Proof.
  unfold String.ltb, String.leb. intros H.
  rewrite (String.compare_antisym b a).
  destruct (String.compare a b); simpl; congruence.
Qed.


Lemma NoDup_map_eq {A B : Type} (f : A -> B) (l : list A) (x y : A) :
  NoDup (map f l) -> In x l -> In y l -> f x = f y -> x = y.
Proof.
  induction l as [|z l IH]; simpl; intros Hnd Hx Hy Hf; [contradiction|].
  inversion Hnd as [|k ks Hnotin Hnd']; subst.
  destruct Hx as [->|Hx]; destruct Hy as [->|Hy]; auto.
  - exfalso. apply Hnotin. rewrite Hf. apply in_map. exact Hy.
  - exfalso. apply Hnotin. rewrite <- Hf. apply in_map. exact Hx.
Qed.

Lemma find_snoc_none {A : Type} (f : A -> bool) (l : list A) (y : A) :
  find f l = None -> f y = false -> find f (l ++ [y]) = None.
Proof.
  induction l as [|x l IH]; simpl; intros Hl Hy.
  - rewrite Hy. reflexivity.
  - destruct (f x); [discriminate|]. apply IH; assumption.
Qed.

Lemma find_snoc_some {A : Type} (f : A -> bool) (l : list A) (y : A) :
  find f l = None -> f y = true -> find f (l ++ [y]) = Some y.
Proof.
  induction l as [|x l IH]; simpl; intros Hl Hy.
  - rewrite Hy. reflexivity.
  - destruct (f x); [discriminate|]. apply IH; assumption.
Qed.

(** ** Values *)

Lemma number_eqb_eq (x y : Number) : number_eqb x y = true <-> x = y.
Proof.
  destruct x as [p|a], y as [q|b]; simpl; split; intros H;
    try discriminate; try (inversion H; fail).
  - apply QArith_base.Qeq_bool_iff in H. f_equal.
    apply Qcanon.Qc_is_canon. exact H.
  - inversion H; subst. apply QArith_base.Qeq_bool_iff.
    apply QArith_base.Qeq_refl.
  - apply Bool.eqb_prop in H. congruence.
  - inversion H; subst. apply Bool.eqb_reflx.
Qed.

Lemma value_eqb_eq (v w : Value) : value_eqb v w = true <-> v = w.
Proof.
  destruct v as [x|s], w as [y|t]; simpl; split; intros H;
    try discriminate; try (inversion H; fail).
  - apply number_eqb_eq in H. congruence.
  - inversion H; subst. apply number_eqb_eq. reflexivity.
  - apply String.eqb_eq in H. congruence.
  - inversion H; subst. apply String.eqb_refl.
Qed.

Lemma value_eqb_refl (v : Value) : value_eqb v v = true.
Proof. apply value_eqb_eq. reflexivity. Qed.

Lemma value_eqb_neq (v w : Value) : value_eqb v w = false <-> v <> w.
Proof.
  split.
  - intros H E. apply value_eqb_eq in E. congruence.
  - intros H. destruct (value_eqb v w) eqn:E; [|reflexivity].
    apply value_eqb_eq in E. contradiction.
Qed.

(** ** Identifiers that fit 64 bits *)

Section Bound.

Context {A : Type}.

Lemma fetch_id_int64 (id : Z) (q : DB -> A) (c : Conn) :
  int64 id = true -> fetch_id id q c = fetch q c.
Proof.
  intros H. unfold fetch_id, fetch, bind_int, bind. rewrite H.
  destruct (storage_call c) as [[e|[]] c1]; reflexivity.
Qed.

End Bound.

Lemma execute_id_int64 (id : Z) (stmt : DB -> Exn + DB) (c : Conn) :
  int64 id = true -> execute_id id stmt c = execute stmt c.
Proof.
  intros H. unfold execute_id, execute, bind_int, bind. rewrite H.
  destruct (storage_call c) as [[e|[]] c1]; reflexivity.
Qed.

Lemma page_query_id_int64 (id : Z) (c : Conn) :
  int64 id = true -> page_query_id id c = storage_call c.
Proof.
  intros H. unfold page_query_id, bind_int, bind. rewrite H.
  destruct (storage_call c) as [[e|[]] c1]; reflexivity.
Qed.
(** ** Running transactions

    A run [m c = (r, c')] is taken apart statement by statement.  The
    lemmas say what each statement can have done to the committed and the
    working database, whatever the oracle held. *)

Section Runs.

Context {A B : Type}.

Lemma ret_inv (a : A) (c c' : Conn) (r : Exn + A) :
  ret a c = (r, c') -> r = inr a /\ c' = c.
Proof. unfold ret. intros H. inversion H. auto. Qed.

Lemma raise_inv (e : Exn) (c c' : Conn) (r : Exn + A) :
  raise e c = (r, c') -> r = inl e /\ c' = c.
Proof. unfold raise. intros H. inversion H. auto. Qed.

Lemma bind_inv (m : Tx A) (k : A -> Tx B) (c c' : Conn) (r : Exn + B) :
  bind m k c = (r, c') ->
  (exists e, m c = (inl e, c') /\ r = inl e)
  \/ (exists a c1, m c = (inr a, c1) /\ k a c1 = (r, c')).
Proof.
  unfold bind. destruct (m c) as [[e|a] c1]; intros H.
  - left. exists e. inversion H. auto.
  - right. exists a, c1. auto.
Qed.

Lemma try_except_inv (body : Tx A) (handler : Exn -> Tx A) (c c' : Conn)
    (r : Exn + A) :
  try_except body handler c = (r, c') ->
  (exists a, body c = (inr a, c') /\ r = inr a)
  \/ (exists e c1, body c = (inl e, c1) /\ handler e c1 = (r, c')).
Proof.
  unfold try_except. destruct (body c) as [[e|a] c1]; intros H.
  - right. exists e, c1. auto.
  - left. exists a. inversion H. auto.
Qed.

Lemma subscript_inv (row : option A) (c c' : Conn) (r : Exn + A) :
  subscript row c = (r, c') ->
  c' = c /\ ((exists a, row = Some a /\ r = inr a)
             \/ (row = None /\ r = inl TypeError)).
Proof.
  destruct row as [a|]; simpl; intros H.
  - apply ret_inv in H. destruct H as [-> ->]. split; [reflexivity|].
    left. exists a. auto.
  - unfold raise in H. inversion H. auto.
Qed.

Lemma fetch_inv (q : DB -> A) (c c' : Conn) (r : Exn + A) :
  fetch q c = (r, c') ->
  committed c' = committed c /\ working c' = working c
  /\ (r = inr (q (working c)) \/ r = inl OperationalError).
Proof.
  unfold fetch, bind, storage_call.
  destruct (faults c) as [|[|] fs]; intros H; inversion H; simpl; auto.
Qed.

Lemma fetch_id_inv (id : Z) (q : DB -> A) (c c' : Conn) (r : Exn + A) :
  fetch_id id q c = (r, c') ->
  committed c' = committed c /\ working c' = working c
  /\ ((r = inr (q (working c)) /\ int64 id = true)
      \/ r = inl OperationalError
      \/ (r = inl OverflowError /\ int64 id = false)).
Proof.
  unfold fetch_id, bind_int, bind, storage_call, ret, raise.
  destruct (int64 id);
    destruct (faults c) as [|[|] fs]; intros H; inversion H; simpl;
    intuition congruence.
Qed.

Lemma less_than_inv (v : Value) (s : string) (c c' : Conn) (r : Exn + bool) :
  less_than v s c = (r, c') ->
  c' = c /\ ((exists t, v = VText t /\ r = inr (String.ltb t s))
             \/ (exists x, v = VNumber x /\ r = inl TypeError)).
Proof.
  destruct v as [x|t]; simpl; unfold ret, raise; intros H; inversion H;
    split; auto; [right; exists x | left; exists t]; auto.
Qed.

End Runs.

Lemma storage_call_inv (c c' : Conn) (r : Exn + unit) :
  storage_call c = (r, c') ->
  committed c' = committed c /\ working c' = working c
  /\ (r = inr tt \/ r = inl OperationalError).
Proof.
  unfold storage_call.
  destruct (faults c) as [|[|] fs]; intros H; inversion H; simpl; auto.
Qed.

Lemma execute_inv (stmt : DB -> Exn + DB) (c c' : Conn) (r : Exn + unit) :
  execute stmt c = (r, c') ->
  committed c' = committed c
  /\ ((exists e, r = inl e /\ working c' = working c)
      \/ (r = inr tt /\ stmt (working c) = inr (working c'))).
Proof.
  unfold execute, bind, storage_call.
  destruct (faults c) as [|[|] fs]; simpl;
    try (intros H; inversion H; simpl; split; [reflexivity|];
         left; eexists; split; reflexivity);
    destruct (stmt (working c)) as [e|d] eqn:E; rewrite ?E;
    intros H; inversion H; simpl; split; try reflexivity;
    solve [left; eexists; split; reflexivity | right; auto].
Qed.

Lemma bind_int_inv (n : Z) (c c' : Conn) (r : Exn + unit) :
  bind_int n c = (r, c') ->
  c' = c /\ ((r = inr tt /\ int64 n = true)
             \/ (r = inl OverflowError /\ int64 n = false)).
Proof.
  unfold bind_int, ret, raise. destruct (int64 n); intros H; inversion H; auto.
Qed.

Lemma execute_id_inv (id : Z) (stmt : DB -> Exn + DB) (c c' : Conn)
    (r : Exn + unit) :
  execute_id id stmt c = (r, c') ->
  committed c' = committed c
  /\ ((exists e, r = inl e /\ working c' = working c)
      \/ (r = inr tt /\ int64 id = true
          /\ stmt (working c) = inr (working c'))).
Proof.
  unfold execute_id, bind_int, bind, storage_call, ret, raise.
  destruct (int64 id);
    destruct (faults c) as [|[|] fs]; simpl;
    try (intros H; inversion H; simpl; split; [reflexivity|];
         left; eexists; split; reflexivity);
    destruct (stmt (working c)) as [e|d] eqn:E; rewrite ?E;
    intros H; inversion H; simpl; split; try reflexivity;
    solve [left; eexists; split; reflexivity | right; auto].
Qed.

Lemma page_query_id_inv (id : Z) (c c' : Conn) (r : Exn + unit) :
  page_query_id id c = (r, c') ->
  committed c' = committed c /\ working c' = working c
  /\ (int64 id = false -> exists e, r = inl e).
Proof.
  unfold page_query_id, bind_int, bind, storage_call, ret, raise.
  destruct (int64 id);
    destruct (faults c) as [|[|] fs]; intros H; inversion H; simpl;
    repeat split; auto; try discriminate; intros _; eexists; reflexivity.
Qed.

Lemma commit_inv (c c' : Conn) (r : Exn + unit) :
  commit c = (r, c') ->
  (r = inl OperationalError /\ committed c' = committed c
   /\ working c' = working c)
  \/ (r = inr tt /\ committed c' = working c /\ working c' = working c).
Proof.
  unfold commit, bind, storage_call.
  destruct (faults c) as [|[|] fs]; intros H; inversion H; simpl; auto.
Qed.

Lemma rollback_inv (c c' : Conn) (r : Exn + unit) :
  rollback c = (r, c') ->
  r = inr tt /\ committed c' = committed c /\ working c' = committed c.
Proof. unfold rollback. intros H. inversion H. simpl. auto. Qed.

Lemma page_queries_inv (n : nat) (c c' : Conn) (r : Exn + unit) :
  page_queries n c = (r, c') ->
  committed c' = committed c /\ working c' = working c.
Proof.
  revert c. induction n as [|n IH]; simpl; intros c H.
  - apply ret_inv in H. destruct H as [_ ->]. auto.
  - apply bind_inv in H.
    destruct H as [(e & H & _) | (a & c1 & H1 & H2)].
    + apply storage_call_inv in H. tauto.
    + apply storage_call_inv in H1. apply IH in H2.
      destruct H1 as (E1 & E2 & _). destruct H2 as (E3 & E4).
      split; congruence.
Qed.

(** Taking a run apart, one statement at a time. *)
Ltac inv_run :=
  repeat match goal with
  | H : bind _ _ _ = (_, _) |- _ =>
      apply bind_inv in H;
      destruct H as [(?e & H & ?) | (?a & ?c & ?H & H)]
  | H : ret _ _ = (_, _) |- _ =>
      apply ret_inv in H; destruct H as [? ?]
  | H : raise _ _ = (_, _) |- _ =>
      apply raise_inv in H; destruct H as [? ?]
  | H : subscript _ _ = (_, _) |- _ =>
      apply subscript_inv in H;
      destruct H as [? [(?a & ? & ?) | (? & ?)]]
  | H : fetch _ _ = (_, _) |- _ =>
      apply fetch_inv in H; destruct H as (? & ? & [? | ?])
  | H : fetch_id _ _ _ = (_, _) |- _ =>
      apply fetch_id_inv in H;
      destruct H as (? & ? & [(? & ?) | [? | (? & ?)]])
  | H : less_than _ _ _ = (_, _) |- _ =>
      apply less_than_inv in H;
      destruct H as [? [(?t & ? & ?) | (?x & ? & ?)]]
  | H : bind_int _ _ = (_, _) |- _ =>
      apply bind_int_inv in H; destruct H as [? [(? & ?) | (? & ?)]]
  | H : execute_id _ _ _ = (_, _) |- _ =>
      apply execute_id_inv in H;
      destruct H as (? & [(?e & ? & ?) | (? & ? & ?)])
  | H : page_query_id _ _ = (_, _) |- _ =>
      apply page_query_id_inv in H; destruct H as (? & ? & ?)
  | H : storage_call _ = (_, _) |- _ =>
      apply storage_call_inv in H; destruct H as (? & ? & [? | ?])
  | H : execute _ _ = (_, _) |- _ =>
      apply execute_inv in H;
      destruct H as (? & [(?e & ? & ?) | (? & ?)])
  | H : commit _ = (_, _) |- _ =>
      apply commit_inv in H;
      destruct H as [(? & ? & ?) | (? & ? & ?)]
  | H : rollback _ = (_, _) |- _ =>
      apply rollback_inv in H; destruct H as (? & ? & ?)
  | H : page_queries _ _ = (_, _) |- _ =>
      apply page_queries_inv in H; destruct H as (? & ?)
  | H : inl _ = inl _ |- _ => inversion H; clear H
  | H : inr _ = inr _ |- _ => inversion H; clear H
  | H : inl _ = inr _ |- _ => discriminate H
  | H : inr _ = inl _ |- _ => discriminate H
  end.

(** Symbolic execution when the oracle reports no failure. *)
Ltac run_tx :=
  cbv [serve login_required role_required patient_required doctor_required
       admin_required try_except bind execute fetch commit rollback
       storage_call ret raise subscript page_queries committed working faults
       fst snd option_map fetch_id execute_id page_query_id bind_int
       less_than].

(** The response and the stored database of a request, from a run. *)
Lemma serve_run (h : Tx Flash) (fs : list bool) (db : DB) :
  exists r c', h (mkConn db db fs) = (r, c')
    /\ serve h fs db =
       (match r with inl e => Crashed e | inr f => Flashed f end, committed c').
Proof.
  unfold serve. destruct (h (mkConn db db fs)) as [[e|f] c'];
    eexists; eexists; split; reflexivity.
Qed.

(** ** Publishing and failing safely *)

Create HintDb tx.

Lemma keeps_safe {A : Type} (m : Tx A) : keeps m -> safe m.
Proof. intros H c e c' Hrun. exact (H _ _ _ Hrun). Qed.

Lemma keeps_ret {A : Type} (a : A) : keeps (ret a).
Proof. intros c r c' H. apply ret_inv in H. destruct H as [_ ->]. reflexivity. Qed.

Lemma keeps_raise {A : Type} (e : Exn) : keeps (@raise A e).
Proof. intros c r c' H. apply raise_inv in H. destruct H as [_ ->]. reflexivity. Qed.

Lemma keeps_storage_call : keeps storage_call.
Proof. intros c r c' H. apply storage_call_inv in H. tauto. Qed.

Lemma keeps_fetch {A : Type} (q : DB -> A) : keeps (fetch q).
Proof. intros c r c' H. apply fetch_inv in H. tauto. Qed.

Lemma keeps_execute (stmt : DB -> Exn + DB) : keeps (execute stmt).
Proof. intros c r c' H. apply execute_inv in H. tauto. Qed.

Lemma keeps_fetch_id {A : Type} (id : Z) (q : DB -> A) : keeps (fetch_id id q).
Proof. intros c r c' H. apply fetch_id_inv in H. tauto. Qed.

Lemma keeps_execute_id (id : Z) (stmt : DB -> Exn + DB) :
  keeps (execute_id id stmt).
Proof. intros c r c' H. apply execute_id_inv in H. tauto. Qed.

Lemma keeps_page_query_id (id : Z) : keeps (page_query_id id).
Proof. intros c r c' H. apply page_query_id_inv in H. tauto. Qed.

Lemma keeps_less_than (v : Value) (s : string) : keeps (less_than v s).
Proof.
  intros c r c' H. apply less_than_inv in H. destruct H as [-> _]. reflexivity.
Qed.

Lemma keeps_rollback : keeps rollback.
Proof. intros c r c' H. apply rollback_inv in H. tauto. Qed.

Lemma keeps_page_queries (n : nat) : keeps (page_queries n).
Proof. intros c r c' H. apply page_queries_inv in H. tauto. Qed.

Lemma keeps_subscript {A : Type} (row : option A) : keeps (subscript row).
Proof. destruct row; simpl; [apply keeps_ret | apply keeps_raise]. Qed.

Lemma keeps_index {A : Type} (xs : list A) (i : nat) : keeps (index xs i).
Proof.
  unfold index. destruct (nth_error xs i); [apply keeps_ret | apply keeps_raise].
Qed.

Lemma keeps_bind {A B : Type} (m : Tx A) (k : A -> Tx B) :
  keeps m -> (forall a, keeps (k a)) -> keeps (bind m k).
Proof.
  intros Hm Hk c r c' H. apply bind_inv in H.
  destruct H as [(e & H & _) | (a & c1 & H1 & H2)].
  - exact (Hm _ _ _ H).
  - rewrite (Hk _ _ _ _ H2). exact (Hm _ _ _ H1).
Qed.

Lemma keeps_for_each (l : list nat) (body : nat -> Tx unit) :
  (forall i, keeps (body i)) -> keeps (for_each l body).
Proof.
  intros Hb. induction l as [|i l IH]; simpl.
  - apply keeps_ret.
  - apply keeps_bind; auto.
Qed.

Lemma safe_commit : safe commit.
Proof.
  intros c e c' H. apply commit_inv in H.
  destruct H as [(_ & H & _) | (H & _)]; [exact H | discriminate].
Qed.

Lemma safe_ret {A : Type} (a : A) : safe (ret a).
Proof. apply keeps_safe, keeps_ret. Qed.

Lemma safe_bind {A B : Type} (m : Tx A) (k : A -> Tx B) :
  keeps m -> (forall a, safe (k a)) -> safe (bind m k).
Proof.
  intros Hm Hk c e c' H. apply bind_inv in H.
  destruct H as [(e' & H & _) | (a & c1 & H1 & H2)].
  - exact (Hm _ _ _ H).
  - rewrite (Hk _ _ _ _ H2). exact (Hm _ _ _ H1).
Qed.

(** commit ;;; ret f, the tail of every try block. *)
Lemma safe_commit_ret {A : Type} (a : A) : safe (commit ;;; ret a).
Proof.
  intros c e c' H. apply bind_inv in H.
  destruct H as [(e' & H & _) | (x & c1 & _ & H2)].
  - exact (safe_commit _ _ _ H).
  - apply ret_inv in H2. destruct H2 as [H2 _]. discriminate.
Qed.

#[local] Hint Resolve keeps_ret keeps_raise keeps_storage_call keeps_fetch
  keeps_execute keeps_rollback keeps_page_queries keeps_subscript keeps_index
  keeps_bind keeps_for_each safe_commit_ret safe_bind safe_ret
  keeps_fetch_id keeps_execute_id keeps_page_query_id keeps_less_than : tx.
#[local] Hint Extern 3 (keeps (match ?x with _ => _ end)) => destruct x : tx.
#[local] Hint Extern 3 (safe (match ?x with _ => _ end)) => destruct x : tx.
#[local] Hint Extern 3 (keeps (if ?x then _ else _)) => destruct x : tx.
#[local] Hint Extern 3 (safe (if ?x then _ else _)) => destruct x : tx.

(** A try block that fails safely, with a handler that rolls back: either
    the block ran to its end, or nothing was published. *)
Lemma try_except_split {A : Type} (body : Tx A) (handler : Exn -> Tx A)
    (c c' : Conn) (r : Exn + A) :
  safe body -> (forall e, keeps (handler e)) ->
  try_except body handler c = (r, c') ->
  (exists a, body c = (inr a, c') /\ r = inr a)
  \/ (exists e c1, handler e c1 = (r, c') /\ committed c' = committed c).
Proof.
  intros Hs Hk H. unfold try_except in H.
  destruct (body c) as [[e|a] c1] eqn:E.
  - right. exists e, c1. split; [exact H|].
    rewrite (Hk _ _ _ _ H). exact (Hs _ _ _ E).
  - left. exists a. inversion H; subst. auto.
Qed.

(** ** What each handler can do to the stored database *)

Lemma existsb_false_set_status (id : Z) (v : option Status) (now : string)
    (l : list Appointment) :
  existsb (fun a => Z.eqb (appointment_id a) id) l = false ->
  set_status id v now l = l.
Proof.
  intros H. unfold set_status. apply map_id_when. intros x Hx.
  destruct (Z.eqb (appointment_id x) id) eqn:Ex; [|reflexivity].
  assert (Ht : existsb (fun a => Z.eqb (appointment_id a) id) l = true)
    by (apply existsb_exists; exists x; auto).
  congruence.
Qed.

Lemma set_appointments_same (db : DB) :
  set_appointments db (appointments db) = db.
Proof. destruct db; reflexivity. Qed.

Lemma update_status_inr (id : Z) (st : option string) (now : string)
    (db d : DB) :
  update_appointment_status id st now db = inr d ->
  exists v,
    (check_status st = Some v
     \/ existsb (fun a => Z.eqb (appointment_id a) id) (appointments db) = false)
    /\ d = set_appointments db (set_status id v now (appointments db)).
Proof.
  unfold update_appointment_status.
  destruct (existsb _ (appointments db)) eqn:E.
  - destruct (check_status st) as [v|]; [|discriminate].
    intros H. inversion H. exists v. auto.
  - intros H. inversion H; subst. exists None. split; [right; reflexivity|].
    rewrite existsb_false_set_status by exact E.
    symmetry. apply set_appointments_same.
Qed.

Lemma upsert_inv (id : Z) (form : doctor_bp.TreatmentForm) (now : string)
    (c c' : Conn) (r : Exn + unit) :
  match doctor_bp.select_treatment id (working c) with
  | Some _ => execute_id id (doctor_bp.update_treatment id form now)
  | None => execute_id id (doctor_bp.insert_treatment id form now)
  end c = (r, c') ->
  committed c' = committed c
  /\ ((exists e, r = inl e /\ working c' = working c)
      \/ (r = inr tt
          /\ working c' =
             set_treatments (working c)
               (upsert_treatment id form now (treatments (working c))))).
Proof.
  unfold upsert_treatment, doctor_bp.select_treatment.
  destruct (find _ (treatments (working c))) as [t|] eqn:E; intros H;
    apply execute_id_inv in H;
    destruct H as (Hc & [(e & -> & Hw) | (-> & _ & Hs)]);
    split; auto; try (left; exists e; auto); right; split; auto.
  - rewrite (find_some_existsb _ _ _ E).
    unfold doctor_bp.update_treatment in Hs. inversion Hs. reflexivity.
  - rewrite (find_none_existsb _ _ E).
    unfold doctor_bp.insert_treatment in Hs.
    rewrite (find_none_existsb _ _ E) in Hs. inversion Hs. reflexivity.
Qed.

Lemma doctor_update_run (cu : option User) (id : Z)
    (form : doctor_bp.TreatmentForm) (now : string) (c c' : Conn)
    (r : Exn + Flash) :
  doctor_bp.update_appointment cu id form now c = (r, c') ->
  working c = committed c ->
  (r = inr TreatmentUpdated
   /\ exists u v,
        cu = Some u /\ role u = doctor
        /\ (check_status (doctor_bp.f_status form) = Some v
            \/ existsb (fun a => Z.eqb (appointment_id a) id)
                 (appointments (committed c)) = false)
        /\ committed c' = applied id v form now (committed c))
  \/ (r <> inr TreatmentUpdated /\ committed c' = committed c).
Proof.
  unfold doctor_bp.update_appointment, doctor_required, role_required, login_required.
  intros Hrun Hw.
  destruct cu as [u|]; [|inv_run; subst; right; split; [discriminate|reflexivity]].
  destruct (role u) eqn:Hrole; simpl in Hrun;
    try (inv_run; subst; right; split; [discriminate|reflexivity]).
  apply try_except_split in Hrun; auto 10 with tx.
  destruct Hrun as [(f & Hbody & ->) | (e & c1 & Hh & Hc)].
  - inv_run. subst.
    match goal with
    | H : match doctor_bp.select_treatment _ ?w with _ => _ end ?c0 = _,
      E : working ?c0 = ?w |- _ =>
        rewrite <- E in H; apply upsert_inv in H;
        destruct H as (? & [(? & ? & ?) | (_ & ?)]); [discriminate|]
    end.
    match goal with
    | H : update_appointment_status _ _ _ _ = inr _ |- _ =>
        apply update_status_inr in H; destruct H as (v & Hv & Hd)
    end.
    subst. left. split; [reflexivity|]. exists u, v.
    rewrite Hw in Hv, Hd.
    repeat split; auto.
    unfold applied. repeat match goal with H : _ = _ |- _ => rewrite H end.
    reflexivity.
  - right. inv_run; subst; split; try discriminate; exact Hc.
Qed.

Lemma admin_update_run (cu : option User) (id : Z) (st : option string)
    (now : string) (c c' : Conn) (r : Exn + Flash) :
  admin_bp.update_appointment cu id st now c = (r, c') ->
  working c = committed c ->
  (r = inr StatusUpdated
   /\ exists u v,
        cu = Some u /\ role u = admin
        /\ (check_status st = Some v
            \/ existsb (fun a => Z.eqb (appointment_id a) id)
                 (appointments (committed c)) = false)
        /\ committed c' =
           set_appointments (committed c)
             (set_status id v now (appointments (committed c))))
  \/ (r <> inr StatusUpdated /\ committed c' = committed c).
Proof.
  unfold admin_bp.update_appointment, admin_required, role_required, login_required.
  intros Hrun Hw.
  destruct cu as [u|]; [|inv_run; subst; right; split; [discriminate|reflexivity]].
  destruct (role u) eqn:Hrole; simpl in Hrun;
    try (inv_run; subst; right; split; [discriminate|reflexivity]).
  apply try_except_split in Hrun; auto 10 with tx.
  destruct Hrun as [(f & Hbody & ->) | (e & c1 & Hh & Hc)].
  - inv_run. subst.
    match goal with
    | H : update_appointment_status _ _ _ _ = inr _ |- _ =>
        apply update_status_inr in H; destruct H as (v & Hv & Hd)
    end.
    left. split; [reflexivity|]. exists u, v.
    rewrite Hw in Hv, Hd.
    repeat split; auto. congruence.
  - right. inv_run; subst; split; try discriminate; exact Hc.
Qed.

Lemma cancel_run (cu : option User) (id : Z) (today now : string)
    (c c' : Conn) (r : Exn + Flash) :
  patient_bp.cancel_appointment cu id today now c = (r, c') ->
  working c = committed c ->
  (r = inr AppointmentCancelled
   /\ exists u p a,
        cu = Some u /\ role u = patient
        /\ select_patient (user_id u) (committed c) = Some p
        /\ patient_bp.select_appointment id (pat_patient_id p) (committed c)
           = Some a
        /\ int64 id = true
        /\ (exists t, appointment_date a = VText t
                      /\ String.ltb t today = false)
        /\ committed c' =
           set_appointments (committed c)
             (set_status id (Some Cancelled) now (appointments (committed c))))
  \/ (r <> inr AppointmentCancelled /\ committed c' = committed c).
Proof.
  unfold patient_bp.cancel_appointment, patient_required, role_required, login_required.
  intros Hrun Hw.
  destruct cu as [u|]; [|inv_run; subst; right; split; [discriminate|reflexivity]].
  destruct (role u) eqn:Hrole; simpl in Hrun;
    try (inv_run; subst; right; split; [discriminate|reflexivity]).
  apply bind_inv in Hrun.
  destruct Hrun as [(e & Hf & ->) | (pt & c1 & Hf & Hrun)];
    apply fetch_inv in Hf; destruct Hf as (Hc1 & Hw1 & Hpt);
    [right; split; [discriminate|exact Hc1]|].
  destruct Hpt as [Hpt|Hpt]; [|discriminate].
  inversion Hpt; subst pt; clear Hpt.
  apply try_except_split in Hrun.
  - destruct Hrun as [(f & Hbody & ->) | (e & c2 & Hh & Hc)].
    + apply bind_inv in Hbody.
      destruct Hbody as [(e & _ & He) | (pid & c2 & Hsub & Hbody)];
        [discriminate|].
      apply subscript_inv in Hsub.
      destruct Hsub as [-> [(pid' & Hp & Hpid) | (_ & He)]]; [|discriminate].
      inversion Hpid; subst pid'; clear Hpid.
      destruct (select_patient (user_id u) (working c)) as [p|] eqn:Hsel;
        [|discriminate].
      simpl in Hp. inversion Hp; subst pid; clear Hp.
      apply bind_inv in Hbody.
      destruct Hbody as [(e & _ & He) | (ap & c3 & Hfa & Hbody)];
        [discriminate|].
      apply fetch_id_inv in Hfa.
      destruct Hfa as (Hc3 & Hw3 & [(Hap & Hid)|[Hap|(Hap & _)]]);
        try discriminate.
      inversion Hap; subst ap; clear Hap.
      destruct (patient_bp.select_appointment id (pat_patient_id p)
                  (working c1)) as [a|] eqn:Ha.
      * apply bind_inv in Hbody.
        destruct Hbody as [(e & _ & He) | (past & c4 & Hlt & Hbody)];
          [discriminate|].
        apply less_than_inv in Hlt.
        destruct Hlt as [-> [(t & Ht & Hpast) | (x & _ & Hx)]];
          [|discriminate].
        inversion Hpast; subst past; clear Hpast.
        destruct (String.ltb t today) eqn:Hd.
        -- inv_run. subst. right. split; [discriminate|congruence].
        -- inv_run. subst.
           match goal with
           | H : patient_bp.update_cancelled _ _ _ = inr _ |- _ =>
               unfold patient_bp.update_cancelled in H;
               apply update_status_inr in H; destruct H as (v & Hv & Hdb)
           end.
           left. split; [reflexivity|]. exists u, p, a.
           rewrite Hw1, Hw in Ha. rewrite Hw in Hsel.
           do 5 (split; [solve [auto]|]).
           split; [exists t; auto|].
           assert (Hex : existsb (fun x => Z.eqb (appointment_id x) id)
                           (appointments (committed c)) = true).
           { apply existsb_exists. exists a.
             apply find_some in Ha. destruct Ha as [Hin Hk].
             apply andb_prop in Hk. tauto. }
           rewrite Hw3, Hw1, Hw in Hv, Hdb.
           destruct Hv as [Hv|Hv]; [|congruence].
           simpl in Hv. inversion Hv; subst v. congruence.
      * inv_run. subst. right. split; [discriminate|congruence].
    + right. inv_run; subst; split; try discriminate; congruence.
  - apply safe_bind; auto 12 with tx.
  - auto with tx.
Qed.

(** The row a successful booking appends. *)
Lemma insert_appointment_inr (numeric : string -> option Number)
    (pid d : Z) (date time : string)
    (why : option string) (now : string) (db db' : DB) :
  patient_bp.insert_appointment numeric pid d date time why now db = inr db' ->
  db' = set_appointments db
          (appointments db ++
           [mkAppointment (autoincrement (map appointment_id (appointments db)))
              pid d (numeric_affinity numeric date)
              (numeric_affinity numeric time) (Some Booked) why now now]).
Proof. unfold patient_bp.insert_appointment. intros H. inversion H. reflexivity. Qed.

Lemma book_run (numeric : string -> option Number)
    (sql_time : Value -> option string) (cu : option User)
    (form : patient_bp.BookingForm) (today now : string) (c c' : Conn)
    (r : Exn + Flash) :
  patient_bp.book_appointment numeric sql_time cu form today now c
  = (r, c') ->
  working c = committed c ->
  (r = inr AppointmentBooked
   /\ exists u p d date time w,
        cu = Some u /\ role u = patient
        /\ select_patient (user_id u) (committed c) = Some p
        /\ patient_bp.required_fields form = Some (d, date, time)
        /\ String.ltb date today = false
        /\ patient_bp.select_existing numeric d date time (committed c)
           = None
        /\ patient_bp.select_available numeric sql_time d date time
             (committed c) = Some w
        /\ committed c' =
           set_appointments (committed c)
             (appointments (committed c) ++
              [mkAppointment
                 (autoincrement (map appointment_id (appointments (committed c))))
                 (pat_patient_id p) d (numeric_affinity numeric date)
                 (numeric_affinity numeric time) (Some Booked)
                 (patient_bp.f_reason form) now now]))
  \/ (r <> inr AppointmentBooked /\ committed c' = committed c).
Proof.
  unfold patient_bp.book_appointment, patient_required, role_required, login_required.
  intros Hrun Hw.
  destruct cu as [u|]; [|inv_run; subst; right; split; [discriminate|reflexivity]].
  destruct (role u) eqn:Hrole; simpl in Hrun;
    try (inv_run; subst; right; split; [discriminate|reflexivity]).
  apply bind_inv in Hrun.
  destruct Hrun as [(e & Hf & ->) | (pt & c1 & Hf & Hrun)];
    apply fetch_inv in Hf; destruct Hf as (Hc1 & Hw1 & Hpt);
    [right; split; [discriminate|exact Hc1]|].
  destruct Hpt as [Hpt|Hpt]; [|discriminate].
  inversion Hpt; subst pt; clear Hpt.
  apply bind_inv in Hrun.
  destruct Hrun as [(e & Hsub & ->) | (pid & c2 & Hsub & Hrun)];
    apply subscript_inv in Hsub; destruct Hsub as [-> Hsub];
    [right; split; [discriminate|exact Hc1]|].
  destruct Hsub as [(pid' & Hp & Hpid) | (_ & He)]; [|discriminate].
  inversion Hpid; subst pid'; clear Hpid.
  destruct (select_patient (user_id u) (working c)) as [p|] eqn:Hsel;
    [|discriminate].
  simpl in Hp. inversion Hp; subst pid; clear Hp.
  destruct (patient_bp.required_fields form) as [[[d date] time]|] eqn:Hreq;
    [|inv_run; subst; right; split; [discriminate|congruence]].
  destruct (String.ltb date today) eqn:Hdate;
    [inv_run; subst; right; split; [discriminate|congruence]|].
  apply bind_inv in Hrun.
  destruct Hrun as [(e & Hf & ->) | (ex & c3 & Hf & Hrun)];
    apply fetch_inv in Hf; destruct Hf as (Hc3 & Hw3 & Hex);
    [right; split; [discriminate|congruence]|].
  destruct Hex as [Hex|Hex]; [|discriminate].
  inversion Hex; subst ex; clear Hex.
  destruct (patient_bp.select_existing numeric d date time (working c1))
    eqn:Hexist;
    [inv_run; subst; right; split; [discriminate|congruence]|].
  apply bind_inv in Hrun.
  destruct Hrun as [(e & Hf & ->) | (av & c4 & Hf & Hrun)];
    apply fetch_inv in Hf; destruct Hf as (Hc4 & Hw4 & Hav);
    [right; split; [discriminate|congruence]|].
  destruct Hav as [Hav|Hav]; [|discriminate].
  inversion Hav; subst av; clear Hav.
  destruct (patient_bp.select_available numeric sql_time d date time
              (working c3)) as [w|] eqn:Havail;
    [|inv_run; subst; right; split; [discriminate|congruence]].
  apply try_except_split in Hrun; auto 10 with tx.
  destruct Hrun as [(f & Hbody & ->) | (e & c5 & Hh & Hc)].
  - inv_run. subst.
    match goal with
    | H : patient_bp.insert_appointment _ _ _ _ _ _ _ _ = inr _ |- _ =>
        apply insert_appointment_inr in H
    end.
    left. split; [reflexivity|]. exists u, p, d, date, time, w.
    rewrite Hw3, Hw1, Hw in Havail. rewrite Hw1, Hw in Hexist.
    rewrite Hw in Hsel.
    repeat split; auto.
    congruence.
  - right. inv_run; subst; split; try discriminate; congruence.
Qed.

(** *** Declaring windows *)

Section Preserves.

Variable P : DB -> Prop.

Lemma preserves_ret {A : Type} (a : A) : preserves P (ret a).
Proof. intros c r c' H. apply ret_inv in H. destruct H as [_ ->]. auto. Qed.

Lemma preserves_raise {A : Type} (e : Exn) : preserves P (@raise A e).
Proof. intros c r c' H. apply raise_inv in H. destruct H as [_ ->]. auto. Qed.

Lemma preserves_fetch {A : Type} (q : DB -> A) : preserves P (fetch q).
Proof.
  intros c r c' H. apply fetch_inv in H. destruct H as (_ & -> & _). auto.
Qed.

Lemma preserves_index {A : Type} (xs : list A) (i : nat) :
  preserves P (index xs i).
Proof.
  unfold index. destruct (nth_error xs i);
    [apply preserves_ret | apply preserves_raise].
Qed.

Lemma preserves_execute (stmt : DB -> Exn + DB) :
  (forall w w', stmt w = inr w' -> P w -> P w') ->
  preserves P (execute stmt).
Proof.
  intros Hs c r c' H. apply execute_inv in H.
  destruct H as (_ & [(e & _ & ->) | (_ & H)]); eauto.
Qed.

Lemma preserves_bind {A B : Type} (m : Tx A) (k : A -> Tx B) :
  preserves P m -> (forall a, preserves P (k a)) -> preserves P (bind m k).
Proof.
  intros Hm Hk c r c' H HP. apply bind_inv in H.
  destruct H as [(e & H & _) | (a & c1 & H1 & H2)].
  - exact (Hm _ _ _ H HP).
  - exact (Hk _ _ _ _ H2 (Hm _ _ _ H1 HP)).
Qed.

Lemma preserves_for_each (l : list nat) (body : nat -> Tx unit) :
  (forall i, preserves P (body i)) -> preserves P (for_each l body).
Proof.
  intros Hb. induction l as [|i l IH]; simpl.
  - apply preserves_ret.
  - apply preserves_bind; auto.
Qed.

End Preserves.

Lemma same_key_spec (numeric : string -> option Number) (d : Z)
    (date start : string) (w : Availability) :
  doctor_bp.same_key numeric d date start w = true
  <-> window_key w
      = (d, numeric_affinity numeric date, numeric_affinity numeric start).
Proof.
  unfold doctor_bp.same_key, window_key. split.
  - intros H. apply andb_prop in H. destruct H as [H Hs].
    apply andb_prop in H. destruct H as [Hd Hdt].
    apply Z.eqb_eq in Hd. apply value_eqb_eq in Hdt.
    apply value_eqb_eq in Hs. congruence.
  - intros H. inversion H.
    rewrite Z.eqb_refl, !value_eqb_refl. reflexivity.
Qed.

Lemma same_key_absent (numeric : string -> option Number) (d : Z)
    (date start : string) (l : list Availability) :
  find (doctor_bp.same_key numeric d date start) l = None ->
  ~ In (d, numeric_affinity numeric date, numeric_affinity numeric start)
       (map window_key l).
Proof.
  intros Hnone Hin. apply in_map_iff in Hin. destruct Hin as (w & Hk & Hw).
  apply (find_none _ _ Hnone) in Hw.
  apply same_key_spec in Hk. congruence.
Qed.

Lemma declared_keys (numeric : string -> option Number) (d : Z)
    (date start stop : string) (open : bool) (l : list Availability) :
  map window_key (declared numeric d date start stop open l) =
  match find (doctor_bp.same_key numeric d date start) l with
  | Some _ => map window_key l
  | None =>
      map window_key l
      ++ [(d, numeric_affinity numeric date, numeric_affinity numeric start)]
  end.
Proof.
  unfold declared.
  destruct (find (doctor_bp.same_key numeric d date start) l) as [w|].
  - rewrite map_map. apply map_ext. intros x.
    destruct (Z.eqb (availability_id x) (availability_id w)); reflexivity.
  - rewrite map_app. reflexivity.
Qed.

Lemma declared_unique (numeric : string -> option Number) (d : Z)
    (date start stop : string) (open : bool) (l : list Availability) :
  NoDup (map window_key l) ->
  NoDup (map window_key (declared numeric d date start stop open l)).
Proof.
  intros Hnd. rewrite declared_keys.
  destruct (find (doctor_bp.same_key numeric d date start) l) as [w|] eqn:E;
    [exact Hnd|].
  apply NoDup_app; [exact Hnd | repeat constructor; auto |].
  intros k Hk [<-|[]]. exact (same_key_absent _ _ _ _ _ E Hk).
Qed.

(** One declaration, as a statement on the working database. *)
Lemma declare_window_inv (numeric : string -> option Number) (d : Z)
    (date start stop : string) (open : bool)
    (c c' : Conn) (r : Exn + unit) :
  doctor_bp.declare_window numeric d date start stop open c = (r, c') ->
  committed c' = committed c
  /\ ((exists e, r = inl e /\ working c' = working c)
      \/ (r = inr tt
          /\ working c' =
             set_doctor_availability (working c)
               (declared numeric d date start stop open
                  (doctor_availability (working c))))).
Proof.
  unfold doctor_bp.declare_window. intros H.
  apply bind_inv in H.
  destruct H as [(e & Hf & ->) | (ex & c1 & Hf & H)];
    apply fetch_inv in Hf; destruct Hf as (Hc1 & Hw1 & Hex).
  - split; [exact Hc1|]. left. exists e. auto.
  - destruct Hex as [Hex|Hex]; [|discriminate].
    inversion Hex; subst ex; clear Hex.
    unfold declared, doctor_bp.select_window in *.
    destruct (find (doctor_bp.same_key numeric d date start)
                (doctor_availability (working c))) as [w|] eqn:E;
      apply execute_inv in H;
      destruct H as (Hc & [(e & -> & Hw) | (-> & Hs)]);
      (split; [congruence|]);
      try (left; exists e; split; [reflexivity|congruence]);
      right; split; [reflexivity| |reflexivity|]; rewrite Hw1 in Hs.
    + unfold doctor_bp.update_window in Hs. inversion Hs. reflexivity.
    + unfold doctor_bp.insert_window in Hs.
      rewrite (find_none_existsb _ _ E) in Hs. inversion Hs. reflexivity.
Qed.

Lemma declare_window_preserves (numeric : string -> option Number) (db : DB)
    (d : Z) (date start stop : string) (open : bool) :
  preserves
    (fun w => same_but_windows db w /\ (windows_unique db -> windows_unique w))
    (doctor_bp.declare_window numeric d date start stop open).
Proof.
  intros c r c' H [Hs Hu]. apply declare_window_inv in H.
  destruct H as (_ & [(e & _ & ->) | (_ & ->)]); [auto|].
  split; [exact Hs|]. intros Hdb.
  unfold windows_unique. simpl. apply declared_unique. exact (Hu Hdb).
Qed.

Lemma availability_run (numeric : string -> option Number)
    (cu : option User) (form : doctor_bp.AvailabilityForm)
    (c c' : Conn) (r : Exn + Flash) :
  doctor_bp.availability numeric cu form c = (r, c') ->
  working c = committed c ->
  same_but_windows (committed c) (committed c')
  /\ (windows_unique (committed c) -> windows_unique (committed c')).
Proof.
  unfold doctor_bp.availability, doctor_required, role_required, login_required.
  intros Hrun Hw.
  assert (Hsame : same_but_windows (committed c) (committed c)
                  /\ (windows_unique (committed c)
                      -> windows_unique (committed c)))
    by (repeat split; auto).
  destruct cu as [u|]; [|inv_run; subst; exact Hsame].
  destruct (role u) eqn:Hrole; simpl in Hrun;
    try solve [inv_run; subst; exact Hsame].
  apply bind_inv in Hrun.
  destruct Hrun as [(e & Hf & ->) | (dr & c1 & Hf & Hrun)];
    apply fetch_inv in Hf; destruct Hf as (Hc1 & Hw1 & _);
    [rewrite Hc1; exact Hsame|].
  apply bind_inv in Hrun.
  destruct Hrun as [(e & Hsub & ->) | (d & c2 & Hsub & Hrun)];
    apply subscript_inv in Hsub; destruct Hsub as [-> _];
    [rewrite Hc1; exact Hsame|].
  apply try_except_split in Hrun; auto 12 with tx.
  - destruct Hrun as [(f & Hbody & ->) | (e & c3 & _ & Hc)];
      [|rewrite Hc, Hc1; exact Hsame].
    apply bind_inv in Hbody.
    destruct Hbody as [(e & _ & He) | (x & c3 & Hloop & Hrest)];
      [discriminate|].
    apply bind_inv in Hrest.
    destruct Hrest as [(e & _ & He) | (y & c4 & Hcom & Hret)];
      [discriminate|].
    apply commit_inv in Hcom.
    destruct Hcom as [(He & _) | (_ & Hc4 & _)]; [discriminate|].
    apply ret_inv in Hret. destruct Hret as [_ ->].
    rewrite Hc4.
    assert (Hpres : preserves
              (fun w => same_but_windows (committed c) w
                        /\ (windows_unique (committed c) -> windows_unique w))
              (for_range (List.length (doctor_bp.dates form)) (fun i =>
                 date <- index (doctor_bp.dates form) i ;;
                 start <- index (doctor_bp.start_times form) i ;;
                 stop <- index (doctor_bp.end_times form) i ;;
                 doctor_bp.declare_window numeric d date start stop
                   (existsb (String.eqb (doctor_bp.str i))
                      (doctor_bp.availabilities form))))).
    { unfold for_range. apply preserves_for_each. intros i.
      repeat (apply preserves_bind; [apply preserves_index|intros ?]).
      apply declare_window_preserves. }
    apply (Hpres _ _ _ Hloop). rewrite Hw1, Hw. exact Hsame.
  - apply safe_bind; auto with tx.
    unfold for_range. apply keeps_for_each. intros i.
    repeat (apply keeps_bind; [apply keeps_index|intros ?]).
    unfold doctor_bp.declare_window. auto 10 with tx.
Qed.

(** ** Steps of the transition system *)

Lemma step_run (numeric : string -> option Number) (r : Request)
    (fs : list bool) (db : DB) :
  exists x c', handler numeric r (mkConn db db fs) = (x, c')
               /\ step numeric r fs db = committed c'.
Proof.
  unfold step.
  destruct (serve_run (handler numeric r) fs db) as (x & c' & Hrun & Hs).
  exists x, c'. rewrite Hs. auto.
Qed.

(** No request but a declaration touches the ledger, and a declaration
    touches nothing else. *)
Lemma step_windows_unique (numeric : string -> option Number) (r : Request)
    (fs : list bool) (db : DB) :
  windows_unique db -> windows_unique (step numeric r fs db).
Proof.
  intros Hu.
  destruct (step_run numeric r fs db) as (x & c' & Hrun & ->).
  destruct r as [tm cu form today now | cu id today now | cu id form now
                | cu id st now | cu form]; simpl in Hrun.
  - apply book_run in Hrun; [|reflexivity]. simpl in Hrun.
    destruct Hrun as [(_ & u & p & d & date & time & w & H) | (_ & ->)];
      [|exact Hu].
    destruct H as (_ & _ & _ & _ & _ & _ & _ & ->). exact Hu.
  - apply cancel_run in Hrun; [|reflexivity]. simpl in Hrun.
    destruct Hrun as [(_ & u & p & a & H) | (_ & ->)]; [|exact Hu].
    destruct H as (_ & _ & _ & _ & _ & _ & ->). exact Hu.
  - apply doctor_update_run in Hrun; [|reflexivity]. simpl in Hrun.
    destruct Hrun as [(_ & u & v & _ & _ & _ & ->) | (_ & ->)]; exact Hu.
  - apply admin_update_run in Hrun; [|reflexivity]. simpl in Hrun.
    destruct Hrun as [(_ & u & v & _ & _ & _ & ->) | (_ & ->)]; exact Hu.
  - apply availability_run in Hrun; [|reflexivity]. simpl in Hrun. tauto.
Qed.

Lemma reachable_windows_unique (numeric : string -> option Number)
    (allowed : DB -> Request -> Prop) (db : DB) :
  reachable numeric allowed db -> windows_unique db.
Proof.
  induction 1 as [db (_ & _ & Hu) | db r fs _ IH _].
  - exact Hu.
  - apply step_windows_unique. exact IH.
Qed.

(** *** The double-booking invariant under guarded status writes *)

Lemma holds_slot_occupies (numeric : string -> option Number)
    (a : Appointment) (d : Z) (date time : string) :
  holds_slot a -> status a <> None ->
  app_doctor_id a = d ->
  appointment_date a = numeric_affinity numeric date ->
  appointment_time a = numeric_affinity numeric time ->
  patient_bp.occupies numeric d date time a = true.
Proof.
  unfold holds_slot, patient_bp.occupies. intros [Hc Hr] Hn -> -> ->.
  rewrite Z.eqb_refl, !value_eqb_refl. simpl.
  destruct (status a) as [[| | |]|]; simpl; congruence.
Qed.

Lemma autoincrement_fresh (ids : list Z) (i : Z) :
  In i ids -> i <> autoincrement ids.
Proof.
  unfold autoincrement. intros Hin.
  assert (H : i <= fold_right Z.max 0 ids).
  { induction ids as [|j ids IH]; simpl in *; [contradiction|].
    destruct Hin as [->|Hin]; [lia|]. specialize (IH Hin). lia. }
  lia.
Qed.

Lemma booking_keeps_invariant (numeric : string -> option Number) (db : DB)
    (pid d : Z) (date time : string) (why : option string) (now : string) :
  no_double_booking db -> statuses_set db ->
  patient_bp.select_existing numeric d date time db = None ->
  let db' :=
    set_appointments db
      (appointments db ++
       [mkAppointment (autoincrement (map appointment_id (appointments db)))
          pid d (numeric_affinity numeric date)
          (numeric_affinity numeric time) (Some Booked) why now now]) in
  no_double_booking db' /\ statuses_set db'.
Proof.
  intros Hnd Hset Hfree db'. subst db'.
  assert (Hclash : forall a, In a (appointments db) ->
            app_doctor_id a = d ->
            appointment_date a = numeric_affinity numeric date ->
            appointment_time a = numeric_affinity numeric time ->
            holds_slot a -> False).
  { intros a Hin Hd Hdt Ht Hh.
    pose proof (find_none _ _ Hfree a Hin) as Hno.
    rewrite (holds_slot_occupies numeric a d date time Hh (Hset a Hin)
               Hd Hdt Ht) in Hno.
    discriminate. }
  split.
  - intros a b Ha Hb Hid (Hs1 & Hs2 & Hs3) Hha Hhb. simpl in Ha, Hb.
    apply in_app_or in Ha. apply in_app_or in Hb.
    destruct Ha as [Ha|[<-|[]]]; destruct Hb as [Hb|[<-|[]]]; simpl in *.
    + exact (Hnd a b Ha Hb Hid (conj Hs1 (conj Hs2 Hs3)) Hha Hhb).
    + exact (Hclash a Ha Hs1 Hs2 Hs3 Hha).
    + exact (Hclash b Hb (eq_sym Hs1) (eq_sym Hs2) (eq_sym Hs3) Hhb).
    + apply Hid. reflexivity.
  - intros a Ha. simpl in Ha. apply in_app_or in Ha.
    destruct Ha as [Ha|[<-|[]]]; [exact (Hset a Ha)|simpl; discriminate].
Qed.

Lemma status_write_keeps_invariant (db : DB) (id : Z) (v : option Status)
    (now : string) :
  no_double_booking db -> statuses_set db ->
  (forall a, In a (appointments db) -> appointment_id a = id ->
     match v with
     | Some Cancelled | Some Rescheduled => True
     | Some Booked | Some Completed =>
         status a = Some Booked \/ status a = Some Completed
     | None => False
     end) ->
  let db' := set_appointments db (set_status id v now (appointments db)) in
  no_double_booking db' /\ statuses_set db'.
Proof.
  intros Hnd Hset Hok db'. subst db'.
  assert (Hpre : forall a', In a' (set_status id v now (appointments db)) ->
            exists a, In a (appointments db)
              /\ appointment_id a' = appointment_id a
              /\ app_doctor_id a' = app_doctor_id a
              /\ appointment_date a' = appointment_date a
              /\ appointment_time a' = appointment_time a
              /\ (holds_slot a' -> holds_slot a)
              /\ status a' <> None).
  { intros a' Ha'. unfold set_status in Ha'. apply in_map_iff in Ha'.
    destruct Ha' as (a & <- & Ha). exists a.
    destruct (Z.eqb (appointment_id a) id) eqn:E.
    - apply Z.eqb_eq in E. specialize (Hok a Ha E). simpl.
      do 5 (split; [reflexivity || exact Ha|]). split.
      + unfold holds_slot. intros [H1 H2].
        destruct v as [[| | |]|]; try contradiction; try congruence;
          destruct Hok as [Hs|Hs]; rewrite Hs; split; discriminate.
      + destruct v; [discriminate|contradiction].
    - do 5 (split; [reflexivity || exact Ha|]). split; [auto|].
      exact (Hset a Ha). }
  split.
  - intros a' b' Ha' Hb' Hid (Hs1 & Hs2 & Hs3) Hha Hhb. simpl in Ha', Hb'.
    destruct (Hpre a' Ha') as (a & Ha & Ia & Da & Dta & Ta & Hla & _).
    destruct (Hpre b' Hb') as (b & Hb & Ib & Db & Dtb & Tb & Hlb & _).
    apply (Hnd a b Ha Hb); auto.
    + congruence.
    + repeat split; congruence.
  - intros a' Ha'. simpl in Ha'.
    destruct (Hpre a' Ha') as (a & _ & _ & _ & _ & _ & _ & Hn). exact Hn.
Qed.

Lemma invariant_by_appointments (db db' : DB) :
  appointments db' = appointments db ->
  no_double_booking db /\ statuses_set db ->
  no_double_booking db' /\ statuses_set db'.
Proof.
  unfold no_double_booking, statuses_set. intros ->. auto.
Qed.

Lemma keeps_slots_write (db : DB) (id : Z) (st : option string)
    (v : option Status) :
  keeps_slots db id st ->
  check_status st = Some v
  \/ existsb (fun a => Z.eqb (appointment_id a) id) (appointments db) = false ->
  forall a, In a (appointments db) -> appointment_id a = id ->
    match v with
    | Some Cancelled | Some Rescheduled => True
    | Some Booked | Some Completed =>
        status a = Some Booked \/ status a = Some Completed
    | None => False
    end.
Proof.
  intros Hk [Hv|Hno] a Ha Hid.
  - specialize (Hk a Ha Hid). rewrite Hv in Hk. exact Hk.
  - exfalso.
    assert (Ht : existsb (fun x => Z.eqb (appointment_id x) id)
                   (appointments db) = true).
    { apply existsb_exists. exists a. split; [exact Ha|].
      apply Z.eqb_eq. exact Hid. }
    congruence.
Qed.

Lemma step_guarded_invariant (numeric : string -> option Number)
    (r : Request) (fs : list bool) (db : DB) :
  no_double_booking db /\ statuses_set db -> guarded db r ->
  no_double_booking (step numeric r fs db)
  /\ statuses_set (step numeric r fs db).
Proof.
  intros [Hnd Hset] Hg.
  destruct (step_run numeric r fs db) as (x & c' & Hrun & ->).
  destruct r as [tm cu form today now | cu id today now | cu id form now
                | cu id st now | cu form]; simpl in Hrun, Hg.
  - apply book_run in Hrun; [|reflexivity]. simpl in Hrun.
    destruct Hrun as [(_ & u & p & d & date & time & w & H) | (_ & ->)];
      [|auto].
    destruct H as (_ & _ & _ & _ & _ & Hfree & _ & ->).
    apply booking_keeps_invariant; auto.
  - apply cancel_run in Hrun; [|reflexivity]. simpl in Hrun.
    destruct Hrun as [(_ & u & p & a & H) | (_ & ->)]; [|auto].
    destruct H as (_ & _ & _ & _ & _ & _ & ->).
    apply status_write_keeps_invariant; auto.
  - apply doctor_update_run in Hrun; [|reflexivity]. simpl in Hrun.
    destruct Hrun as [(_ & u & v & _ & _ & Hv & ->) | (_ & ->)]; [|auto].
    apply (invariant_by_appointments
             (set_appointments db (set_status id v now (appointments db))));
      [reflexivity|].
    apply status_write_keeps_invariant; auto.
    exact (keeps_slots_write _ _ _ _ Hg Hv).
  - apply admin_update_run in Hrun; [|reflexivity]. simpl in Hrun.
    destruct Hrun as [(_ & u & v & _ & _ & Hv & ->) | (_ & ->)]; [|auto].
    apply status_write_keeps_invariant; auto.
    exact (keeps_slots_write _ _ _ _ Hg Hv).
  - apply availability_run in Hrun; [|reflexivity]. simpl in Hrun.
    destruct Hrun as [(_ & _ & Happ & _) _].
    exact (invariant_by_appointments db _ Happ (conj Hnd Hset)).
Qed.

Lemma fresh_invariant (db : DB) :
  fresh db -> no_double_booking db /\ statuses_set db.
Proof.
  intros (Happ & _ & _). unfold no_double_booking, statuses_set.
  rewrite Happ. simpl. split; intros; contradiction.
Qed.

Lemma guarded_reachable_invariant (numeric : string -> option Number)
    (db : DB) :
  reachable numeric guarded db -> no_double_booking db /\ statuses_set db.
Proof.
  induction 1 as [db Hf | db r fs _ IH Hg].
  - exact (fresh_invariant db Hf).
  - exact (step_guarded_invariant numeric r fs db IH Hg).
Qed.

(** ** Requests served without a storage failure *)

Section Booking.

Variable numeric : string -> option Number.
Variable sql_time : Value -> option string.
Variables (u : User) (p : PatientRow) (form : patient_bp.BookingForm).
Variables (d : Z) (date time today now : string) (db : DB).

Hypothesis Hrole : role u = patient.
Hypothesis Hprofile : select_patient (user_id u) db = Some p.
Hypothesis Hfields : patient_bp.required_fields form = Some (d, date, time).

Lemma book_past :
  String.ltb date today = true ->
  serve (patient_bp.book_appointment numeric sql_time (Some u) form today now) [] db
  = (Flashed CannotBookPast, db).
Proof.
  intros Hpast. unfold patient_bp.book_appointment.
  run_tx. rewrite Hrole. cbn [role_eqb]. rewrite Hprofile, Hfields, Hpast.
  reflexivity.
Qed.

Lemma book_conflict (a : Appointment) :
  String.ltb date today = false ->
  patient_bp.select_existing numeric d date time db = Some a ->
  serve (patient_bp.book_appointment numeric sql_time (Some u) form today now) [] db
  = (Flashed SlotAlreadyBooked, db).
Proof.
  intros Hpast Hex. unfold patient_bp.book_appointment.
  run_tx. rewrite Hrole. cbn [role_eqb].
  rewrite Hprofile, Hfields, Hpast, Hex. reflexivity.
Qed.

Lemma book_unavailable :
  String.ltb date today = false ->
  patient_bp.select_existing numeric d date time db = None ->
  patient_bp.select_available numeric sql_time d date time db = None ->
  serve (patient_bp.book_appointment numeric sql_time (Some u) form today now) [] db
  = (Flashed DoctorNotAvailable, db).
Proof.
  intros Hpast Hex Hav. unfold patient_bp.book_appointment.
  run_tx. rewrite Hrole. cbn [role_eqb].
  rewrite Hprofile, Hfields, Hpast, Hex, Hav. reflexivity.
Qed.

Lemma book_ok (w : Availability) :
  String.ltb date today = false ->
  patient_bp.select_existing numeric d date time db = None ->
  patient_bp.select_available numeric sql_time d date time db = Some w ->
  serve (patient_bp.book_appointment numeric sql_time (Some u) form today now) [] db =
  (Flashed AppointmentBooked,
   set_appointments db
     (appointments db ++
      [mkAppointment (autoincrement (map appointment_id (appointments db)))
         (pat_patient_id p) d (numeric_affinity numeric date)
         (numeric_affinity numeric time) (Some Booked)
         (patient_bp.f_reason form) now now])).
Proof.
  intros Hpast Hex Hav. unfold patient_bp.book_appointment.
  run_tx. rewrite Hrole. cbn [role_eqb].
  rewrite Hprofile, Hfields, Hpast, Hex, Hav. reflexivity.
Qed.

End Booking.

Lemma cancel_ok (u : User) (p : PatientRow) (a : Appointment) (id : Z)
    (day today now : string) (db : DB) :
  role u = patient ->
  select_patient (user_id u) db = Some p ->
  int64 id = true ->
  patient_bp.select_appointment id (pat_patient_id p) db = Some a ->
  appointment_date a = VText day ->
  String.ltb day today = false ->
  serve (patient_bp.cancel_appointment (Some u) id today now) [] db =
  (Flashed AppointmentCancelled,
   set_appointments db (set_status id (Some Cancelled) now (appointments db))).
Proof.
  intros Hrole Hp Hid Ha Hday Hd. unfold patient_bp.cancel_appointment.
  run_tx. rewrite Hrole. cbn [role_eqb]. rewrite Hp, Hid, Ha, Hday, Hd.
  unfold patient_bp.update_cancelled, update_appointment_status.
  assert (Hex : existsb (fun x => Z.eqb (appointment_id x) id)
                  (appointments db) = true).
  { apply existsb_exists. exists a. apply find_some in Ha.
    destruct Ha as [Hin Hk]. apply andb_prop in Hk. tauto. }
  rewrite Hex. reflexivity.
Qed.

Lemma doctor_update_ok (u : User) (id : Z) (form : doctor_bp.TreatmentForm)
    (v : option Status) (now : string) (db : DB) :
  role u = doctor ->
  int64 id = true ->
  check_status (doctor_bp.f_status form) = Some v
  \/ existsb (fun a => Z.eqb (appointment_id a) id) (appointments db) = false ->
  serve (doctor_bp.update_appointment (Some u) id form now) [] db =
  (Flashed TreatmentUpdated, applied id v form now db).
Proof.
  intros Hrole Hid Hv.
  assert (Hst : update_appointment_status id (doctor_bp.f_status form) now db
                = inr (set_appointments db
                         (set_status id v now (appointments db)))).
  { unfold update_appointment_status.
    destruct (existsb _ (appointments db)) eqn:E.
    - destruct Hv as [->|Hv]; [reflexivity|discriminate].
    - rewrite existsb_false_set_status by exact E.
      rewrite set_appointments_same. reflexivity. }
  unfold doctor_bp.update_appointment.
  run_tx. rewrite Hrole. cbn [role_eqb]. rewrite Hid, Hst.
  unfold applied, upsert_treatment, doctor_bp.select_treatment,
    doctor_bp.insert_treatment, doctor_bp.update_treatment.
  simpl.
  destruct (find _ (treatments db)) as [t|] eqn:E.
  - rewrite (find_some_existsb _ _ _ E). reflexivity.
  - simpl. rewrite (find_none_existsb _ _ E). reflexivity.
Qed.

Lemma availability_one_ok (numeric : string -> option Number) (u : User)
    (dr : DoctorRow) (date start stop : string) (flags : list string)
    (db : DB) :
  role u = doctor ->
  select_doctor (user_id u) db = Some dr ->
  serve (doctor_bp.availability numeric (Some u)
           (doctor_bp.mkAvailabilityForm [date] [start] [stop] flags)) [] db =
  (Flashed AvailabilityUpdated,
   set_doctor_availability db
     (declared numeric (doc_doctor_id dr) date start stop
        (existsb (String.eqb "0") flags) (doctor_availability db))).
Proof.
  intros Hrole Hdr. unfold doctor_bp.availability.
  run_tx. rewrite Hrole. cbn [role_eqb]. rewrite Hdr.
  cbn [doctor_bp.dates doctor_bp.start_times doctor_bp.end_times
       doctor_bp.availabilities List.length for_range seq for_each index
       nth_error].
  unfold doctor_bp.declare_window. run_tx.
  unfold declared, doctor_bp.select_window.
  destruct (find _ (doctor_availability db)) as [w|] eqn:E.
  - reflexivity.
  - unfold doctor_bp.insert_window. rewrite (find_none_existsb _ _ E).
    reflexivity.
Qed.

(** ** The scenarios of the specification, run on the model *)

(** Doctor 1 declares 09:00-12:00 on 2 June, open; alice books 09:30; bob is
    refused the same slot; alice cancels; bob's second request is booked. *)
Example scenario_cancel_frees_the_slot :
  let empty_ledger := set_doctor_availability clinic [] in
  let declared_db :=
    snd (serve (doctor_bp.availability plain_numeric (Some dr_smith)
                  (doctor_bp.mkAvailabilityForm ["2025-06-02"] ["09:00"]
                     ["12:00"] ["0"])) [] empty_ledger) in
  let book who at_ db :=
    serve (patient_bp.book_appointment plain_numeric clock_time (Some who) slot_0930
             "2025-06-01" at_) [] db in
  let s1 := book alice "t1" declared_db in
  let s2 := book bob "t2" (snd s1) in
  let s3 :=
    serve (patient_bp.cancel_appointment (Some alice) 1 "2025-06-01" "t3") []
      (snd s2) in
  let s4 := book bob "t4" (snd s3) in
  declared_db = clinic
  /\ fst s1 = Flashed AppointmentBooked
  /\ map status (appointments (snd s1)) = [Some Booked]
  /\ s2 = (Flashed SlotAlreadyBooked, snd s1)
  /\ fst s3 = Flashed AppointmentCancelled
  /\ map status (appointments (snd s3)) = [Some Cancelled]
  /\ fst s4 = Flashed AppointmentBooked
  /\ map status (appointments (snd s4)) = [Some Cancelled; Some Booked].
Proof. repeat split. Qed.

(** Doctor 1 completes alice's appointment with diagnosis 'flu' and
    prescription 'rest'. *)
Example scenario_completed_with_treatment :
  let out :=
    serve (doctor_bp.update_appointment (Some dr_smith) 1 flu "t2") []
      clinic_booked in
  fst out = Flashed TreatmentUpdated
  /\ map status (appointments (snd out)) = [Some Completed]
  /\ treatments (snd out)
     = [mkTreatment 1 1 (Some "flu") (Some "rest") None None "t2" "t2"].
Proof. repeat split. Qed.

(** A status the CHECK constraint refuses: nothing is stored, not even the
    treatment. *)
Example scenario_check_violation :
  serve (doctor_bp.update_appointment (Some dr_smith) 1
           (doctor_bp.mkTreatmentForm (Some "Done") (Some "flu") None None None)
           "t2") [] clinic_booked
  = (Flashed (ErrorFlash IntegrityError), clinic_booked).
Proof. reflexivity. Qed.

(** The second row of the form has no end time: the IndexError undoes the
    first row's declaration as well. *)
Example scenario_short_form :
  serve (doctor_bp.availability plain_numeric (Some dr_smith)
           (doctor_bp.mkAvailabilityForm ["2025-06-02"; "2025-06-03"]
              ["09:00"; "09:00"] ["13:00"] ["0"; "1"])) [] clinic
  = (Flashed (ErrorFlash IndexError), clinic).
Proof. reflexivity. Qed.

(** ** The writes, column by column *)

Lemma set_status_written (id : Z) (v : option Status) (now : string)
    (l : list Appointment) :
  status_written id v now l (set_status id v now l).
Proof.
  unfold status_written, set_status.
  induction l as [|a l IH]; simpl; constructor; [|exact IH].
  destruct (Z.eqb (appointment_id a) id) eqn:E.
  - apply Z.eqb_eq in E. split; [reflexivity|]. split.
    + intros _. split; reflexivity.
    + intros Hne. contradiction.
  - apply Z.eqb_neq in E. split; [reflexivity|]. split.
    + intros Hid. contradiction.
    + intros _. split; reflexivity.
Qed.

Lemma status_written_row (id : Z) (v : option Status) (now : string)
    (l l' : list Appointment) (a : Appointment) :
  status_written id v now l l' -> In a l -> appointment_id a = id ->
  exists a', In a' l' /\ particulars a' = particulars a
             /\ status a' = v /\ app_updated_at a' = now.
Proof.
  unfold status_written. intros H. induction H as [|x x' l l' Hx _ IH];
    intros Hin Hid; [contradiction|].
  destruct Hin as [->|Hin].
  - exists x'. destruct Hx as (Hp & Hyes & _). destruct (Hyes Hid).
    split; [left; reflexivity|]. auto.
  - destruct (IH Hin Hid) as (a' & Ha' & Hrest). exists a'.
    split; [right; exact Ha'|exact Hrest].
Qed.

Lemma status_written_none (id : Z) (v : option Status) (now : string)
    (l : list Appointment) :
  (forall a, In a l -> appointment_id a <> id) -> status_written id v now l l.
Proof.
  unfold status_written. induction l as [|a l IH]; intros H; constructor.
  - split; [reflexivity|]. split.
    + intros Hid. exfalso. exact (H a (or_introl eq_refl) Hid).
    + intros _. split; reflexivity.
  - apply IH. intros x Hx. apply H. right. exact Hx.
Qed.

Lemma upsert_recorded (id : Z) (form : doctor_bp.TreatmentForm) (now : string)
    (l : list Treatment) :
  treatment_recorded id form now l (upsert_treatment id form now l).
Proof.
  unfold treatment_recorded, upsert_treatment.
  destruct (existsb (fun t => Z.eqb (tr_appointment_id t) id) l) eqn:E.
  - split; [|split].
    + intros t Hne. rewrite in_map_iff. split.
      * intros (t0 & Ht & Hin).
        destruct (Z.eqb (tr_appointment_id t0) id) eqn:E0.
        -- subst t. simpl in Hne. apply Z.eqb_eq in E0. contradiction.
        -- subst t. exact Hin.
      * intros Hin. exists t. apply Z.eqb_neq in Hne. rewrite Hne. auto.
    + apply existsb_exists in E. destruct E as (t0 & Hin & Hid).
      exists (doctor_bp.with_fields t0 form now). split.
      * apply in_map_iff. exists t0. rewrite Hid. auto.
      * apply Z.eqb_eq in Hid. exact Hid.
    + intros t Hin Hid. apply in_map_iff in Hin.
      destruct Hin as (t0 & Ht & _).
      destruct (Z.eqb (tr_appointment_id t0) id) eqn:E0.
      * subst t. simpl. auto.
      * subst t. apply Z.eqb_neq in E0. contradiction.
  - split; [|split].
    + intros t Hne. rewrite in_app_iff. split; [|auto].
      intros [Hin|[<-|[]]]; [exact Hin|]. simpl in Hne. contradiction.
    + eexists. split; [apply in_or_app; right; left; reflexivity|].
      reflexivity.
    + intros t Hin Hid. apply in_app_or in Hin.
      destruct Hin as [Hin|[<-|[]]]; [|simpl; auto].
      exfalso.
      assert (Ht : existsb (fun t => Z.eqb (tr_appointment_id t) id) l = true).
      { apply existsb_exists. exists t. split; [exact Hin|].
        apply Z.eqb_eq. exact Hid. }
      congruence.
Qed.

(** * The claims *)

(** ** C1: the double-booking invariant *)

Lemma clinic_fresh : fresh clinic.
Proof.
  repeat split. unfold windows_unique. simpl. repeat constructor. simpl. tauto.
Qed.

(** C1, as stated, fails: after a cancelled slot has been booked again, the
    administrator's status override returns the cancelled appointment to
    Booked, and two Booked appointments share (doctor 1, 2025-06-02,
    09:30).  The four requests are served one after the other. *)
Lemma no_double_booking_counterexample :
  reachable plain_numeric (fun _ r => appointment_operation r) double_booked
  /\ map (fun a => (appointment_id a, app_doctor_id a, appointment_date a,
                    appointment_time a, status a))
       (appointments double_booked)
     = [(1, 1, VText "2025-06-02", VText "09:30", Some Booked);
        (2, 1, VText "2025-06-02", VText "09:30", Some Booked)]
  /\ ~ no_double_booking double_booked.
Proof.
  split; [|split].
  - unfold double_booked, rebooked.
    repeat (apply reach_step; [|exact I]).
    apply reach_fresh. exact clinic_fresh.
  - reflexivity.
  - intros H.
    apply (H (mkAppointment 1 1 1 (VText "2025-06-02") (VText "09:30")
                (Some Booked) (Some "checkup") "t1" "t4")
             (mkAppointment 2 2 1 (VText "2025-06-02") (VText "09:30")
                (Some Booked) (Some "checkup") "t3" "t3")).
    + left. reflexivity.
    + right. left. reflexivity.
    + discriminate.
    + repeat split.
    + split; discriminate.
    + split; discriminate.
Qed.

(** C1, amended.  When requests are served one at a time, in every state
    reachable from a fresh database by bookings, cancellations, declarations
    of availability, and those status updates by doctor or administrator
    that write Cancelled or Rescheduled, or write Booked or Completed to an
    appointment that is Booked or Completed, no two appointments whose
    status is outside {Cancelled, Rescheduled} share a (doctor, date, time)
    triple, date and time being the stored values.  This holds whatever
    SQLite reads as a number, whatever time() returns to each booking and
    whatever storage failures occur.  Nothing is said of requests whose
    statements interleave on two connections. *)
Theorem guarded_no_double_booking :
  forall (numeric : string -> option Number) (db : DB),
    reachable numeric guarded db -> no_double_booking db.
Proof.
  intros numeric db Hreach.
  exact (proj1 (guarded_reachable_invariant numeric db Hreach)).
Qed.

(** After the slot was booked again, doctor 1 completes bob's visit. *)
Lemma guarded_no_double_booking_witness :
  reachable plain_numeric guarded
    (step plain_numeric (DoctorUpdate (Some dr_smith) 2 flu "t4") [] rebooked)
  /\ no_double_booking
       (step plain_numeric (DoctorUpdate (Some dr_smith) 2 flu "t4") []
          rebooked).
Proof.
  assert (Hreach : reachable plain_numeric guarded
            (step plain_numeric (DoctorUpdate (Some dr_smith) 2 flu "t4") []
               rebooked)).
  { apply reach_step.
    - unfold rebooked. repeat (apply reach_step; [|exact I]).
      apply reach_fresh. exact clinic_fresh.
    - simpl. intros a [<-|[<-|[]]]; simpl; intros Hid;
        [discriminate | left; reflexivity]. }
  split; [exact Hreach|].
  exact (guarded_no_double_booking plain_numeric _ Hreach).
Defined.

(** ** C2: the slot-conflict check *)

Lemma select_existing_some (numeric : string -> option Number) (db : DB)
    (d : Z) (date time : string) :
  slot_taken numeric db d date time <->
  exists a, patient_bp.select_existing numeric d date time db = Some a.
Proof.
  unfold slot_taken, patient_bp.select_existing. split.
  - intros (a & Hin & Hd & Hdt & Ht & Hs).
    destruct (find (patient_bp.occupies numeric d date time)
                (appointments db)) as [a'|] eqn:E; [exists a'; reflexivity|].
    exfalso. apply (find_none _ _ E) in Hin.
    unfold patient_bp.occupies in Hin.
    rewrite Hd, Hdt, Ht, Z.eqb_refl, !value_eqb_refl in Hin.
    destruct Hs as [Hs|Hs]; rewrite Hs in Hin; discriminate.
  - intros (a & Hf). apply find_some in Hf. destruct Hf as [Hin Hocc].
    unfold patient_bp.occupies in Hocc.
    apply andb_prop in Hocc. destruct Hocc as [Hocc Hs].
    apply andb_prop in Hocc. destruct Hocc as [Hocc Ht].
    apply andb_prop in Hocc. destruct Hocc as [Hd Hdt].
    apply Z.eqb_eq in Hd. apply value_eqb_eq in Hdt.
    apply value_eqb_eq in Ht.
    exists a. repeat split; auto.
    destruct (status a) as [[| | |]|]; simpl in Hs; try discriminate; auto.
Qed.

Lemma select_available_some (numeric : string -> option Number)
    (sql_time : Value -> option string) (db : DB)
    (d : Z) (date time : string) :
  isOpenAt numeric sql_time db d date time <->
  exists w, patient_bp.select_available numeric sql_time d date time db
            = Some w.
Proof.
  unfold isOpenAt, patient_bp.select_available. split.
  - intros (w & t & lo & hi & Hin & Hd & Hdt & Ho & Ht & Hlo & Hhi & H1 & H2).
    destruct (find (patient_bp.covers numeric sql_time d date time)
                (doctor_availability db)) as [w'|] eqn:E;
      [exists w'; reflexivity|].
    exfalso. apply (find_none _ _ E) in Hin.
    unfold patient_bp.covers, patient_bp.between in Hin.
    rewrite Hd, Hdt, Ho, Ht, Hlo, Hhi, H1, H2, Z.eqb_refl, value_eqb_refl
      in Hin.
    discriminate.
  - intros (w & Hf). apply find_some in Hf. destruct Hf as [Hin Hc].
    unfold patient_bp.covers, patient_bp.between in Hc.
    apply andb_prop in Hc. destruct Hc as [Hc Hb].
    apply andb_prop in Hc. destruct Hc as [Hc Ho].
    apply andb_prop in Hc. destruct Hc as [Hd Hdt].
    apply Z.eqb_eq in Hd. apply value_eqb_eq in Hdt.
    apply Bool.eqb_prop in Ho.
    destruct (sql_time (VText time)) as [t|] eqn:Et; [|discriminate].
    destruct (sql_time (start_time w)) as [lo|] eqn:Elo; [|discriminate].
    destruct (sql_time (end_time w)) as [hi|] eqn:Ehi; [|discriminate].
    apply andb_prop in Hb. destruct Hb as [H1 H2].
    exists w, t, lo, hi. repeat split; auto.
Qed.

(** The availability query depends on time() only through its results. *)
Lemma select_available_ext (numeric : string -> option Number)
    (f g : Value -> option string) (d : Z) (date time : string) (db : DB) :
  (forall v, f v = g v) ->
  patient_bp.select_available numeric f d date time db
  = patient_bp.select_available numeric g d date time db.
Proof.
  intros Hfg. unfold patient_bp.select_available.
  induction (doctor_availability db) as [|w l IH]; simpl; [reflexivity|].
  unfold patient_bp.covers at 1 3. rewrite !Hfg.
  destruct (_ && _)%bool; [reflexivity|exact IH].
Qed.

(** C2, as stated, fails: bob asks on 3 June for the 09:30 slot of 2 June,
    which alice holds with status Booked; the request is turned down as a
    past booking, not as a slot conflict. *)
Lemma conflict_iff_slot_taken_counterexample :
  patient_bp.required_fields slot_0930 = Some (1, "2025-06-02", "09:30")
  /\ slot_taken plain_numeric clinic_booked 1 "2025-06-02" "09:30"
  /\ fst (serve (patient_bp.book_appointment plain_numeric clock_time
                   (Some bob) slot_0930 "2025-06-03" "now") [] clinic_booked)
     = Flashed CannotBookPast
  /\ ~ (fst (serve (patient_bp.book_appointment plain_numeric clock_time
                      (Some bob) slot_0930 "2025-06-03" "now") []
               clinic_booked)
        = Flashed SlotAlreadyBooked
        <-> slot_taken plain_numeric clinic_booked 1 "2025-06-02" "09:30").
Proof.
  assert (Htaken : slot_taken plain_numeric clinic_booked 1 "2025-06-02"
                     "09:30").
  { exists booking. simpl. repeat split; auto. }
  split; [reflexivity|]. split; [exact Htaken|]. split; [reflexivity|].
  intros [_ H]. specialize (H Htaken). discriminate H.
Qed.

(** C2, amended.  For a booking request by a patient with a profile that
    carries its required fields and whose date is not before today, the
    answer is 'Time slot already booked.' if and only if some appointment
    of that doctor whose stored date and time are the values the requested
    date and time denote is Booked or Completed, which is what the filter
    [status NOT IN ('Cancelled', 'Rescheduled')] selects.  And when such a
    request is accepted, its date is one SQLite keeps as text and the new
    identifier fits 64 bits, the patient's cancellation of the new
    appointment that day is accepted, and a further request for the same
    slot that day, by any patient, is not answered 'Time slot already
    booked.': it is booked exactly when the availability test passes with
    what time() returns to that request, and refused as unavailable
    otherwise; so it is booked whenever time() returns to it what it
    returned to the first request. *)
Theorem conflict_iff_slot_taken :
  forall (numeric : string -> option Number)
         (sql_time : Value -> option string) (u : User) (p : PatientRow)
         (form : patient_bp.BookingForm) (d : Z) (date time today now : string)
         (db : DB),
    role u = patient ->
    select_patient (user_id u) db = Some p ->
    patient_bp.required_fields form = Some (d, date, time) ->
    String.ltb date today = false ->
    let out :=
      serve (patient_bp.book_appointment numeric sql_time (Some u) form
               today now) [] db in
    (fst out = Flashed SlotAlreadyBooked <-> slot_taken numeric db d date time)
    /\ (forall s : option Status,
          (s = Some Booked \/ s = Some Completed)
          <-> status_not_in_cancelled_rescheduled s = true)
    /\ (fst out = Flashed AppointmentBooked ->
        numeric date = None ->
        int64 (autoincrement (map appointment_id (appointments db))) = true ->
        forall (sql_time' : Value -> option string) (u' : User)
               (p' : PatientRow) (form' : patient_bp.BookingForm)
               (now' now'' : string),
          role u' = patient ->
          select_patient (user_id u') db = Some p' ->
          patient_bp.required_fields form' = Some (d, date, time) ->
          let cancelled :=
            serve (patient_bp.cancel_appointment (Some u)
                     (autoincrement (map appointment_id (appointments db)))
                     today now') [] (snd out) in
          let rebook :=
            serve (patient_bp.book_appointment numeric sql_time' (Some u')
                     form' today now'') [] (snd cancelled) in
          fst cancelled = Flashed AppointmentCancelled
          /\ fst rebook <> Flashed SlotAlreadyBooked
          /\ (fst rebook = Flashed AppointmentBooked
              <-> isOpenAt numeric sql_time' db d date time)
          /\ (fst rebook = Flashed DoctorNotAvailable
              <-> ~ isOpenAt numeric sql_time' db d date time)
          /\ ((forall v, sql_time' v = sql_time v) ->
              fst rebook = Flashed AppointmentBooked)).
Proof.
  intros numeric sql_time u p form d date time today now db Hrole Hp Hreq Hday
    out.
  subst out.
  destruct (patient_bp.select_existing numeric d date time db) as [a|] eqn:Hex.
  - rewrite (book_conflict numeric sql_time u p form d date time today now db
               Hrole Hp Hreq a Hday Hex). cbn [fst snd].
    split; [|split].
    + split; [intros _|reflexivity].
      apply select_existing_some. exists a. exact Hex.
    + intros [[| | |]|]; simpl; split; intros H; try discriminate; auto;
        destruct H; discriminate.
    + discriminate.
  - assert (Hfree : ~ slot_taken numeric db d date time).
    { intros H. apply select_existing_some in H. destruct H as (a & H).
      congruence. }
    split; [|split].
    + destruct (patient_bp.select_available numeric sql_time d date time db)
        as [w|] eqn:Hav.
      * rewrite (book_ok numeric sql_time u p form d date time today now db
                   Hrole Hp Hreq w Hday Hex Hav). cbn [fst].
        split; [discriminate|tauto].
      * rewrite (book_unavailable numeric sql_time u p form d date time today
                   now db Hrole Hp Hreq Hday Hex Hav). cbn [fst].
        split; [discriminate|tauto].
    + intros [[| | |]|]; simpl; split; intros H; try discriminate; auto;
        destruct H; discriminate.
    + destruct (patient_bp.select_available numeric sql_time d date time db)
        as [w|] eqn:Hav;
        [|rewrite (book_unavailable numeric sql_time u p form d date time
                     today now db Hrole Hp Hreq Hday Hex Hav); discriminate].
      rewrite (book_ok numeric sql_time u p form d date time today now db
                 Hrole Hp Hreq w Hday Hex Hav). cbn [fst snd].
      intros _ Htext Hid sql_time' u' p' form' now' now'' Hrole' Hp' Hreq'.
      set (id := autoincrement (map appointment_id (appointments db))) in *.
      set (new := mkAppointment id (pat_patient_id p) d
                    (numeric_affinity numeric date)
                    (numeric_affinity numeric time) (Some Booked)
                    (patient_bp.f_reason form) now now) in *.
      set (db1 := set_appointments db (appointments db ++ [new])) in *.
      assert (Hnoid : forall x, In x (appointments db) ->
                Z.eqb (appointment_id x) id = false).
      { intros x Hx. apply Z.eqb_neq. apply autoincrement_fresh.
        apply in_map. exact Hx. }
      assert (Hsel : patient_bp.select_appointment id (pat_patient_id p) db1
                     = Some new).
      { unfold patient_bp.select_appointment, db1. simpl.
        assert (Hfind : forall l, (forall x, In x l ->
                            Z.eqb (appointment_id x) id = false) ->
                  find (fun a => Z.eqb (appointment_id a) id
                                 && Z.eqb (app_patient_id a) (pat_patient_id p))%bool
                       (l ++ [new]) = Some new).
        { induction l as [|x l IH]; simpl; intros Hl.
          - rewrite !Z.eqb_refl. reflexivity.
          - rewrite (Hl x (or_introl eq_refl)). simpl. apply IH.
            intros y Hy. apply Hl. right. exact Hy. }
        apply Hfind. exact Hnoid. }
      assert (Hdate : appointment_date new = VText date).
      { unfold new, numeric_affinity. simpl. rewrite Htext. reflexivity. }
      rewrite (cancel_ok u p new id date today now' db1 Hrole Hp Hid Hsel
                 Hdate Hday).
      cbn [fst snd]. split; [reflexivity|].
      set (db2 := set_appointments db1
                    (set_status id (Some Cancelled) now' (appointments db1))).
      assert (Happs : appointments db2 =
                appointments db ++ [with_status new (Some Cancelled) now']).
      { unfold db2, db1. simpl. unfold set_status. rewrite map_app. simpl.
        rewrite Z.eqb_refl. f_equal. apply map_id_when.
        intros x Hx. rewrite (Hnoid x Hx). reflexivity. }
      assert (Hex2 : patient_bp.select_existing numeric d date time db2
                     = None).
      { unfold patient_bp.select_existing. rewrite Happs.
        apply find_snoc_none; [exact Hex|].
        unfold patient_bp.occupies. simpl. apply andb_false_r. }
      destruct (patient_bp.select_available numeric sql_time' d date time db2)
        as [w'|] eqn:Hav2.
      * rewrite (book_ok numeric sql_time' u' p' form' d date time today now''
                   db2 Hrole' Hp' Hreq' w' Hday Hex2 Hav2). cbn [fst].
        assert (Hopen : isOpenAt numeric sql_time' db d date time)
          by (apply select_available_some; exists w'; exact Hav2).
        split; [discriminate|]. split; [|split].
        -- split; auto.
        -- split; [discriminate|]. intros Hn. contradiction.
        -- reflexivity.
      * rewrite (book_unavailable numeric sql_time' u' p' form' d date time
                   today now'' db2 Hrole' Hp' Hreq' Hday Hex2 Hav2). cbn [fst].
        change (patient_bp.select_available numeric sql_time' d date time db2)
          with (patient_bp.select_available numeric sql_time' d date time db)
          in Hav2.
        assert (Hclosed : ~ isOpenAt numeric sql_time' db d date time).
        { intros H. apply select_available_some in H. destruct H as (w' & H).
          congruence. }
        split; [discriminate|]. split; [|split].
        -- split; [discriminate|]. intros Hn. contradiction.
        -- split; auto.
        -- intros Hsame. exfalso.
           rewrite (select_available_ext numeric sql_time' sql_time d date
                      time db Hsame) in Hav2.
           congruence.
Qed.

(** alice books the 09:30 slot, cancels, and bob books it. *)
Lemma conflict_iff_slot_taken_witness :
  isOpenAt plain_numeric clock_time clinic 1 "2025-06-02" "09:30"
  /\ fst (serve (patient_bp.cancel_appointment (Some alice) 1
                   "2025-06-01" "t2") []
            (snd (serve (patient_bp.book_appointment plain_numeric clock_time
                           (Some alice) slot_0930 "2025-06-01" "t1")
                    [] clinic)))
     = Flashed AppointmentCancelled
  /\ fst (serve (patient_bp.book_appointment plain_numeric clock_time
                   (Some bob) slot_0930 "2025-06-01" "t3") []
            (snd (serve (patient_bp.cancel_appointment (Some alice) 1
                           "2025-06-01" "t2") []
                    (snd (serve (patient_bp.book_appointment plain_numeric
                                   clock_time (Some alice) slot_0930
                                   "2025-06-01" "t1")
                            [] clinic)))))
     = Flashed AppointmentBooked.
Proof.
  assert (Hopen : isOpenAt plain_numeric clock_time clinic 1 "2025-06-02"
                    "09:30").
  { exists (mkAvailability 1 1 (VText "2025-06-02") (VText "09:00")
              (VText "12:00") true), "09:30:00", "09:00:00", "12:00:00".
    repeat split. left. reflexivity. }
  pose proof (proj2 (proj2 (conflict_iff_slot_taken plain_numeric clock_time
                alice (mkPatient 1 20 active) slot_0930 1 "2025-06-02" "09:30"
                "2025-06-01" "t1" clinic eq_refl eq_refl eq_refl eq_refl))
                eq_refl eq_refl eq_refl clock_time bob (mkPatient 2 21 active)
                slot_0930 "t2" "t3" eq_refl eq_refl eq_refl) as H.
  split; [exact Hopen|]. split; [exact (proj1 H)|].
  exact (proj2 (proj2 (proj2 (proj2 H))) (fun v => eq_refl)).
Defined.

(** ** C3: the availability test is inclusive at both ends *)

(** C3.  For a booking request that passes the past-date and conflict
    checks, the availability test passes (the appointment is booked)
    exactly when [isOpenAt] holds, and fails ('Doctor is not available at
    this time.') exactly when it does not.  The bounds are inclusive: a time
    that time() reads as the end, or as the start, of an open window of that
    doctor and date, whose start is not after its end, is accepted; a time
    after the end of every open window of that doctor and date is rejected.
    The window's date is the value the requested date denotes in its
    column. *)
Theorem availability_window_inclusive :
  forall (numeric : string -> option Number)
         (sql_time : Value -> option string) (u : User) (p : PatientRow)
         (form : patient_bp.BookingForm) (d : Z) (date time today now : string)
         (db : DB),
    role u = patient ->
    select_patient (user_id u) db = Some p ->
    patient_bp.required_fields form = Some (d, date, time) ->
    String.ltb date today = false ->
    patient_bp.select_existing numeric d date time db = None ->
    let out :=
      serve (patient_bp.book_appointment numeric sql_time (Some u) form
               today now) [] db in
    (fst out = Flashed AppointmentBooked
     <-> isOpenAt numeric sql_time db d date time)
    /\ (fst out = Flashed DoctorNotAvailable
        <-> ~ isOpenAt numeric sql_time db d date time)
    /\ (forall w lo hi,
          In w (doctor_availability db) ->
          av_doctor_id w = d -> av_date w = numeric_affinity numeric date ->
          is_available w = true ->
          sql_time (start_time w) = Some lo ->
          sql_time (end_time w) = Some hi ->
          String.leb lo hi = true ->
          sql_time (VText time) = Some hi \/ sql_time (VText time) = Some lo ->
          fst out = Flashed AppointmentBooked)
    /\ ((forall w t hi,
           In w (doctor_availability db) ->
           av_doctor_id w = d -> av_date w = numeric_affinity numeric date ->
           is_available w = true ->
           sql_time (VText time) = Some t ->
           sql_time (end_time w) = Some hi ->
           String.ltb hi t = true) ->
        fst out = Flashed DoctorNotAvailable).
Proof.
  intros numeric sql_time u p form d date time today now db Hrole Hp Hreq Hday
    Hex out.
  assert (Hiff : (fst out = Flashed AppointmentBooked
                  <-> isOpenAt numeric sql_time db d date time)
                 /\ (fst out = Flashed DoctorNotAvailable
                     <-> ~ isOpenAt numeric sql_time db d date time)).
  { subst out.
    destruct (patient_bp.select_available numeric sql_time d date time db)
      as [w|] eqn:Hav.
    - rewrite (book_ok numeric sql_time u p form d date time today now db
                 Hrole Hp Hreq w Hday Hex Hav). cbn [fst].
      assert (Hopen : isOpenAt numeric sql_time db d date time)
        by (apply select_available_some; exists w; exact Hav).
      split; split; auto; try discriminate. intros Hn. contradiction.
    - rewrite (book_unavailable numeric sql_time u p form d date time today
                 now db Hrole Hp Hreq Hday Hex Hav). cbn [fst].
      assert (Hclosed : ~ isOpenAt numeric sql_time db d date time).
      { intros H. apply select_available_some in H. destruct H as (w & H).
        congruence. }
      split; split; auto; try discriminate. intros Hn. contradiction. }
  destruct Hiff as [Hyes Hno].
  split; [exact Hyes|]. split; [exact Hno|]. split.
  - intros w lo hi Hin Hd Hdt Ho Hlo Hhi Hle [Ht|Ht]; apply Hyes.
    + exists w, hi, lo, hi. repeat split; auto. apply string_leb_refl.
    + exists w, lo, lo, hi. repeat split; auto. apply string_leb_refl.
  - intros Hafter. apply Hno.
    intros (w & t & lo & hi & Hin & Hd & Hdt & Ho & Ht & Hlo & Hhi & H1 & H2).
    pose proof (Hafter w t hi Hin Hd Hdt Ho Ht Hhi) as Hlt.
    apply string_ltb_not_leb in Hlt. congruence.
Qed.

(** The window of doctor 1 on 2 June is 09:00 to 12:00 and open: a request
    for 12:00 is booked. *)
Lemma availability_window_inclusive_witness :
  fst (serve (patient_bp.book_appointment plain_numeric clock_time
                (Some alice)
                (patient_bp.mkBookingForm (Some 1) (Some "2025-06-02")
                   (Some "12:00") None)
                "2025-06-01" "now") [] clinic)
  = Flashed AppointmentBooked.
Proof.
  apply (proj1 (proj2 (proj2 (availability_window_inclusive plain_numeric
           clock_time alice (mkPatient 1 20 active)
           (patient_bp.mkBookingForm (Some 1) (Some "2025-06-02")
              (Some "12:00") None)
           1 "2025-06-02" "12:00" "2025-06-01" "now" clinic
           eq_refl eq_refl eq_refl eq_refl eq_refl)))
           (mkAvailability 1 1 (VText "2025-06-02") (VText "09:00")
              (VText "12:00") true)
           "09:00:00" "12:00:00");
    try reflexivity.
  - left. reflexivity.
  - left. reflexivity.
Defined.

(** ** C4: no booking in the past *)

(** C4.  A booking request whose date is before today never creates an
    appointment and never changes the stored database, whoever sends it and
    whatever the oracle, the ledger and the appointments table hold; and
    when the request carries its three required fields and comes from a
    patient with a profile, the answer is 'Cannot book past
    appointments.'. *)
Theorem past_booking_rejected :
  forall (numeric : string -> option Number)
         (sql_time : Value -> option string) (cu : option User)
         (form : patient_bp.BookingForm) (date today now : string) (db : DB),
    patient_bp.f_appointment_date form = Some date ->
    String.ltb date today = true ->
    (forall fs,
       let out :=
         serve (patient_bp.book_appointment numeric sql_time cu form today now)
           fs db in
       snd out = db /\ fst out <> Flashed AppointmentBooked)
    /\ (forall u p d time,
          cu = Some u -> role u = patient ->
          select_patient (user_id u) db = Some p ->
          patient_bp.required_fields form = Some (d, date, time) ->
          serve (patient_bp.book_appointment numeric sql_time cu form today now)
            [] db
          = (Flashed CannotBookPast, db)).
Proof.
  intros numeric sql_time cu form date today now db Hdate Hpast. split.
  - intros fs out. subst out.
    destruct (serve_run (patient_bp.book_appointment numeric sql_time cu form
                           today now) fs db) as (r & c' & Hrun & ->).
    apply book_run in Hrun; [|reflexivity]. simpl in Hrun. simpl.
    destruct Hrun as [(_ & u & p & d & date' & time & w & H) | (Hr & ->)].
    + exfalso. destruct H as (_ & _ & _ & Hreq & Hnot & _).
      unfold patient_bp.required_fields in Hreq. rewrite Hdate in Hreq.
      destruct (patient_bp.f_doctor_id form); [|discriminate].
      destruct (patient_bp.f_appointment_time form); [|discriminate].
      destruct (negb (String.eqb date "") && negb (String.eqb s ""))%bool;
        [|discriminate].
      inversion Hreq; subst. congruence.
    + split; [reflexivity|]. destruct r as [e|f]; [discriminate|]. congruence.
  - intros u p d time -> Hrole Hp Hreq.
    exact (book_past numeric sql_time u p form d date time today now db
             Hrole Hp Hreq Hpast).
Qed.

(** Booking the open, free 09:30 slot of 2 June on 3 June. *)
Lemma past_booking_rejected_witness :
  serve (patient_bp.book_appointment plain_numeric clock_time (Some alice)
           slot_0930 "2025-06-03" "now") [] clinic
  = (Flashed CannotBookPast, clinic).
Proof.
  apply (proj2 (past_booking_rejected plain_numeric clock_time (Some alice)
                  slot_0930 "2025-06-02" "2025-06-03" "now" clinic eq_refl
                  eq_refl)
           alice (mkPatient 1 20 active) 1 "09:30" eq_refl eq_refl eq_refl
           eq_refl).
Defined.

(** ** C5: blacklisted parties and new bookings *)

(** C5 at its failing input: doctor 1 and patient 1 are blacklisted, and
    both bob's request for doctor 1 and alice's own request are booked. *)
Theorem blacklisted_parties_can_book :
  In (mkDoctor 1 10 blacklisted) (doctors clinic_blacklisted)
  /\ In (mkPatient 1 20 blacklisted) (patients clinic_blacklisted)
  /\ fst (serve (patient_bp.book_appointment plain_numeric clock_time
                   (Some bob) slot_0930 "2025-06-01" "now") []
            clinic_blacklisted)
     = Flashed AppointmentBooked
  /\ fst (serve (patient_bp.book_appointment plain_numeric clock_time
                   (Some alice) slot_0930 "2025-06-01" "now") []
            clinic_blacklisted)
     = Flashed AppointmentBooked.
Proof.
  split; [left; reflexivity|]. split; [left; reflexivity|].
  split; reflexivity.
Qed.

(** ** C6: the clinician's update is atomic *)

(** A failure injected at any of the four storage calls of the try block
    (the status UPDATE, the treatment SELECT, the treatment write, the
    commit) keeps the success message away. *)
Lemma doctor_update_fault (cu : option User) (id : Z)
    (form : doctor_bp.TreatmentForm) (now : string) (fs : list bool) (db : DB) :
  In true (firstn 4 fs) ->
  fst (serve (doctor_bp.update_appointment cu id form now) fs db)
  <> Flashed TreatmentUpdated.
Proof.
  unfold doctor_bp.update_appointment.
  destruct cu as [u|]; [|intros _; discriminate].
  run_tx.
  destruct (role_eqb (role u) doctor); [|intros _; discriminate].
  destruct (int64 id);
  repeat match goal with
  | |- context [match ?l with [] => _ | _ :: _ => _ end] =>
      is_var l; destruct l as [|[|] l]; run_tx
  | |- context [match update_appointment_status ?a ?b ?c ?d with _ => _ end] =>
      destruct (update_appointment_status a b c d); run_tx
  | |- context [match doctor_bp.select_treatment ?a ?b with _ => _ end] =>
      destruct (doctor_bp.select_treatment a b); run_tx
  | |- context [match doctor_bp.insert_treatment ?a ?b ?c ?d with _ => _ end] =>
      destruct (doctor_bp.insert_treatment a b c d); run_tx
  | |- context [match doctor_bp.update_treatment ?a ?b ?c ?d with _ => _ end] =>
      destruct (doctor_bp.update_treatment a b c d); run_tx
  end;
  simpl; intros H; try discriminate; intuition discriminate.
Qed.

(** An identifier that does not fit SQLite's 64-bit INTEGER keeps the
    success message away: the first statement of the try block cannot bind
    it. *)
Lemma doctor_update_overflow (cu : option User) (id : Z)
    (form : doctor_bp.TreatmentForm) (now : string) (fs : list bool) (db : DB) :
  int64 id = false ->
  fst (serve (doctor_bp.update_appointment cu id form now) fs db)
  <> Flashed TreatmentUpdated.
Proof.
  intros Hid. unfold doctor_bp.update_appointment.
  destruct cu as [u|]; [|discriminate].
  run_tx.
  destruct (role_eqb (role u) doctor); [|discriminate].
  rewrite Hid.
  repeat match goal with
  | |- context [match ?l with [] => _ | _ :: _ => _ end] =>
      is_var l; destruct l as [|[|] l]; run_tx
  end;
  simpl; discriminate.
Qed.

(** C6.  Whatever the caller, the form and the oracle, the stored database
    after the clinician's update is one of two.  Either the answer is the
    success message and both writes are visible: in the appointments table
    the row of the appointment has the submitted status and the new update
    time, every other row and every other column is as it was; in the
    treatments table there is a record for the appointment, every record
    for it holds the submitted diagnosis, prescription, notes and follow-up
    date, and the records of other appointments are as they were; patients,
    doctors and the ledger are untouched.  Or the answer is not the success
    message and the stored database is the one before the request: neither
    write is visible.  A storage failure at any step of the transaction, a
    status the CHECK constraint refuses for an existing appointment, and an
    identifier SQLite cannot bind, lead to the second. *)
Theorem doctor_update_atomic :
  forall (cu : option User) (id : Z) (form : doctor_bp.TreatmentForm)
         (now : string) (fs : list bool) (db : DB),
    let out := serve (doctor_bp.update_appointment cu id form now) fs db in
    ((fst out = Flashed TreatmentUpdated
      /\ (exists v,
            (check_status (doctor_bp.f_status form) = Some v
             \/ forall a, In a (appointments db) -> appointment_id a <> id)
            /\ status_written id v now (appointments db)
                 (appointments (snd out)))
      /\ treatment_recorded id form now (treatments db) (treatments (snd out))
      /\ patients (snd out) = patients db
      /\ doctors (snd out) = doctors db
      /\ doctor_availability (snd out) = doctor_availability db)
     \/ (fst out <> Flashed TreatmentUpdated /\ snd out = db))
    /\ (In true (firstn 4 fs) ->
        fst out <> Flashed TreatmentUpdated /\ snd out = db)
    /\ (check_status (doctor_bp.f_status form) = None ->
        (exists a, In a (appointments db) /\ appointment_id a = id) ->
        fst out <> Flashed TreatmentUpdated /\ snd out = db)
    /\ (int64 id = false ->
        fst out <> Flashed TreatmentUpdated /\ snd out = db).
Proof.
  intros cu id form now fs db out.
  assert (Hdich :
    (fst out = Flashed TreatmentUpdated
      /\ exists v,
           (check_status (doctor_bp.f_status form) = Some v
            \/ existsb (fun a => Z.eqb (appointment_id a) id)
                 (appointments db) = false)
           /\ snd out = applied id v form now db)
     \/ (fst out <> Flashed TreatmentUpdated /\ snd out = db)).
  { subst out.
    destruct (serve_run (doctor_bp.update_appointment cu id form now) fs db)
      as (r & c' & Hrun & ->).
    apply doctor_update_run in Hrun; [|reflexivity]. simpl in Hrun. simpl.
    destruct Hrun as [(-> & u & v & _ & _ & Hv & Hc) | (Hr & Hc)].
    - left. split; [reflexivity|]. exists v. auto.
    - right. split; [|exact Hc].
      destruct r as [e|f]; [discriminate|]. congruence. }
  assert (Hno : forall l : list Appointment,
            existsb (fun a => Z.eqb (appointment_id a) id) l = false ->
            forall a, In a l -> appointment_id a <> id).
  { intros l E a Hin Hid.
    assert (Ht : existsb (fun a => Z.eqb (appointment_id a) id) l = true)
      by (apply existsb_exists; exists a; split; [exact Hin|];
          apply Z.eqb_eq; exact Hid).
    congruence. }
  split; [|split; [|split]].
  - destruct Hdich as [(Hs & v & Hv & Hout) | Hfail]; [left|right; exact Hfail].
    split; [exact Hs|]. rewrite Hout. unfold applied. cbn [appointments
      treatments patients doctors doctor_availability].
    split; [|split; [apply upsert_recorded|repeat split]].
    destruct Hv as [Hv|Hv].
    + exists v. split; [left; exact Hv|]. apply set_status_written.
    + exists v. split; [right; exact (Hno _ Hv)|]. apply set_status_written.
  - intros Hf. destruct Hdich as [(Hs & _) | Hfail]; [|exact Hfail].
    exfalso. exact (doctor_update_fault cu id form now fs db Hf Hs).
  - intros Hbad (a & Hin & Hid).
    destruct Hdich as [(_ & v & Hv & _) | Hfail]; [|exact Hfail].
    exfalso. destruct Hv as [Hv|Hv]; [congruence|].
    exact (Hno _ Hv a Hin Hid).
  - intros Hid. destruct Hdich as [(Hs & _) | Hfail]; [|exact Hfail].
    exfalso. exact (doctor_update_overflow cu id form now fs db Hid Hs).
Qed.

(** The commit fails after both writes were made on the connection: the
    stored database is the one before the request. *)
Lemma doctor_update_atomic_witness :
  In true (firstn 4 [false; false; false; true])
  /\ snd (serve (doctor_bp.update_appointment (Some dr_smith) 1 flu "now")
            [false; false; false; true] clinic_after_visit)
     = clinic_after_visit.
Proof.
  split; [simpl; tauto|].
  apply (proj1 (proj2 (doctor_update_atomic (Some dr_smith) 1 flu "now"
                         [false; false; false; true] clinic_after_visit))).
  simpl. tauto.
Defined.

(** ** C7: the treatment upsert keeps one record, with the latest values *)

Lemma upsert_keys (id : Z) (form : doctor_bp.TreatmentForm) (now : string)
    (l : list Treatment) :
  map tr_appointment_id (upsert_treatment id form now l) =
  if existsb (fun t => Z.eqb (tr_appointment_id t) id) l
  then map tr_appointment_id l
  else map tr_appointment_id l ++ [id].
Proof.
  unfold upsert_treatment.
  destruct (existsb _ l).
  - rewrite map_map. apply map_ext. intros t.
    destruct (Z.eqb (tr_appointment_id t) id); reflexivity.
  - rewrite map_app. reflexivity.
Qed.

Lemma upsert_unique (id : Z) (form : doctor_bp.TreatmentForm) (now : string)
    (l : list Treatment) :
  NoDup (map tr_appointment_id l) ->
  NoDup (map tr_appointment_id (upsert_treatment id form now l)).
Proof.
  intros Hnd. rewrite upsert_keys.
  destruct (existsb _ l) eqn:E; [exact Hnd|].
  apply NoDup_app; [exact Hnd | repeat constructor; auto |].
  intros k Hk [<-|[]]. apply in_map_iff in Hk. destruct Hk as (t & Ht & Hin).
  assert (Hex : existsb (fun t => Z.eqb (tr_appointment_id t) id) l = true).
  { apply existsb_exists. exists t. split; [exact Hin|].
    apply Z.eqb_eq. exact Ht. }
  congruence.
Qed.

(** After an upsert there is a record for [id] holding the submitted
    fields. *)
Lemma upsert_has (id : Z) (form : doctor_bp.TreatmentForm) (now : string)
    (l : list Treatment) :
  exists t, In t (upsert_treatment id form now l)
    /\ tr_appointment_id t = id
    /\ diagnosis t = doctor_bp.f_diagnosis form
    /\ prescription t = doctor_bp.f_prescription form
    /\ notes t = doctor_bp.f_notes form
    /\ follow_up_date t = doctor_bp.f_follow_up_date form.
Proof.
  unfold upsert_treatment.
  destruct (existsb _ l) eqn:E.
  - apply existsb_exists in E. destruct E as (t0 & Hin & Hid).
    exists (doctor_bp.with_fields t0 form now). split.
    + apply in_map_iff. exists t0. rewrite Hid. auto.
    + apply Z.eqb_eq in Hid. simpl. auto.
  - eexists. split; [apply in_or_app; right; left; reflexivity|].
    simpl. auto.
Qed.

Lemma filter_unique_key {A : Type} (key : A -> Z) (l : list A) (a : A) :
  NoDup (map key l) -> In a l ->
  filter (fun x => Z.eqb (key x) (key a)) l = [a].
Proof.
  induction l as [|x l IH]; simpl; intros Hnd Hin; [contradiction|].
  inversion Hnd as [|k ks Hnotin Hnd']; subst.
  assert (Hnone : forall y, In y l -> ~ In (key y) (map key l) ->
            False) by (intros y Hy Hn; apply Hn, in_map, Hy).
  destruct Hin as [->|Hin].
  - rewrite Z.eqb_refl. f_equal.
    clear IH Hnd Hnd' Hnone. induction l as [|y l IHl]; [reflexivity|].
    simpl. destruct (Z.eqb (key y) (key a)) eqn:E.
    + exfalso. apply Hnotin. apply Z.eqb_eq in E. rewrite <- E.
      left. reflexivity.
    + apply IHl. intros Hc. apply Hnotin. right. exact Hc.
  - destruct (Z.eqb (key x) (key a)) eqn:E.
    + exfalso. apply Hnotin. apply Z.eqb_eq in E. rewrite E.
      apply in_map. exact Hin.
    + apply IH; auto.
Qed.

(** C7.  On a database that satisfies UNIQUE(appointment_id) on
    treatments, two updates of the same appointment that both go through,
    whoever sends them and whatever the oracles, leave exactly one
    treatment record for it, and that record holds the diagnosis,
    prescription, notes and follow-up date of the second call.  Both do go
    through when they come from doctors, carry statuses the CHECK constraint
    accepts and an identifier that fits 64 bits, and storage does not
    fail. *)
Theorem treatment_upsert_latest_wins :
  forall (id : Z) (form1 form2 : doctor_bp.TreatmentForm)
         (now1 now2 : string) (db : DB),
    treatments_unique db ->
    (forall (cu1 cu2 : option User) (fs1 fs2 : list bool),
       let out1 :=
         serve (doctor_bp.update_appointment cu1 id form1 now1) fs1 db in
       let out2 :=
         serve (doctor_bp.update_appointment cu2 id form2 now2) fs2
           (snd out1) in
       fst out1 = Flashed TreatmentUpdated ->
       fst out2 = Flashed TreatmentUpdated ->
       exists t,
         filter (fun x => Z.eqb (tr_appointment_id x) id)
           (treatments (snd out2)) = [t]
         /\ diagnosis t = doctor_bp.f_diagnosis form2
         /\ prescription t = doctor_bp.f_prescription form2
         /\ notes t = doctor_bp.f_notes form2
         /\ follow_up_date t = doctor_bp.f_follow_up_date form2)
    /\ (forall (u1 u2 : User) (v1 v2 : option Status),
          role u1 = doctor -> role u2 = doctor ->
          check_status (doctor_bp.f_status form1) = Some v1 ->
          check_status (doctor_bp.f_status form2) = Some v2 ->
          int64 id = true ->
          let out1 :=
            serve (doctor_bp.update_appointment (Some u1) id form1 now1) []
              db in
          let out2 :=
            serve (doctor_bp.update_appointment (Some u2) id form2 now2) []
              (snd out1) in
          fst out1 = Flashed TreatmentUpdated
          /\ fst out2 = Flashed TreatmentUpdated
          /\ exists t,
               filter (fun x => Z.eqb (tr_appointment_id x) id)
                 (treatments (snd out2)) = [t]
               /\ diagnosis t = doctor_bp.f_diagnosis form2
               /\ prescription t = doctor_bp.f_prescription form2
               /\ notes t = doctor_bp.f_notes form2
               /\ follow_up_date t = doctor_bp.f_follow_up_date form2).
Proof.
  intros id form1 form2 now1 now2 db Hnd.
  assert (Hgen : forall (cu1 cu2 : option User) (fs1 fs2 : list bool),
       let out1 :=
         serve (doctor_bp.update_appointment cu1 id form1 now1) fs1 db in
       let out2 :=
         serve (doctor_bp.update_appointment cu2 id form2 now2) fs2
           (snd out1) in
       fst out1 = Flashed TreatmentUpdated ->
       fst out2 = Flashed TreatmentUpdated ->
       exists t,
         filter (fun x => Z.eqb (tr_appointment_id x) id)
           (treatments (snd out2)) = [t]
         /\ diagnosis t = doctor_bp.f_diagnosis form2
         /\ prescription t = doctor_bp.f_prescription form2
         /\ notes t = doctor_bp.f_notes form2
         /\ follow_up_date t = doctor_bp.f_follow_up_date form2).
  { intros cu1 cu2 fs1 fs2 out1 out2 H1 H2.
    assert (E1 : exists v, snd out1 = applied id v form1 now1 db).
    { subst out2 out1.
      destruct (serve_run (doctor_bp.update_appointment cu1 id form1 now1)
                  fs1 db) as (r & c' & Hrun & Hs).
      rewrite Hs in H1 |- *.
      apply doctor_update_run in Hrun; [|reflexivity]. simpl in Hrun.
      cbn [fst snd] in H1 |- *.
      destruct Hrun as [(_ & u & v & _ & _ & _ & Hc) | (Hr & _)].
      - exists v. exact Hc.
      - exfalso. destruct r as [e|f]; [discriminate|]. congruence. }
    destruct E1 as (v1 & E1).
    assert (E2 : exists v, snd out2 = applied id v form2 now2 (snd out1)).
    { subst out2.
      destruct (serve_run (doctor_bp.update_appointment cu2 id form2 now2)
                  fs2 (snd out1)) as (r & c' & Hrun & Hs).
      rewrite Hs in H2 |- *.
      apply doctor_update_run in Hrun; [|reflexivity]. simpl in Hrun.
      cbn [fst snd] in H2 |- *.
      destruct Hrun as [(_ & u & v & _ & _ & _ & Hc) | (Hr & _)].
      - exists v. exact Hc.
      - exfalso. destruct r as [e|f]; [discriminate|]. congruence. }
    destruct E2 as (v2 & E2).
    rewrite E2, E1. cbn [applied treatments].
    set (l1 := upsert_treatment id form1 now1 (treatments db)).
    assert (Hnd1 : NoDup (map tr_appointment_id l1))
      by (apply upsert_unique; exact Hnd).
    assert (Hnd2 : NoDup (map tr_appointment_id
                            (upsert_treatment id form2 now2 l1)))
      by (apply upsert_unique; exact Hnd1).
    destruct (upsert_has id form2 now2 l1) as (t & Hin & Hid & Hf).
    exists t. split; [|exact Hf].
    replace (fun x => Z.eqb (tr_appointment_id x) id)
      with (fun x => Z.eqb (tr_appointment_id x) (tr_appointment_id t))
      by (rewrite Hid; reflexivity).
    apply filter_unique_key; assumption. }
  split; [exact Hgen|].
  intros u1 u2 v1 v2 Hr1 Hr2 Hv1 Hv2 Hid out1 out2.
  assert (H1 : fst out1 = Flashed TreatmentUpdated).
  { subst out2 out1.
    rewrite (doctor_update_ok u1 id form1 v1 now1 db Hr1 Hid (or_introl Hv1)).
    reflexivity. }
  assert (H2 : fst out2 = Flashed TreatmentUpdated).
  { subst out2.
    rewrite (doctor_update_ok u2 id form2 v2 now2 _ Hr2 Hid (or_introl Hv2)).
    reflexivity. }
  split; [exact H1|]. split; [exact H2|].
  exact (Hgen (Some u1) (Some u2) [] [] H1 H2).
Qed.

(** 'flu' first, 'cold' second: one record, reading 'cold'. *)
Lemma treatment_upsert_latest_wins_witness :
  exists t,
    filter (fun x => Z.eqb (tr_appointment_id x) 1)
      (treatments
         (snd (serve (doctor_bp.update_appointment (Some dr_smith) 1 cold "t2")
                 []
                 (snd (serve (doctor_bp.update_appointment (Some dr_smith) 1
                                flu "t1") [] clinic_after_visit))))) = [t]
    /\ diagnosis t = Some "cold"
    /\ prescription t = Some "tea"
    /\ notes t = Some "no fever"
    /\ follow_up_date t = Some "2025-06-09".
Proof.
  apply (fun H => proj2 (proj2 (proj2 (treatment_upsert_latest_wins 1 flu cold
           "t1" "t2" clinic_after_visit H) dr_smith dr_smith
           (Some Completed) (Some Completed) eq_refl eq_refl eq_refl eq_refl
           eq_refl))).
  unfold treatments_unique. simpl. constructor.
Defined.

(** ** C8: declaring a window upserts by (clinician, date, start time) *)

Lemma Forall2_map_in {A : Type} (R : A -> A -> Prop) (f : A -> A)
    (l : list A) :
  (forall x, In x l -> R x (f x)) -> Forall2 R l (map f l).
Proof.
  induction l as [|x l IH]; simpl; intros H; constructor.
  - apply H. left. reflexivity.
  - apply IH. intros y Hy. apply H. right. exact Hy.
Qed.

Lemma declared_existing (numeric : string -> option Number) (d : Z)
    (date start stop : string) (open : bool) (l : list Availability) :
  NoDup (map window_key l) -> NoDup (map availability_id l) ->
  (exists w, In w l /\ window_key w
     = (d, numeric_affinity numeric date, numeric_affinity numeric start)) ->
  declared numeric d date start stop open l =
  map (fun x => if doctor_bp.same_key numeric d date start x
                then redeclared numeric stop open x else x) l.
Proof.
  intros Hk Hid (w & Hw & Hkey). unfold declared.
  destruct (find (doctor_bp.same_key numeric d date start) l) as [w0|] eqn:E.
  - apply find_some in E. destruct E as [Hw0 Hs0].
    apply map_ext_in. intros x Hx.
    destruct (doctor_bp.same_key numeric d date start x) eqn:Hsx.
    + apply same_key_spec in Hsx. apply same_key_spec in Hs0.
      rewrite (NoDup_map_eq window_key l x w0 Hk Hx Hw0) by congruence.
      rewrite Z.eqb_refl. reflexivity.
    + destruct (Z.eqb (availability_id x) (availability_id w0)) eqn:Ei;
        [|reflexivity].
      apply Z.eqb_eq in Ei.
      rewrite (NoDup_map_eq availability_id l x w0 Hid Hx Hw0 Ei) in Hsx.
      congruence.
  - exfalso. apply (find_none _ _ E) in Hw.
    apply same_key_spec in Hkey. congruence.
Qed.

Lemma declared_new (numeric : string -> option Number) (d : Z)
    (date start stop : string) (open : bool) (l : list Availability) :
  (forall w, In w l -> window_key w
     <> (d, numeric_affinity numeric date, numeric_affinity numeric start)) ->
  declared numeric d date start stop open l =
  l ++ [mkAvailability (autoincrement (map availability_id l))
          d (numeric_affinity numeric date) (numeric_affinity numeric start)
          (numeric_affinity numeric stop) open].
Proof.
  intros Hnone. unfold declared.
  destruct (find (doctor_bp.same_key numeric d date start) l) as [w0|] eqn:E;
    [|reflexivity].
  apply find_some in E. destruct E as [Hw0 Hs0].
  apply same_key_spec in Hs0. exfalso. exact (Hnone w0 Hw0 Hs0).
Qed.

(** On a ledger with unique keys and identifiers, a declaration under an
    existing key rewrites the end time and the flag of the row under the
    key, and nothing else. *)
Lemma declared_redeclared (numeric : string -> option Number) (d : Z)
    (date start stop : string) (open : bool) (l : list Availability) :
  NoDup (map window_key l) -> NoDup (map availability_id l) ->
  (exists w, In w l /\ window_key w
     = (d, numeric_affinity numeric date, numeric_affinity numeric start)) ->
  window_redeclared
    (d, numeric_affinity numeric date, numeric_affinity numeric start)
    (numeric_affinity numeric stop) open l
    (declared numeric d date start stop open l).
Proof.
  intros Hk Hid Hex.
  rewrite (declared_existing numeric d date start stop open l Hk Hid Hex).
  unfold window_redeclared. apply Forall2_map_in. intros x _.
  destruct (doctor_bp.same_key numeric d date start x) eqn:Hs.
  - apply same_key_spec in Hs. simpl.
    split; [reflexivity|]. split; [reflexivity|]. split.
    + intros _. split; reflexivity.
    + intros Hne. contradiction.
  - split; [reflexivity|]. split; [reflexivity|]. split.
    + intros Hkey. apply same_key_spec in Hkey. congruence.
    + intros _. split; reflexivity.
Qed.

(** C8.  A declaration of one window by a doctor, on a ledger that
    satisfies its PRIMARY KEY and UNIQUE(doctor_id, date, start_time)
    constraints.  The key is the doctor with the values the submitted date
    and start time denote in their columns.  If a window with the key
    exists, the ledger keeps its rows, their identifiers and their keys; the
    row under the key has the submitted end time and open flag; every other
    row has the end time and flag it had.  Otherwise one row is appended,
    with the key, the submitted end time and the flag.  Either way the keys
    stay unique and no other table changes.  And in every state reachable
    from a fresh database by any requests at all, served one at a time,
    each key has at most one window. *)
Theorem declare_window_upserts_by_key :
  forall (numeric : string -> option Number) (u : User) (dr : DoctorRow)
         (date start stop : string) (flags : list string) (db : DB),
    role u = doctor ->
    select_doctor (user_id u) db = Some dr ->
    windows_unique db ->
    NoDup (map availability_id (doctor_availability db)) ->
    let d := doc_doctor_id dr in
    let open := existsb (String.eqb "0") flags in
    let key :=
      (d, numeric_affinity numeric date, numeric_affinity numeric start) in
    let out :=
      serve (doctor_bp.availability numeric (Some u)
               (doctor_bp.mkAvailabilityForm [date] [start] [stop] flags))
        [] db in
    fst out = Flashed AvailabilityUpdated
    /\ ((exists w, In w (doctor_availability db) /\ window_key w = key) ->
        window_redeclared key (numeric_affinity numeric stop) open
          (doctor_availability db) (doctor_availability (snd out)))
    /\ ((forall w, In w (doctor_availability db) -> window_key w <> key) ->
        doctor_availability (snd out) =
        doctor_availability db ++
        [mkAvailability
           (autoincrement (map availability_id (doctor_availability db)))
           d (numeric_affinity numeric date) (numeric_affinity numeric start)
           (numeric_affinity numeric stop) open])
    /\ windows_unique (snd out)
    /\ same_but_windows db (snd out)
    /\ (forall (numeric' : string -> option Number) (db' : DB),
          reachable numeric' (fun _ _ => True) db' -> windows_unique db').
Proof.
  intros numeric u dr date start stop flags db Hrole Hdr Hk Hid d open key out.
  subst out.
  rewrite (availability_one_ok numeric u dr date start stop flags db Hrole Hdr).
  cbn [fst snd]. fold d. fold open.
  split; [reflexivity|]. split; [|split; [|split; [|split]]].
  - intros Hex. simpl. apply declared_redeclared; assumption.
  - intros Hnone. simpl. apply declared_new; assumption.
  - unfold windows_unique. simpl. apply declared_unique. exact Hk.
  - repeat split.
  - intros numeric' db' Hreach.
    exact (reachable_windows_unique numeric' _ db' Hreach).
Qed.

(** Doctor 1 moves the end of the 09:00 window from 12:00 to 13:00 and
    closes it. *)
Lemma declare_window_upserts_by_key_witness :
  doctor_availability clinic
  = [mkAvailability 1 1 (VText "2025-06-02") (VText "09:00") (VText "12:00")
       true]
  /\ window_redeclared (1, VText "2025-06-02", VText "09:00") (VText "13:00")
       false (doctor_availability clinic)
       (doctor_availability
          (snd (serve (doctor_bp.availability plain_numeric (Some dr_smith)
                         (doctor_bp.mkAvailabilityForm ["2025-06-02"]
                            ["09:00"] ["13:00"] [])) [] clinic))).
Proof.
  split; [reflexivity|].
  assert (Hk : windows_unique clinic).
  { unfold windows_unique. simpl. repeat constructor. simpl. tauto. }
  assert (Hid : NoDup (map availability_id (doctor_availability clinic))).
  { simpl. repeat constructor. simpl. tauto. }
  apply (proj1 (proj2 (declare_window_upserts_by_key plain_numeric dr_smith
                  (mkDoctor 1 10 active) "2025-06-02" "09:00" "13:00" []
                  clinic eq_refl eq_refl Hk Hid))).
  exists (mkAvailability 1 1 (VText "2025-06-02") (VText "09:00")
            (VText "12:00") true).
  split; [left; reflexivity | reflexivity].
Defined.

(** ** C9: cancellation does not inspect the current status *)


(** The date column gave a number: the date test of the cancellation cannot
    compare it with today's text, and the request ends in the error flash
    with nothing stored. *)
Lemma cancel_number (u : User) (p : PatientRow) (a : Appointment) (id : Z)
    (x : Number) (today now : string) (db : DB) :
  role u = patient ->
  select_patient (user_id u) db = Some p ->
  int64 id = true ->
  patient_bp.select_appointment id (pat_patient_id p) db = Some a ->
  appointment_date a = VNumber x ->
  serve (patient_bp.cancel_appointment (Some u) id today now) [] db
  = (Flashed (ErrorFlash TypeError), db).
Proof.
  intros Hrole Hp Hid Ha Hx. unfold patient_bp.cancel_appointment.
  run_tx. rewrite Hrole. cbn [role_eqb]. rewrite Hp, Hid, Ha, Hx.
  reflexivity.
Qed.



(** ** C10: the clinician's update performs no ownership check *)

(** C10.  For every authenticated doctor [u] and every appointment [a] in
    the table, whoever its doctor is, with a status the CHECK constraint
    accepts: the update answers with the success message; in the stored
    table the row of [a] has the submitted status and the new update time,
    its doctor and every other column as they were, and every other row is
    as it was; there is a treatment record for [a], and every record for
    [a] holds the submitted diagnosis, prescription, notes and follow-up
    date.  No hypothesis relates [u] to [app_doctor_id a].  And the whole
    outcome is the same for every other authenticated doctor, under every
    oracle. *)
Theorem doctor_update_ignores_ownership :
  forall (u : User) (a : Appointment) (form : doctor_bp.TreatmentForm)
         (v : option Status) (now : string) (db : DB),
    role u = doctor ->
    In a (appointments db) ->
    check_status (doctor_bp.f_status form) = Some v ->
    int64 (appointment_id a) = true ->
    let out :=
      serve (doctor_bp.update_appointment (Some u) (appointment_id a) form
               now) [] db in
    fst out = Flashed TreatmentUpdated
    /\ status_written (appointment_id a) v now (appointments db)
         (appointments (snd out))
    /\ (exists a', In a' (appointments (snd out))
                   /\ particulars a' = particulars a
                   /\ status a' = v
                   /\ app_updated_at a' = now)
    /\ treatment_recorded (appointment_id a) form now (treatments db)
         (treatments (snd out))
    /\ (forall (u' : User) (fs : list bool),
          role u' = doctor ->
          serve (doctor_bp.update_appointment (Some u') (appointment_id a)
                   form now) fs db
          = serve (doctor_bp.update_appointment (Some u) (appointment_id a)
                     form now) fs db).
Proof.
  intros u a form v now db Hrole Hin Hv Hid out. subst out.
  rewrite (doctor_update_ok u (appointment_id a) form v now db Hrole Hid
             (or_introl Hv)).
  cbn [fst snd applied appointments treatments].
  pose proof (set_status_written (appointment_id a) v now (appointments db))
    as Hw.
  split; [reflexivity|]. split; [exact Hw|]. split; [|split].
  - exact (status_written_row _ _ _ _ _ a Hw Hin eq_refl).
  - apply upsert_recorded.
  - intros u' fs Hrole'. unfold doctor_bp.update_appointment, doctor_required,
      role_required, login_required. rewrite Hrole, Hrole'. reflexivity.
Qed.

(** Doctor 2 completes an appointment of doctor 1. *)
Lemma doctor_update_ignores_ownership_witness :
  select_doctor (user_id dr_jones) clinic_after_visit
  = Some (mkDoctor 2 11 active)
  /\ app_doctor_id visit = 1
  /\ fst (serve (doctor_bp.update_appointment (Some dr_jones) 1 flu "now") []
            clinic_after_visit)
     = Flashed TreatmentUpdated
  /\ exists a',
       In a' (appointments
                (snd (serve (doctor_bp.update_appointment (Some dr_jones) 1
                               flu "now") [] clinic_after_visit)))
       /\ particulars a' = particulars visit
       /\ status a' = Some Completed
       /\ app_updated_at a' = "now".
Proof.
  split; [reflexivity|]. split; [reflexivity|].
  destruct (doctor_update_ignores_ownership dr_jones visit flu
              (Some Completed) "now" clinic_after_visit
              eq_refl (or_introl eq_refl) eq_refl eq_refl)
    as (H1 & _ & H3 & _).
  split; [exact H1 | exact H3].
Defined.

(** * Further properties of the handlers *)

(** ** Authorisation *)

(** X1.  Every route sits under @login_required and a role decorator.  A
    request from an anonymous caller is answered with flask-login's 'Please
    log in to access this page.'; a request from a user whose role is not
    the one its route demands is answered 'Access denied.'.  Both answers
    come before any storage call: the database is unchanged, whatever the
    oracle. *)
Theorem wrong_role_denied :
  forall (numeric : string -> option Number) (r : Request) (fs : list bool)
         (db : DB),
    (request_user r = None ->
     serve (handler numeric r) fs db = (Flashed LoginRequired, db))
    /\ (forall u, request_user r = Some u -> role u <> required_role r ->
          serve (handler numeric r) fs db = (Flashed AccessDenied, db)).
Proof.
  intros numeric r fs db.
  destruct r as [sql_time cu form today now | cu id today now
                | cu id form now | cu id st now | cu form]; simpl;
    unfold patient_bp.book_appointment, patient_bp.cancel_appointment,
      doctor_bp.update_appointment, admin_bp.update_appointment,
      doctor_bp.availability, patient_required, doctor_required,
      admin_required, role_required, login_required;
    (split; [intros ->; reflexivity|]);
    intros u -> Hno; destruct (role u); simpl in *;
    try reflexivity; congruence.
Qed.

(** A doctor, and then nobody, posts to the booking route. *)
Lemma wrong_role_denied_witness :
  serve (handler plain_numeric
           (BookAppointment clock_time (Some dr_smith) slot_0930 "2025-06-01"
              "now"))
    [] clinic
  = (Flashed AccessDenied, clinic)
  /\ serve (handler plain_numeric
              (BookAppointment clock_time None slot_0930 "2025-06-01" "now"))
       [] clinic
     = (Flashed LoginRequired, clinic).
Proof.
  split.
  - apply (proj2 (wrong_role_denied plain_numeric
                    (BookAppointment clock_time (Some dr_smith) slot_0930
                       "2025-06-01" "now") [] clinic) dr_smith eq_refl).
    simpl. discriminate.
  - apply (proj1 (wrong_role_denied plain_numeric
                    (BookAppointment clock_time None slot_0930 "2025-06-01"
                       "now") [] clinic)).
    reflexivity.
Defined.

(** ** Booking *)

(** X2.  Under every oracle a booking request does one of two things: it
    answers 'Appointment booked!' and appends exactly one row, with a new
    identifier, the requester's patient id, the submitted doctor, the values
    the submitted date and time take in their columns, the reason, status
    Booked and both timestamps set to now, leaving every other row and
    table as it was; or it gives another answer and leaves the database
    unchanged. *)
Theorem booking_appends_one_row_or_nothing :
  forall (numeric : string -> option Number)
         (sql_time : Value -> option string) (cu : option User)
         (form : patient_bp.BookingForm) (today now : string)
         (fs : list bool) (db : DB),
    let out :=
      serve (patient_bp.book_appointment numeric sql_time cu form today now)
        fs db in
    (fst out = Flashed AppointmentBooked
     /\ exists u p d date time,
          cu = Some u
          /\ select_patient (user_id u) db = Some p
          /\ patient_bp.required_fields form = Some (d, date, time)
          /\ (forall a, In a (appointments db) ->
                appointment_id a
                <> autoincrement (map appointment_id (appointments db)))
          /\ snd out =
             set_appointments db
               (appointments db ++
                [mkAppointment
                   (autoincrement (map appointment_id (appointments db)))
                   (pat_patient_id p) d (numeric_affinity numeric date)
                   (numeric_affinity numeric time) (Some Booked)
                   (patient_bp.f_reason form) now now]))
    \/ (fst out <> Flashed AppointmentBooked /\ snd out = db).
Proof.
  intros numeric sql_time cu form today now fs db out. subst out.
  destruct (serve_run (patient_bp.book_appointment numeric sql_time cu form
                         today now) fs db) as (r & c' & Hrun & ->).
  apply book_run in Hrun; [|reflexivity]. simpl in Hrun. simpl.
  destruct Hrun as [(-> & u & p & d & date & time & w & H) | (Hr & ->)].
  - left. split; [reflexivity|].
    destruct H as (Hcu & _ & Hp & Hreq & _ & _ & _ & Hc).
    exists u, p, d, date, time. repeat split; auto.
    intros a Ha. apply autoincrement_fresh. apply in_map. exact Ha.
  - right. split; [|reflexivity].
    destruct r as [e|f]; [discriminate|]. congruence.
Qed.

(** ** Cancellation *)

(** X3.  A patient cannot cancel an appointment that is not theirs.  When
    no appointment with the given identifier belongs to the requesting
    patient (it is another patient's, or does not exist): an identifier
    that fits 64 bits is answered 'Appointment not found.'; a larger one
    cannot be bound to the SELECT and is answered with the error flash of
    the OverflowError; and under every oracle nothing is cancelled and
    nothing is stored. *)
Theorem cancel_checks_ownership :
  forall (u : User) (p : PatientRow) (id : Z) (today now : string) (db : DB),
    role u = patient ->
    select_patient (user_id u) db = Some p ->
    (forall a, In a (appointments db) -> appointment_id a = id ->
               app_patient_id a <> pat_patient_id p) ->
    (int64 id = true ->
     serve (patient_bp.cancel_appointment (Some u) id today now) [] db
     = (Flashed AppointmentNotFound, db))
    /\ (int64 id = false ->
        serve (patient_bp.cancel_appointment (Some u) id today now) [] db
        = (Flashed (ErrorFlash OverflowError), db))
    /\ forall fs,
         let out :=
           serve (patient_bp.cancel_appointment (Some u) id today now) fs db in
         fst out <> Flashed AppointmentCancelled /\ snd out = db.
Proof.
  intros u p id today now db Hrole Hp Hnot.
  assert (Hsel : patient_bp.select_appointment id (pat_patient_id p) db = None).
  { unfold patient_bp.select_appointment.
    destruct (find _ (appointments db)) as [a|] eqn:E; [|reflexivity].
    apply find_some in E. destruct E as [Hin Hk].
    apply andb_prop in Hk. destruct Hk as [Hi Hpid].
    apply Z.eqb_eq in Hi. apply Z.eqb_eq in Hpid.
    exfalso. exact (Hnot a Hin Hi Hpid). }
  split; [|split].
  - intros Hid. unfold patient_bp.cancel_appointment.
    run_tx. rewrite Hrole. cbn [role_eqb]. rewrite Hp, Hid, Hsel. reflexivity.
  - intros Hid. unfold patient_bp.cancel_appointment.
    run_tx. rewrite Hrole. cbn [role_eqb]. rewrite Hp, Hid. reflexivity.
  - intros fs out. subst out.
    destruct (serve_run (patient_bp.cancel_appointment (Some u) id today now)
                fs db) as (r & c' & Hrun & ->).
    apply cancel_run in Hrun; [|reflexivity]. simpl in Hrun. simpl.
    destruct Hrun as [(_ & u' & p' & a & H) | (Hr & ->)].
    + exfalso. destruct H as (Hu & _ & Hp' & Ha & _).
      inversion Hu; subst u'. rewrite Hp in Hp'. inversion Hp'; subst p'.
      congruence.
    + split; [|reflexivity].
      destruct r as [e|f]; [discriminate|]. congruence.
Qed.

(** bob tries to cancel alice's appointment. *)
Lemma cancel_checks_ownership_witness :
  serve (patient_bp.cancel_appointment (Some bob) 1 "2025-06-01" "now") []
    clinic_booked
  = (Flashed AppointmentNotFound, clinic_booked).
Proof.
  assert (Hnot : forall a, In a (appointments clinic_booked) ->
            appointment_id a = 1 -> app_patient_id a <> 2).
  { intros a [<-|[]] _. simpl. discriminate. }
  exact (proj1 (cancel_checks_ownership bob (mkPatient 2 21 active) 1
                  "2025-06-01" "now" clinic_booked eq_refl eq_refl Hnot)
           eq_refl).
Defined.

(** X4.  The date test of cancellation compares the stored date with
    today's text and is strict.  For the patient's own appointment, with an
    identifier that fits 64 bits: a stored text before today is refused
    with 'Cannot cancel past appointments.' and nothing is stored; a stored
    text equal to today is still cancelled, the row receiving status
    Cancelled; a date SQLite stored as a number cannot be compared with a
    text, and the request ends in the error flash of the TypeError with
    nothing stored. *)
Theorem cancel_date_boundary :
  forall (u : User) (p : PatientRow) (a : Appointment) (id : Z)
         (today now : string) (db : DB),
    role u = patient ->
    select_patient (user_id u) db = Some p ->
    int64 id = true ->
    patient_bp.select_appointment id (pat_patient_id p) db = Some a ->
    let out :=
      serve (patient_bp.cancel_appointment (Some u) id today now) [] db in
    (forall day : string,
       appointment_date a = VText day -> String.ltb day today = true ->
       out = (Flashed CannotCancelPast, db))
    /\ (appointment_date a = VText today ->
        fst out = Flashed AppointmentCancelled
        /\ status_written id (Some Cancelled) now (appointments db)
             (appointments (snd out)))
    /\ (forall x : Number,
          appointment_date a = VNumber x ->
          out = (Flashed (ErrorFlash TypeError), db)).
Proof.
  intros u p a id today now db Hrole Hp Hid Ha out. subst out.
  split; [|split].
  - intros day Hday Hpast. unfold patient_bp.cancel_appointment.
    run_tx. rewrite Hrole. cbn [role_eqb].
    rewrite Hp, Hid, Ha, Hday, Hpast. reflexivity.
  - intros Hsame.
    rewrite (cancel_ok u p a id today today now db Hrole Hp Hid Ha Hsame
               (string_ltb_irrefl today)).
    cbn [fst snd appointments set_appointments].
    split; [reflexivity|]. apply set_status_written.
  - intros x Hx.
    exact (cancel_number u p a id x today now db Hrole Hp Hid Ha Hx).
Qed.

(** alice's appointment of 2 June, on 3 June and on 2 June. *)
Lemma cancel_date_boundary_witness :
  serve (patient_bp.cancel_appointment (Some alice) 1 "2025-06-03" "now") []
    clinic_booked
  = (Flashed CannotCancelPast, clinic_booked)
  /\ fst (serve (patient_bp.cancel_appointment (Some alice) 1 "2025-06-02"
                   "now") [] clinic_booked)
     = Flashed AppointmentCancelled.
Proof.
  split.
  - apply (proj1 (cancel_date_boundary alice (mkPatient 1 20 active) booking 1
                    "2025-06-03" "now" clinic_booked eq_refl eq_refl eq_refl
                    eq_refl) "2025-06-02"); reflexivity.
  - apply (proj1 (proj2 (cancel_date_boundary alice (mkPatient 1 20 active)
                    booking 1 "2025-06-02" "now" clinic_booked eq_refl eq_refl
                    eq_refl eq_refl))).
    reflexivity.
Defined.

(** ** What no request undoes *)

Lemma particulars_set_status (id : Z) (v : option Status) (now : string)
    (l : list Appointment) :
  map particulars (set_status id v now l) = map particulars l.
Proof.
  unfold set_status. rewrite map_map. apply map_ext. intros a.
  destruct (Z.eqb (appointment_id a) id); reflexivity.
Qed.

Lemma ids_set_status (id : Z) (v : option Status) (now : string)
    (l : list Appointment) :
  map appointment_id (set_status id v now l) = map appointment_id l.
Proof.
  unfold set_status. rewrite map_map. apply map_ext. intros a.
  destruct (Z.eqb (appointment_id a) id); reflexivity.
Qed.

Lemma prefix_refl {A : Type} (l : list A) : prefix l l.
Proof. exists []. symmetry. apply app_nil_r. Qed.

(** The appointments table after a step: as it was, with one status
    written, or with one row appended. *)
Lemma step_appointments (numeric : string -> option Number) (r : Request)
    (fs : list bool) (db : DB) :
  appointments (step numeric r fs db) = appointments db
  \/ (exists id v now,
        appointments (step numeric r fs db)
        = set_status id v now (appointments db))
  \/ (exists a,
        appointment_id a = autoincrement (map appointment_id (appointments db))
        /\ appointments (step numeric r fs db) = appointments db ++ [a]).
Proof.
  destruct (step_run numeric r fs db) as (x & c' & Hrun & ->).
  destruct r as [sql_time cu form today now | cu id today now | cu id form now
                | cu id st now | cu form]; simpl in Hrun.
  - apply book_run in Hrun; [|reflexivity]. simpl in Hrun.
    destruct Hrun as [(_ & u & p & d & date & time & w & H) | (_ & ->)];
      [|auto].
    destruct H as (_ & _ & _ & _ & _ & _ & _ & ->).
    right. right. eexists. split; [|reflexivity]. reflexivity.
  - apply cancel_run in Hrun; [|reflexivity]. simpl in Hrun.
    destruct Hrun as [(_ & u & p & a & H) | (_ & ->)]; [|auto].
    destruct H as (_ & _ & _ & _ & _ & _ & ->).
    right. left. exists id, (Some Cancelled), now. reflexivity.
  - apply doctor_update_run in Hrun; [|reflexivity]. simpl in Hrun.
    destruct Hrun as [(_ & u & v & _ & _ & _ & ->) | (_ & ->)]; [|auto].
    right. left. exists id, v, now. reflexivity.
  - apply admin_update_run in Hrun; [|reflexivity]. simpl in Hrun.
    destruct Hrun as [(_ & u & v & _ & _ & _ & ->) | (_ & ->)]; [|auto].
    right. left. exists id, v, now. reflexivity.
  - apply availability_run in Hrun; [|reflexivity]. simpl in Hrun.
    destruct Hrun as [(_ & _ & Happ & _) _]. left. exact Happ.
Qed.

(** X5.  No request deletes an appointment or changes whose it is, with
    whom, when, why or when it was created: under every request and every
    oracle, the appointments of the old table, read without status and
    update time, are an initial segment of those of the new table. *)
Theorem appointments_are_never_deleted :
  forall (numeric : string -> option Number) (r : Request) (fs : list bool)
         (db : DB),
    prefix (map particulars (appointments db))
           (map particulars (appointments (step numeric r fs db))).
Proof.
  intros numeric r fs db.
  destruct (step_appointments numeric r fs db)
    as [-> | [(id & v & now & ->) | (a & _ & ->)]].
  - apply prefix_refl.
  - rewrite particulars_set_status. apply prefix_refl.
  - rewrite map_app. exists (map particulars [a]). reflexivity.
Qed.

(** The treatments table after a step: as it was, or with one upsert. *)
Lemma step_treatments (numeric : string -> option Number) (r : Request)
    (fs : list bool) (db : DB) :
  treatments (step numeric r fs db) = treatments db
  \/ (exists id form now,
        treatments (step numeric r fs db)
        = upsert_treatment id form now (treatments db)).
Proof.
  destruct (step_run numeric r fs db) as (x & c' & Hrun & ->).
  destruct r as [sql_time cu form today now | cu id today now | cu id form now
                | cu id st now | cu form]; simpl in Hrun.
  - apply book_run in Hrun; [|reflexivity]. simpl in Hrun.
    destruct Hrun as [(_ & u & p & d & date & time & w & H) | (_ & ->)];
      [|auto].
    destruct H as (_ & _ & _ & _ & _ & _ & _ & ->). auto.
  - apply cancel_run in Hrun; [|reflexivity]. simpl in Hrun.
    destruct Hrun as [(_ & u & p & a & H) | (_ & ->)]; [|auto].
    destruct H as (_ & _ & _ & _ & _ & _ & ->). auto.
  - apply doctor_update_run in Hrun; [|reflexivity]. simpl in Hrun.
    destruct Hrun as [(_ & u & v & _ & _ & _ & ->) | (_ & ->)]; [|auto].
    right. exists id, form, now. reflexivity.
  - apply admin_update_run in Hrun; [|reflexivity]. simpl in Hrun.
    destruct Hrun as [(_ & u & v & _ & _ & _ & ->) | (_ & ->)]; auto.
  - apply availability_run in Hrun; [|reflexivity]. simpl in Hrun.
    destruct Hrun as [(_ & _ & _ & Htr) _]. left. exact Htr.
Qed.

Lemma step_keeps_keys (numeric : string -> option Number) (r : Request)
    (fs : list bool) (db : DB) :
  appointment_ids_unique db /\ treatments_unique db ->
  appointment_ids_unique (step numeric r fs db)
  /\ treatments_unique (step numeric r fs db).
Proof.
  unfold appointment_ids_unique, treatments_unique. intros [Ha Ht]. split.
  - destruct (step_appointments numeric r fs db)
      as [-> | [(id & v & now & ->) | (a & Hid & ->)]].
    + exact Ha.
    + rewrite ids_set_status. exact Ha.
    + rewrite map_app. simpl.
      apply NoDup_app; [exact Ha | repeat constructor; auto |].
      intros k Hk [<-|[]]. rewrite Hid in Hk.
      exact (autoincrement_fresh _ _ Hk eq_refl).
  - destruct (step_treatments numeric r fs db)
      as [-> | (id & form & now & ->)].
    + exact Ht.
    + apply upsert_unique. exact Ht.
Qed.

(** X6.  The key constraints of the schema hold in every state reachable
    from a fresh database, whatever requests and storage failures occur:
    appointment identifiers are pairwise distinct, and no appointment has
    two treatment records. *)
Theorem reachable_keys_unique :
  forall (numeric : string -> option Number)
         (allowed : DB -> Request -> Prop) (db : DB),
    reachable numeric allowed db ->
    appointment_ids_unique db /\ treatments_unique db.
Proof.
  intros numeric allowed db Hreach.
  induction Hreach as [db (Happ & Htr & _) | db r fs _ IH _].
  - unfold appointment_ids_unique, treatments_unique.
    rewrite Happ, Htr. simpl. split; constructor.
  - apply step_keeps_keys. exact IH.
Qed.

(** The state in which the cancelled slot was booked again. *)
Lemma reachable_keys_unique_witness :
  reachable plain_numeric (fun _ _ => True) rebooked
  /\ appointment_ids_unique rebooked /\ treatments_unique rebooked.
Proof.
  assert (Hreach : reachable plain_numeric (fun _ _ => True) rebooked).
  { unfold rebooked. repeat (apply reach_step; [|exact I]).
    apply reach_fresh. exact clinic_fresh. }
  split; [exact Hreach|].
  exact (reachable_keys_unique plain_numeric _ rebooked Hreach).
Defined.

(** ** Status writes *)

Lemma admin_update_ok (u : User) (id : Z) (st : option string)
    (v : option Status) (now : string) (db : DB) :
  role u = admin ->
  int64 id = true ->
  check_status st = Some v
  \/ existsb (fun a => Z.eqb (appointment_id a) id) (appointments db) = false ->
  serve (admin_bp.update_appointment (Some u) id st now) [] db =
  (Flashed StatusUpdated,
   set_appointments db (set_status id v now (appointments db))).
Proof.
  intros Hrole Hid Hv.
  assert (Hst : update_appointment_status id st now db
                = inr (set_appointments db
                         (set_status id v now (appointments db)))).
  { unfold update_appointment_status.
    destruct (existsb _ (appointments db)) eqn:E.
    - destruct Hv as [->|Hv]; [reflexivity|discriminate].
    - rewrite existsb_false_set_status by exact E.
      rewrite set_appointments_same. reflexivity. }
  unfold admin_bp.update_appointment.
  run_tx. rewrite Hrole. cbn [role_eqb]. rewrite Hid, Hst. reflexivity.
Qed.

Lemma absent_id (id : Z) (l : list Appointment) :
  (forall a, In a l -> appointment_id a <> id) ->
  existsb (fun a => Z.eqb (appointment_id a) id) l = false.
Proof.
  intros H. destruct (existsb _ l) eqn:E; [|reflexivity].
  apply existsb_exists in E. destruct E as (a & Ha & Hid).
  apply Z.eqb_eq in Hid. exfalso. exact (H a Ha Hid).
Qed.

Lemma present_id (id : Z) (l : list Appointment) :
  existsb (fun a => Z.eqb (appointment_id a) id) l = false ->
  forall a, In a l -> appointment_id a <> id.
Proof.
  intros E a Hin Hid.
  assert (Ht : existsb (fun a => Z.eqb (appointment_id a) id) l = true)
    by (apply existsb_exists; exists a; split; [exact Hin|];
        apply Z.eqb_eq; exact Hid).
  congruence.
Qed.

(** X7.  The administrator's status override.  With an identifier that
    fits 64 bits and no storage failure: a status text outside the four
    listed ones, aimed at an existing appointment, is refused by the CHECK
    constraint and nothing is stored; a listed status is answered
    'Appointment status updated!', the row with that identifier has the
    submitted status and the new update time, and every other row, column
    and table is as it was; an identifier that matches no appointment is
    answered 'Appointment status updated!' although nothing changes.  An
    identifier that does not fit 64 bits cannot be bound: the answer is the
    error flash of the OverflowError and nothing is stored.  Under every
    oracle the request either gives the success message with that one
    status written, or gives another answer and leaves the database as it
    was. *)
Theorem admin_override_outcomes :
  forall (u : User) (id : Z) (st : option string) (now : string) (db : DB),
    role u = admin ->
    (int64 id = true ->
     ((exists a, In a (appointments db) /\ appointment_id a = id) ->
      check_status st = None ->
      serve (admin_bp.update_appointment (Some u) id st now) [] db
      = (Flashed (ErrorFlash IntegrityError), db))
     /\ (forall v, check_status st = Some v ->
           let out :=
             serve (admin_bp.update_appointment (Some u) id st now) [] db in
           fst out = Flashed StatusUpdated
           /\ status_written id v now (appointments db)
                (appointments (snd out))
           /\ patients (snd out) = patients db
           /\ doctors (snd out) = doctors db
           /\ doctor_availability (snd out) = doctor_availability db
           /\ treatments (snd out) = treatments db)
     /\ ((forall a, In a (appointments db) -> appointment_id a <> id) ->
         serve (admin_bp.update_appointment (Some u) id st now) [] db
         = (Flashed StatusUpdated, db)))
    /\ (int64 id = false ->
        serve (admin_bp.update_appointment (Some u) id st now) [] db
        = (Flashed (ErrorFlash OverflowError), db))
    /\ (forall fs,
          let out :=
            serve (admin_bp.update_appointment (Some u) id st now) fs db in
          (fst out <> Flashed StatusUpdated /\ snd out = db)
          \/ (fst out = Flashed StatusUpdated
              /\ (exists v,
                    (check_status st = Some v
                     \/ forall a, In a (appointments db) ->
                                  appointment_id a <> id)
                    /\ status_written id v now (appointments db)
                         (appointments (snd out)))
              /\ patients (snd out) = patients db
              /\ doctors (snd out) = doctors db
              /\ doctor_availability (snd out) = doctor_availability db
              /\ treatments (snd out) = treatments db)).
Proof.
  intros u id st now db Hrole. split; [|split].
  - intros Hid. split; [|split].
    + intros (a & Ha & Hida) Hbad.
      assert (Hex : existsb (fun x => Z.eqb (appointment_id x) id)
                      (appointments db) = true).
      { apply existsb_exists. exists a. split; [exact Ha|].
        apply Z.eqb_eq. exact Hida. }
      unfold admin_bp.update_appointment.
      run_tx. rewrite Hrole. cbn [role_eqb]. rewrite Hid.
      unfold update_appointment_status. rewrite Hex, Hbad. reflexivity.
    + intros v Hv out. subst out.
      rewrite (admin_update_ok u id st v now db Hrole Hid (or_introl Hv)).
      cbn [fst snd appointments set_appointments patients doctors
           doctor_availability treatments].
      split; [reflexivity|]. split; [apply set_status_written|].
      repeat split.
    + intros Hnone.
      rewrite (admin_update_ok u id st None now db Hrole Hid
                 (or_intror (absent_id id _ Hnone))).
      rewrite existsb_false_set_status by (apply absent_id; exact Hnone).
      rewrite set_appointments_same. reflexivity.
  - intros Hid. unfold admin_bp.update_appointment.
    run_tx. rewrite Hrole. cbn [role_eqb]. rewrite Hid. reflexivity.
  - intros fs out. subst out.
    destruct (serve_run (admin_bp.update_appointment (Some u) id st now) fs db)
      as (r & c' & Hrun & ->).
    apply admin_update_run in Hrun; [|reflexivity]. simpl in Hrun. simpl.
    destruct Hrun as [(-> & u' & v & _ & _ & Hv & ->) | (Hr & ->)].
    + right. split; [reflexivity|].
      cbn [appointments set_appointments patients doctors
           doctor_availability treatments].
      split; [|repeat split].
      exists v. split; [|apply set_status_written].
      destruct Hv as [Hv|Hv]; [left; exact Hv|right].
      exact (present_id id _ Hv).
    + left. split; [|reflexivity].
      destruct r as [e|f]; [discriminate|]. congruence.
Qed.

(** The administrator sends 'Done' for alice's appointment. *)
Lemma admin_override_outcomes_witness :
  serve (admin_bp.update_appointment (Some root) 1 (Some "Done") "now") []
    clinic_booked
  = (Flashed (ErrorFlash IntegrityError), clinic_booked).
Proof.
  apply (proj1 (proj1 (admin_override_outcomes root 1 (Some "Done") "now"
                         clinic_booked eq_refl) eq_refl)).
  - exists booking. split; [left; reflexivity | reflexivity].
  - reflexivity.
Defined.

(** X8.  The clinician's update for an identifier that matches no
    appointment.  Foreign keys are not enforced and the CHECK constraint
    has no row to apply to: when the identifier fits 64 bits the request is
    answered with the success message, whatever the status text; the
    appointments table is as it was, and a treatment record for that
    identifier, holding the submitted fields, is stored.  When the
    identifier does not fit 64 bits no statement can bind it: the try block
    fails, the handler rolls back, and the queries that render the page
    after the handler fail again with nothing to catch them, so the request
    ends in an uncaught error and nothing is stored, under every oracle. *)
Theorem doctor_update_unknown_appointment :
  forall (u : User) (id : Z) (form : doctor_bp.TreatmentForm) (now : string)
         (db : DB),
    role u = doctor ->
    (forall a, In a (appointments db) -> appointment_id a <> id) ->
    (int64 id = true ->
     let out :=
       serve (doctor_bp.update_appointment (Some u) id form now) [] db in
     fst out = Flashed TreatmentUpdated
     /\ appointments (snd out) = appointments db
     /\ treatment_recorded id form now (treatments db) (treatments (snd out))
     /\ patients (snd out) = patients db
     /\ doctors (snd out) = doctors db
     /\ doctor_availability (snd out) = doctor_availability db)
    /\ (int64 id = false ->
        serve (doctor_bp.update_appointment (Some u) id form now) [] db
        = (Crashed OverflowError, db)
        /\ forall fs, exists e,
             serve (doctor_bp.update_appointment (Some u) id form now) fs db
             = (Crashed e, db)).
Proof.
  intros u id form now db Hrole Hnone. split.
  - intros Hid out. subst out.
    rewrite (doctor_update_ok u id form None now db Hrole Hid
               (or_intror (absent_id id _ Hnone))).
    cbn [fst snd applied appointments treatments patients doctors
         doctor_availability].
    split; [reflexivity|]. split; [|split; [apply upsert_recorded|]].
    + apply existsb_false_set_status. apply absent_id. exact Hnone.
    + repeat split.
  - intros Hid. split.
    + unfold doctor_bp.update_appointment.
      run_tx. rewrite Hrole. cbn [role_eqb]. rewrite Hid. reflexivity.
    + intros fs. unfold doctor_bp.update_appointment.
      run_tx. rewrite Hrole. cbn [role_eqb]. rewrite Hid.
      repeat match goal with
      | |- context [match ?l with [] => _ | _ :: _ => _ end] =>
          is_var l; destruct l as [|[|] l]; run_tx
      end;
      eexists; reflexivity.
Qed.

(** Appointment 7 does not exist; the status text is not a status. *)
Lemma doctor_update_unknown_appointment_witness :
  fst (serve (doctor_bp.update_appointment (Some dr_smith) 7
                (doctor_bp.mkTreatmentForm (Some "Done") (Some "flu") None
                   None None)
                "now") [] clinic_booked)
  = Flashed TreatmentUpdated
  /\ treatment_recorded 7
       (doctor_bp.mkTreatmentForm (Some "Done") (Some "flu") None None None)
       "now" (treatments clinic_booked)
       (treatments
          (snd (serve (doctor_bp.update_appointment (Some dr_smith) 7
                         (doctor_bp.mkTreatmentForm (Some "Done") (Some "flu")
                            None None None)
                         "now") [] clinic_booked))).
Proof.
  assert (Hnone : forall a, In a (appointments clinic_booked) ->
            appointment_id a <> 7).
  { intros a [<-|[]]. simpl. discriminate. }
  destruct (proj1 (doctor_update_unknown_appointment dr_smith 7
                     (doctor_bp.mkTreatmentForm (Some "Done") (Some "flu")
                        None None None)
                     "now" clinic_booked eq_refl Hnone) eq_refl)
    as (H1 & _ & H3 & _).
  split; [exact H1 | exact H3].
Defined.

(** ** Slots after a booking *)

Section AfterBooking.

Variable numeric : string -> option Number.
Variable sql_time : Value -> option string.
Variables (u : User) (p : PatientRow) (form : patient_bp.BookingForm).
Variables (d : Z) (date time today now : string) (db : DB).

Hypothesis Hrole : role u = patient.
Hypothesis Hprofile : select_patient (user_id u) db = Some p.
Hypothesis Hfields : patient_bp.required_fields form = Some (d, date, time).
Hypothesis Hbooked :
  fst (serve (patient_bp.book_appointment numeric sql_time (Some u) form
                today now) [] db)
  = Flashed AppointmentBooked.

(** What an accepted booking tells about the state it was made in. *)
Lemma accepted_booking :
  String.ltb date today = false
  /\ patient_bp.select_existing numeric d date time db = None
  /\ (exists w,
        patient_bp.select_available numeric sql_time d date time db = Some w)
  /\ snd (serve (patient_bp.book_appointment numeric sql_time (Some u) form
                   today now) [] db)
     = set_appointments db
         (appointments db ++
          [mkAppointment (autoincrement (map appointment_id (appointments db)))
             (pat_patient_id p) d (numeric_affinity numeric date)
             (numeric_affinity numeric time) (Some Booked)
             (patient_bp.f_reason form) now now]).
Proof.
  destruct (String.ltb date today) eqn:Hday.
  { rewrite (book_past numeric sql_time u p form d date time today now db
               Hrole Hprofile Hfields Hday) in Hbooked. discriminate. }
  destruct (patient_bp.select_existing numeric d date time db) as [a|] eqn:Hex.
  { rewrite (book_conflict numeric sql_time u p form d date time today now db
               Hrole Hprofile Hfields a Hday Hex) in Hbooked. discriminate. }
  destruct (patient_bp.select_available numeric sql_time d date time db)
    as [w|] eqn:Hav.
  - rewrite (book_ok numeric sql_time u p form d date time today now db
               Hrole Hprofile Hfields w Hday Hex Hav).
    repeat split. exists w. reflexivity.
  - rewrite (book_unavailable numeric sql_time u p form d date time today now
               db Hrole Hprofile Hfields Hday Hex Hav) in Hbooked.
    discriminate.
Qed.

End AfterBooking.

(** The double-booking query on a table that ends with a row of the slot. *)
Lemma select_existing_snoc (numeric : string -> option Number) (d : Z)
    (date time : string) (db db' : DB) (a : Appointment) :
  patient_bp.select_existing numeric d date time db = None ->
  appointments db' = appointments db ++ [a] ->
  patient_bp.select_existing numeric d date time db' =
  if patient_bp.occupies numeric d date time a then Some a else None.
Proof.
  unfold patient_bp.select_existing. intros Hnone ->.
  induction (appointments db) as [|x l IH]; simpl in *.
  - destruct (patient_bp.occupies numeric d date time a); reflexivity.
  - destruct (patient_bp.occupies numeric d date time x); [discriminate|].
    apply IH. exact Hnone.
Qed.

Lemma set_status_snoc (id : Z) (v : option Status) (now : string)
    (l : list Appointment) (a : Appointment) :
  (forall x, In x l -> appointment_id x <> id) ->
  appointment_id a = id ->
  set_status id v now (l ++ [a]) = l ++ [with_status a v now].
Proof.
  intros Hl Ha. unfold set_status. rewrite map_app. simpl.
  rewrite Ha, Z.eqb_refl. f_equal. apply map_id_when.
  intros x Hx. destruct (Z.eqb (appointment_id x) id) eqn:E; [|reflexivity].
  apply Z.eqb_eq in E. exfalso. exact (Hl x Hx E).
Qed.

(** The answer to a request that passed the past-date and conflict
    checks is the availability test. *)
Lemma book_by_availability (numeric : string -> option Number)
    (sql_time : Value -> option string) (u : User) (p : PatientRow)
    (form : patient_bp.BookingForm) (d : Z) (date time today now : string)
    (db : DB) :
  role u = patient ->
  select_patient (user_id u) db = Some p ->
  patient_bp.required_fields form = Some (d, date, time) ->
  String.ltb date today = false ->
  patient_bp.select_existing numeric d date time db = None ->
  let out :=
    serve (patient_bp.book_appointment numeric sql_time (Some u) form today
             now) [] db in
  fst out <> Flashed SlotAlreadyBooked
  /\ (fst out = Flashed AppointmentBooked
      <-> isOpenAt numeric sql_time db d date time).
Proof.
  intros Hrole Hp Hreq Hday Hex out. subst out.
  destruct (patient_bp.select_available numeric sql_time d date time db)
    as [w|] eqn:Hav.
  - rewrite (book_ok numeric sql_time u p form d date time today now db
               Hrole Hp Hreq w Hday Hex Hav). cbn [fst].
    split; [discriminate|]. split; [intros _|reflexivity].
    apply select_available_some. exists w. exact Hav.
  - rewrite (book_unavailable numeric sql_time u p form d date time today
               now db Hrole Hp Hreq Hday Hex Hav). cbn [fst].
    split; [discriminate|]. split; [discriminate|].
    intros H. apply select_available_some in H. destruct H as (w & H).
    congruence.
Qed.

(** X9.  After a booking was accepted, the status the clinician writes to
    it decides whether the slot can be booked again that day.  With Booked
    or Completed the next request for the same doctor, date and time is
    answered 'Time slot already booked.'.  With Cancelled or Rescheduled it
    is not: it is booked exactly when the availability test passes with
    what time() returns to that request, and so whenever time() returns to
    it what it returned to the first request. *)
Theorem written_status_decides_slot :
  forall (numeric : string -> option Number)
         (sql_time sql_time' : Value -> option string) (u u' : User)
         (p p' : PatientRow) (doc : User)
         (form form' : patient_bp.BookingForm)
         (update : doctor_bp.TreatmentForm) (s : Status)
         (d : Z) (date time today now now' now'' : string) (db : DB),
    role u = patient -> select_patient (user_id u) db = Some p ->
    patient_bp.required_fields form = Some (d, date, time) ->
    role u' = patient -> select_patient (user_id u') db = Some p' ->
    patient_bp.required_fields form' = Some (d, date, time) ->
    role doc = doctor ->
    check_status (doctor_bp.f_status update) = Some (Some s) ->
    int64 (autoincrement (map appointment_id (appointments db))) = true ->
    fst (serve (patient_bp.book_appointment numeric sql_time (Some u) form
                  today now) [] db)
    = Flashed AppointmentBooked ->
    let db1 :=
      snd (serve (patient_bp.book_appointment numeric sql_time (Some u) form
                    today now) [] db) in
    let db2 :=
      snd (serve (doctor_bp.update_appointment (Some doc)
                    (autoincrement (map appointment_id (appointments db)))
                    update now') [] db1) in
    let out :=
      serve (patient_bp.book_appointment numeric sql_time' (Some u') form'
               today now'') [] db2 in
    match s with
    | Booked | Completed => fst out = Flashed SlotAlreadyBooked
    | Cancelled | Rescheduled =>
        fst out <> Flashed SlotAlreadyBooked
        /\ (fst out = Flashed AppointmentBooked
            <-> isOpenAt numeric sql_time' db d date time)
        /\ ((forall v, sql_time' v = sql_time v) ->
            fst out = Flashed AppointmentBooked)
    end.
Proof.
  intros numeric sql_time sql_time' u u' p p' doc form form' update s d date
    time today now now' now'' db Hrole Hp Hreq Hrole' Hp' Hreq' Hdoc Hs Hid
    Hbooked db1 db2.
  destruct (accepted_booking numeric sql_time u p form d date time today now
              db Hrole Hp Hreq Hbooked) as (Hday & Hex & (w & Hav) & Hdb1).
  subst db2 db1. rewrite Hdb1.
  set (id := autoincrement (map appointment_id (appointments db))) in *.
  set (new := mkAppointment id (pat_patient_id p) d
                (numeric_affinity numeric date)
                (numeric_affinity numeric time) (Some Booked)
                (patient_bp.f_reason form) now now).
  rewrite (doctor_update_ok doc id update (Some s) now' _ Hdoc Hid
             (or_introl Hs)).
  cbn [snd].
  set (db2 := applied id (Some s) update now'
                (set_appointments db (appointments db ++ [new]))).
  assert (Happs : appointments db2
                  = appointments db ++ [with_status new (Some s) now']).
  { unfold db2. simpl. apply set_status_snoc; [|reflexivity].
    intros x Hx. apply autoincrement_fresh. apply in_map. exact Hx. }
  pose proof (select_existing_snoc numeric d date time db db2 _ Hex Happs)
    as Hsel.
  assert (Hocc : patient_bp.occupies numeric d date time
                   (with_status new (Some s) now')
                 = status_not_in_cancelled_rescheduled (Some s)).
  { unfold patient_bp.occupies. simpl.
    rewrite Z.eqb_refl, !value_eqb_refl. reflexivity. }
  rewrite Hocc in Hsel.
  destruct s; simpl in Hsel.
  - rewrite (book_conflict numeric sql_time' u' p' form' d date time today
               now'' db2 Hrole' Hp' Hreq' _ Hday Hsel). reflexivity.
  - rewrite (book_conflict numeric sql_time' u' p' form' d date time today
               now'' db2 Hrole' Hp' Hreq' _ Hday Hsel). reflexivity.
  - destruct (book_by_availability numeric sql_time' u' p' form' d date time
                today now'' db2 Hrole' Hp' Hreq' Hday Hsel) as (Hno & Hiff).
    split; [exact Hno|]. split; [exact Hiff|].
    intros Hsame. apply Hiff. apply select_available_some. exists w.
    rewrite <- Hav.
    exact (select_available_ext numeric sql_time' sql_time d date time db
             Hsame).
  - destruct (book_by_availability numeric sql_time' u' p' form' d date time
                today now'' db2 Hrole' Hp' Hreq' Hday Hsel) as (Hno & Hiff).
    split; [exact Hno|]. split; [exact Hiff|].
    intros Hsame. apply Hiff. apply select_available_some. exists w.
    rewrite <- Hav.
    exact (select_available_ext numeric sql_time' sql_time d date time db
             Hsame).
Qed.

(** alice's visit is completed: bob cannot have the slot. *)
Lemma written_status_decides_slot_witness :
  fst (serve (patient_bp.book_appointment plain_numeric clock_time (Some bob)
                slot_0930 "2025-06-01" "t3") []
         (snd (serve (doctor_bp.update_appointment (Some dr_smith) 1 flu "t2")
                 []
                 (snd (serve (patient_bp.book_appointment plain_numeric
                                clock_time (Some alice) slot_0930
                                "2025-06-01" "t1")
                         [] clinic)))))
  = Flashed SlotAlreadyBooked.
Proof.
  exact (written_status_decides_slot plain_numeric clock_time clock_time alice
           bob (mkPatient 1 20 active) (mkPatient 2 21 active) dr_smith
           slot_0930 slot_0930 flu Completed 1 "2025-06-02" "09:30"
           "2025-06-01" "t1" "t2" "t3" clinic
           eq_refl eq_refl eq_refl eq_refl eq_refl eq_refl eq_refl eq_refl
           eq_refl eq_refl).
Defined.

(** X10.  The double-booking check compares the values the submitted date
    and time take in their columns, while the availability check reads the
    time through time().  Once a slot is booked, a second request that day
    for the same doctor and date is answered 'Time slot already booked.'
    when its time takes the same value as the booked one, as '10' and
    '10.0' do.  When its time takes another value, no appointment holds
    that one and the availability test passes, it is booked as well: two
    Booked rows for one doctor and date, even when the two times are one
    time of day written differently, as '09:30' and '09:30:00'. *)
Theorem same_time_other_text_is_booked :
  forall (numeric : string -> option Number)
         (sql_time sql_time' : Value -> option string) (u u' : User)
         (p p' : PatientRow) (form form' : patient_bp.BookingForm)
         (d : Z) (date time time' today now now' : string) (db : DB),
    role u = patient -> select_patient (user_id u) db = Some p ->
    patient_bp.required_fields form = Some (d, date, time) ->
    role u' = patient -> select_patient (user_id u') db = Some p' ->
    patient_bp.required_fields form' = Some (d, date, time') ->
    fst (serve (patient_bp.book_appointment numeric sql_time (Some u) form
                  today now) [] db)
    = Flashed AppointmentBooked ->
    let db1 :=
      snd (serve (patient_bp.book_appointment numeric sql_time (Some u) form
                    today now) [] db) in
    let out :=
      serve (patient_bp.book_appointment numeric sql_time' (Some u') form'
               today now') [] db1 in
    (numeric_affinity numeric time' = numeric_affinity numeric time ->
     out = (Flashed SlotAlreadyBooked, db1))
    /\ (numeric_affinity numeric time' <> numeric_affinity numeric time ->
        patient_bp.select_existing numeric d date time' db = None ->
        isOpenAt numeric sql_time' db d date time' ->
        fst out = Flashed AppointmentBooked
        /\ exists a b,
             In a (appointments (snd out))
             /\ In b (appointments (snd out))
             /\ appointment_id a <> appointment_id b
             /\ app_doctor_id a = d /\ app_doctor_id b = d
             /\ appointment_date a = numeric_affinity numeric date
             /\ appointment_date b = numeric_affinity numeric date
             /\ appointment_time a = numeric_affinity numeric time
             /\ appointment_time b = numeric_affinity numeric time'
             /\ status a = Some Booked /\ status b = Some Booked).
Proof.
  intros numeric sql_time sql_time' u u' p p' form form' d date time time'
    today now now' db Hrole Hp Hreq Hrole' Hp' Hreq' Hbooked db1 out.
  destruct (accepted_booking numeric sql_time u p form d date time today now
              db Hrole Hp Hreq Hbooked) as (Hday & Hex & _ & Hdb1).
  subst out db1. rewrite Hdb1.
  set (id := autoincrement (map appointment_id (appointments db))).
  set (new := mkAppointment id (pat_patient_id p) d
                (numeric_affinity numeric date)
                (numeric_affinity numeric time) (Some Booked)
                (patient_bp.f_reason form) now now).
  set (db1 := set_appointments db (appointments db ++ [new])).
  split.
  - intros Hsame.
    assert (Hsel : exists a,
              patient_bp.select_existing numeric d date time' db1 = Some a).
    { apply select_existing_some. exists new. unfold db1. simpl.
      split; [apply in_or_app; right; left; reflexivity|].
      repeat split; auto. }
    destruct Hsel as (a & Hsel).
    exact (book_conflict numeric sql_time' u' p' form' d date time' today now'
             db1 Hrole' Hp' Hreq' a Hday Hsel).
  - intros Hdiff Hfree Hopen.
    assert (Hsel : patient_bp.select_existing numeric d date time' db1 = None).
    { rewrite (select_existing_snoc numeric d date time' db db1 new Hfree
                 eq_refl).
      unfold patient_bp.occupies. simpl.
      rewrite (proj2 (value_eqb_neq _ _) (fun H => Hdiff (eq_sym H))).
      rewrite andb_false_r. reflexivity. }
    apply select_available_some in Hopen. destruct Hopen as (w & Hav).
    assert (Hav' : patient_bp.select_available numeric sql_time' d date time'
                     db1 = Some w) by exact Hav.
    rewrite (book_ok numeric sql_time' u' p' form' d date time' today now' db1
               Hrole' Hp' Hreq' w Hday Hsel Hav').
    cbn [fst snd]. split; [reflexivity|].
    exists new.
    exists (mkAppointment
              (autoincrement (map appointment_id (appointments db1)))
              (pat_patient_id p') d (numeric_affinity numeric date)
              (numeric_affinity numeric time') (Some Booked)
              (patient_bp.f_reason form') now' now').
    simpl. repeat split; auto.
    + apply in_or_app. left. apply in_or_app. right. left. reflexivity.
    + apply in_or_app. right. left. reflexivity.
    + apply autoincrement_fresh. rewrite map_app. apply in_or_app. right.
      left. reflexivity.
Qed.

(** alice books '09:30' and bob books '09:30:00', which time() reads as the
    same time; on a ledger with a window from '9' to '11', alice books '10'
    and bob is refused '10.0'. *)
Lemma same_time_other_text_is_booked_witness :
  clock_time (VText "09:30") = clock_time (VText "09:30:00")
  /\ fst (serve (patient_bp.book_appointment plain_numeric clock_time
                   (Some bob)
                   (patient_bp.mkBookingForm (Some 1) (Some "2025-06-02")
                      (Some "09:30:00") None)
                   "2025-06-01" "t2") []
            (snd (serve (patient_bp.book_appointment plain_numeric clock_time
                           (Some alice) slot_0930 "2025-06-01" "t1") []
                    clinic)))
     = Flashed AppointmentBooked
  /\ fst (serve (patient_bp.book_appointment plain_numeric clock_time
                   (Some bob)
                   (patient_bp.mkBookingForm (Some 1) (Some "2025-06-02")
                      (Some "10.0") None)
                   "2025-06-01" "t2") []
            (snd (serve (patient_bp.book_appointment plain_numeric clock_time
                           (Some alice)
                           (patient_bp.mkBookingForm (Some 1)
                              (Some "2025-06-02") (Some "10") None)
                           "2025-06-01" "t1") []
                    (set_doctor_availability clinic
                       [mkAvailability 1 1 (VText "2025-06-02")
                          (numeric_affinity plain_numeric "9")
                          (numeric_affinity plain_numeric "11") true]))))
     = Flashed SlotAlreadyBooked.
Proof.
  split; [reflexivity|]. split.
  - refine (proj1 (proj2 (same_time_other_text_is_booked plain_numeric
             clock_time clock_time alice bob
             (mkPatient 1 20 active) (mkPatient 2 21 active) slot_0930
             (patient_bp.mkBookingForm (Some 1) (Some "2025-06-02")
                (Some "09:30:00") None)
             1 "2025-06-02" "09:30" "09:30:00" "2025-06-01" "t1" "t2" clinic
             eq_refl eq_refl eq_refl eq_refl eq_refl eq_refl eq_refl)
             _ eq_refl _)).
    + discriminate.
    + exists (mkAvailability 1 1 (VText "2025-06-02") (VText "09:00")
                (VText "12:00") true), "09:30:00", "09:00:00", "12:00:00".
      repeat split. left. reflexivity.
  - refine (f_equal fst (proj1 (same_time_other_text_is_booked plain_numeric
             clock_time clock_time alice bob
             (mkPatient 1 20 active) (mkPatient 2 21 active)
             (patient_bp.mkBookingForm (Some 1) (Some "2025-06-02")
                (Some "10") None)
             (patient_bp.mkBookingForm (Some 1) (Some "2025-06-02")
                (Some "10.0") None)
             1 "2025-06-02" "10" "10.0" "2025-06-01" "t1" "t2"
             (set_doctor_availability clinic
                [mkAvailability 1 1 (VText "2025-06-02")
                   (numeric_affinity plain_numeric "9")
                   (numeric_affinity plain_numeric "11") true])
             eq_refl eq_refl eq_refl eq_refl eq_refl eq_refl _) _)).
    + reflexivity.
    + vm_compute. reflexivity.
Defined.

(** X21.  The INSERT of a booking checks nothing: appointments has no
    UNIQUE constraint on the slot, and whatever the table holds the
    statement appends a Booked row.  What keeps a slot from a second holder
    is the SELECT that precedes the INSERT, and the two are not one
    transaction.  When the SELECTs of two requests for one free slot are
    both evaluated before either INSERT, both find nothing, both INSERTs
    are accepted, and two Booked rows share the slot, although the same
    SELECT evaluated after the first INSERT finds the first row. *)
Theorem booking_insert_is_unguarded :
  forall (numeric : string -> option Number) (pid pid' d : Z)
         (date time : string) (why why' : option string) (now now' : string)
         (db : DB),
    patient_bp.select_existing numeric d date time db = None ->
    exists db1 db2 a b,
      patient_bp.insert_appointment numeric pid d date time why now db
      = inr db1
      /\ patient_bp.insert_appointment numeric pid' d date time why' now' db1
         = inr db2
      /\ patient_bp.select_existing numeric d date time db1 = Some a
      /\ appointments db2 = appointments db ++ [a; b]
      /\ app_patient_id a = pid /\ app_patient_id b = pid'
      /\ appointment_id a <> appointment_id b
      /\ same_slot a b
      /\ status a = Some Booked /\ status b = Some Booked
      /\ ~ no_double_booking db2.
Proof.
  intros numeric pid pid' d date time why why' now now' db Hfree.
  set (a := mkAppointment (autoincrement (map appointment_id (appointments db)))
              pid d (numeric_affinity numeric date)
              (numeric_affinity numeric time) (Some Booked) why now now).
  set (db1 := set_appointments db (appointments db ++ [a])).
  set (b := mkAppointment
              (autoincrement (map appointment_id (appointments db1)))
              pid' d (numeric_affinity numeric date)
              (numeric_affinity numeric time) (Some Booked) why' now' now').
  set (db2 := set_appointments db1 (appointments db1 ++ [b])).
  assert (Hne : appointment_id a <> appointment_id b).
  { simpl. intros Heq.
    apply (autoincrement_fresh (map appointment_id (appointments db1))
             (appointment_id a)); [|exact Heq].
    unfold db1. simpl. rewrite map_app. apply in_or_app. right. left.
    reflexivity. }
  exists db1, db2, a, b.
  split; [reflexivity|]. split; [reflexivity|]. split.
  { rewrite (select_existing_snoc numeric d date time db db1 a Hfree eq_refl).
    unfold patient_bp.occupies. simpl.
    rewrite Z.eqb_refl, !value_eqb_refl. reflexivity. }
  split.
  { unfold db2, db1. simpl. rewrite <- app_assoc. reflexivity. }
  split; [reflexivity|]. split; [reflexivity|]. split; [exact Hne|].
  split; [repeat split|]. split; [reflexivity|]. split; [reflexivity|].
  intros Hinv.
  apply (Hinv a b).
  - unfold db2, db1. simpl. apply in_or_app. left. apply in_or_app. right.
    left. reflexivity.
  - unfold db2. simpl. apply in_or_app. right. left. reflexivity.
  - exact Hne.
  - repeat split.
  - split; discriminate.
  - split; discriminate.
Qed.

(** alice's and bob's requests for 09:30 on 2 June both pass the check on
    the empty table. *)
Lemma booking_insert_is_unguarded_witness :
  exists db1 db2 a b,
    patient_bp.insert_appointment plain_numeric 1 1 "2025-06-02" "09:30"
      (Some "checkup") "t1" clinic = inr db1
    /\ patient_bp.insert_appointment plain_numeric 2 1 "2025-06-02" "09:30"
         (Some "checkup") "t2" db1 = inr db2
    /\ patient_bp.select_existing plain_numeric 1 "2025-06-02" "09:30" db1
       = Some a
    /\ appointments db2 = appointments clinic ++ [a; b]
    /\ app_patient_id a = 1 /\ app_patient_id b = 2
    /\ appointment_id a <> appointment_id b
    /\ same_slot a b
    /\ status a = Some Booked /\ status b = Some Booked
    /\ ~ no_double_booking db2.
Proof.
  exact (booking_insert_is_unguarded plain_numeric 1 2 1 "2025-06-02" "09:30"
           (Some "checkup") (Some "checkup") "t1" "t2" clinic eq_refl).
Defined.

(** ** The availability form *)

Lemma index_inv {A : Type} (xs : list A) (i : nat) (c c' : Conn)
    (r : Exn + A) :
  index xs i c = (r, c') ->
  c' = c /\ ((exists a, nth_error xs i = Some a /\ r = inr a)
             \/ (nth_error xs i = None /\ r = inl IndexError)).
Proof.
  unfold index. destruct (nth_error xs i) as [a|]; intros H.
  - apply ret_inv in H. destruct H as [-> ->]. split; [reflexivity|].
    left. exists a. auto.
  - apply raise_inv in H. destruct H as [-> ->]. auto.
Qed.

Lemma set_doctor_availability_same (db : DB) :
  set_doctor_availability db (doctor_availability db) = db.
Proof. destruct db; reflexivity. Qed.

(** The loop of [doctor_bp.availability], run to its end. *)
Lemma declare_loop_run (numeric : string -> option Number) (d : Z)
    (form : doctor_bp.AvailabilityForm) (ix : list nat) :
  forall (c c' : Conn) (r : Exn + unit),
    for_each ix (fun i =>
      date <- index (doctor_bp.dates form) i ;;
      start <- index (doctor_bp.start_times form) i ;;
      stop <- index (doctor_bp.end_times form) i ;;
      doctor_bp.declare_window numeric d date start stop
        (existsb (String.eqb (doctor_bp.str i))
           (doctor_bp.availabilities form))) c = (r, c') ->
    r = inr tt ->
    exists l',
      declare_rows numeric d form ix (doctor_availability (working c))
      = Some l'
      /\ working c' = set_doctor_availability (working c) l'.
Proof.
  induction ix as [|i ix IH]; simpl; intros c c' r Hrun Hr.
  - apply ret_inv in Hrun. destruct Hrun as [_ ->].
    exists (doctor_availability (working c)). split; [reflexivity|].
    symmetry. apply set_doctor_availability_same.
  - subst r. apply bind_inv in Hrun.
    destruct Hrun as [(e & _ & He) | (x & c1 & Hbody & Hrest)]; [discriminate|].
    apply bind_inv in Hbody.
    destruct Hbody as [(e & _ & He) | (date & c2 & Hi1 & Hbody)];
      [discriminate|].
    apply index_inv in Hi1.
    destruct Hi1 as [-> [(date' & Hd & Hd') | (_ & He)]]; [|discriminate].
    inversion Hd'; subst date'; clear Hd'.
    apply bind_inv in Hbody.
    destruct Hbody as [(e & _ & He) | (start & c2 & Hi2 & Hbody)];
      [discriminate|].
    apply index_inv in Hi2.
    destruct Hi2 as [-> [(start' & Hs & Hs') | (_ & He)]]; [|discriminate].
    inversion Hs'; subst start'; clear Hs'.
    apply bind_inv in Hbody.
    destruct Hbody as [(e & _ & He) | (stop & c2 & Hi3 & Hbody)];
      [discriminate|].
    apply index_inv in Hi3.
    destruct Hi3 as [-> [(stop' & He & He') | (_ & He)]]; [|discriminate].
    inversion He'; subst stop'; clear He'.
    apply declare_window_inv in Hbody.
    destruct Hbody as (_ & [(e & Hx & _) | (_ & Hw1)]); [discriminate|].
    destruct (IH c1 c' (inr tt) Hrest eq_refl) as (l' & Hrows & Hw').
    exists l'. unfold form_row. rewrite Hd, Hs, He.
    rewrite Hw1 in Hrows, Hw'. simpl in Hrows. split; [exact Hrows|].
    rewrite Hw'. reflexivity.
Qed.

Lemma declare_rows_incomplete (numeric : string -> option Number) (d : Z)
    (form : doctor_bp.AvailabilityForm) (ix : list nat) (i : nat) :
  In i ix -> form_row form i = None ->
  forall l, declare_rows numeric d form ix l = None.
Proof.
  induction ix as [|j ix IH]; simpl; intros Hin Hnone l; [contradiction|].
  destruct Hin as [->|Hin].
  - rewrite Hnone. reflexivity.
  - destruct (form_row form j) as [[[[date start] stop] open]|];
      [|reflexivity].
    apply IH; assumption.
Qed.

(** A declaration keeps every key of the ledger and leaves a window under
    its own. *)
Lemma declared_has_keys (numeric : string -> option Number) (d : Z)
    (date start stop : string) (open : bool) (l : list Availability) :
  (forall k, In k (map window_key l) ->
             In k (map window_key
                     (declared numeric d date start stop open l)))
  /\ In (d, numeric_affinity numeric date, numeric_affinity numeric start)
        (map window_key (declared numeric d date start stop open l)).
Proof.
  rewrite declared_keys.
  destruct (find (doctor_bp.same_key numeric d date start) l) as [w|] eqn:E.
  - split; [auto|].
    apply find_some in E. destruct E as [Hin Hk].
    apply same_key_spec in Hk. rewrite <- Hk. apply in_map. exact Hin.
  - split.
    + intros k Hk. apply in_or_app. left. exact Hk.
    + apply in_or_app. right. left. reflexivity.
Qed.

Lemma declare_rows_keys (numeric : string -> option Number) (d : Z)
    (form : doctor_bp.AvailabilityForm) (ix : list nat) :
  forall l l',
    declare_rows numeric d form ix l = Some l' ->
    (forall k, In k (map window_key l) -> In k (map window_key l'))
    /\ (forall i date start stop open,
          In i ix -> form_row form i = Some (date, start, stop, open) ->
          In (d, numeric_affinity numeric date,
              numeric_affinity numeric start)
             (map window_key l')).
Proof.
  induction ix as [|j ix IH]; simpl; intros l l' Hrows.
  - inversion Hrows; subst l'. split; [auto|]. intros; contradiction.
  - destruct (form_row form j) as [[[[date0 start0] stop0] open0]|] eqn:Hj;
      [|discriminate].
    destruct (IH _ _ Hrows) as (Hkeep & Hnew).
    destruct (declared_has_keys numeric d date0 start0 stop0 open0 l)
      as (Hk0 & Hin0).
    split.
    + intros k Hk. apply Hkeep. apply Hk0. exact Hk.
    + intros i date start stop open [->|Hin] Hrow.
      * rewrite Hj in Hrow. inversion Hrow; subst.
        apply Hkeep. exact Hin0.
      * exact (Hnew i date start stop open Hin Hrow).
Qed.

(** X11.  POST /availability is all or nothing.  Under every oracle the
    request either answers 'Availability updated successfully!' and stores
    the ledger obtained by declaring every row of the form in order, all
    other tables untouched, or gives another answer and stores nothing.  A
    row is declared under the key made of the doctor and the values its
    date and start time take in their columns: after a successful request
    every key of the old ledger is still there and every row of the form
    has a window under its key.  In particular a form whose start-time or
    end-time list is shorter than its date list stores nothing, not even
    its complete rows. *)
Theorem availability_all_or_nothing :
  forall (numeric : string -> option Number) (cu : option User)
         (form : doctor_bp.AvailabilityForm) (fs : list bool) (db : DB),
    let out := serve (doctor_bp.availability numeric cu form) fs db in
    let n := List.length (doctor_bp.dates form) in
    ((fst out = Flashed AvailabilityUpdated
      /\ exists u dr l',
           cu = Some u /\ role u = doctor
           /\ select_doctor (user_id u) db = Some dr
           /\ declare_rows numeric (doc_doctor_id dr) form (seq 0 n)
                (doctor_availability db) = Some l'
           /\ snd out = set_doctor_availability db l'
           /\ (forall k, In k (map window_key (doctor_availability db)) ->
                         In k (map window_key l'))
           /\ (forall i date start stop open,
                 (i < n)%nat ->
                 form_row form i = Some (date, start, stop, open) ->
                 In (doc_doctor_id dr, numeric_affinity numeric date,
                     numeric_affinity numeric start)
                    (map window_key l')))
     \/ (fst out <> Flashed AvailabilityUpdated /\ snd out = db))
    /\ ((List.length (doctor_bp.start_times form) < n
         \/ List.length (doctor_bp.end_times form) < n)%nat ->
        fst out <> Flashed AvailabilityUpdated /\ snd out = db).
Proof.
  intros numeric cu form fs db out n.
  assert (Hdich :
    (fst out = Flashed AvailabilityUpdated
      /\ exists u dr l',
           cu = Some u /\ role u = doctor
           /\ select_doctor (user_id u) db = Some dr
           /\ declare_rows numeric (doc_doctor_id dr) form (seq 0 n)
                (doctor_availability db) = Some l'
           /\ snd out = set_doctor_availability db l')
     \/ (fst out <> Flashed AvailabilityUpdated /\ snd out = db)).
  { subst out n.
    destruct (serve_run (doctor_bp.availability numeric cu form) fs db)
      as (r & c' & Hrun & ->).
    cbn [fst snd]. revert Hrun.
    unfold doctor_bp.availability, doctor_required, role_required,
      login_required.
    intros Hrun.
    destruct cu as [u|];
      [|inv_run; subst; right; split; [discriminate|reflexivity]].
    destruct (role u) eqn:Hrole; simpl in Hrun;
      try solve [inv_run; subst; right; split; [discriminate|reflexivity]].
    apply bind_inv in Hrun.
    destruct Hrun as [(e & Hf & ->) | (dr & c1 & Hf & Hrun)];
      apply fetch_inv in Hf; destruct Hf as (Hc1 & Hw1 & Hdr);
      [right; split; [discriminate|exact Hc1]|].
    destruct Hdr as [Hdr|Hdr]; [|discriminate].
    inversion Hdr; subst dr; clear Hdr. simpl in Hw1, Hc1.
    apply bind_inv in Hrun.
    destruct Hrun as [(e & Hsub & ->) | (d & c2 & Hsub & Hrun)];
      apply subscript_inv in Hsub; destruct Hsub as [-> Hsub];
      [right; split; [discriminate|exact Hc1]|].
    destruct Hsub as [(d' & Hd & Hd') | (_ & He)]; [|discriminate].
    inversion Hd'; subst d'; clear Hd'.
    destruct (select_doctor (user_id u) db) as [dr|] eqn:Hsel;
      [|discriminate].
    simpl in Hd. inversion Hd; subst d; clear Hd.
    apply try_except_split in Hrun.
    - destruct Hrun as [(f & Hbody & ->) | (e & c3 & Hh & Hc)].
      + apply bind_inv in Hbody.
        destruct Hbody as [(e & _ & He) | (x & c3 & Hloop & Hrest)];
          [discriminate|].
        destruct x.
        destruct (declare_loop_run _ _ _ _ _ _ _ Hloop eq_refl)
          as (l' & Hrows & Hw3).
        apply bind_inv in Hrest.
        destruct Hrest as [(e & _ & He) | (y & c4 & Hcom & Hret)];
          [discriminate|].
        apply commit_inv in Hcom.
        destruct Hcom as [(He & _) | (_ & Hc4 & _)]; [discriminate|].
        apply ret_inv in Hret. destruct Hret as [Hf ->].
        inversion Hf; subst f.
        left. split; [reflexivity|]. exists u, dr, l'.
        rewrite Hw1 in Hrows, Hw3.
        repeat split; auto. congruence.
      + right. inv_run; subst; split; try discriminate; congruence.
    - apply safe_bind; auto with tx.
      unfold for_range. apply keeps_for_each. intros i.
      repeat (apply keeps_bind; [apply keeps_index|intros ?]).
      unfold doctor_bp.declare_window. auto 10 with tx.
    - auto 12 with tx. }
  split.
  - destruct Hdich as [(Hs & u & dr & l' & Hcu & Hrole & Hdr & Hrows & Hout)
                      | H]; [left|right; exact H].
    split; [exact Hs|]. exists u, dr, l'.
    destruct (declare_rows_keys numeric _ form _ _ _ Hrows) as (Hkeep & Hnew).
    repeat split; auto.
    intros i date start stop open Hi Hrow.
    apply (Hnew i date start stop open); [|exact Hrow].
    apply in_seq. lia.
  - intros Hshort.
    destruct Hdich as [(_ & u & dr & l' & _ & _ & _ & Hrows & _) | H];
      [|exact H].
    exfalso.
    assert (Hex : exists i, In i (seq 0 n) /\ form_row form i = None).
    { unfold form_row.
      destruct Hshort as [Hs|Hs].
      - exists (List.length (doctor_bp.start_times form)). split.
        + apply in_seq. lia.
        + destruct (nth_error (doctor_bp.dates form) _); [|reflexivity].
          rewrite (proj2 (nth_error_None _ _) (Nat.le_refl _)). reflexivity.
      - exists (List.length (doctor_bp.end_times form)). split.
        + apply in_seq. lia.
        + destruct (nth_error (doctor_bp.dates form) _); [|reflexivity].
          destruct (nth_error (doctor_bp.start_times form) _); [|reflexivity].
          rewrite (proj2 (nth_error_None _ _) (Nat.le_refl _)).
          reflexivity. }
    destruct Hex as (i & Hin & Hnone).
    rewrite (declare_rows_incomplete _ _ _ _ _ Hin Hnone) in Hrows.
    discriminate.
Qed.

(** Two dates, two start times, one end time. *)
Lemma availability_all_or_nothing_witness :
  snd (serve (doctor_bp.availability plain_numeric (Some dr_smith)
                (doctor_bp.mkAvailabilityForm ["2025-06-02"; "2025-06-03"]
                   ["09:00"; "09:00"] ["13:00"] ["0"; "1"])) [] clinic)
  = clinic.
Proof.
  refine (proj2 (proj2 (availability_all_or_nothing plain_numeric
            (Some dr_smith)
            (doctor_bp.mkAvailabilityForm ["2025-06-02"; "2025-06-03"]
               ["09:00"; "09:00"] ["13:00"] ["0"; "1"]) [] clinic) _)).
  right. simpl. lia.
Defined.

Lemma find_map_same {A : Type} (f : A -> bool) (g : A -> A) (l : list A) :
  (forall x, f (g x) = f x) ->
  find f (map g l) = option_map g (find f l).
Proof.
  intros Hfg. induction l as [|x l IH]; simpl; [reflexivity|].
  rewrite Hfg. destruct (f x); [reflexivity|exact IH].
Qed.

Lemma declared_twice (numeric : string -> option Number) (d : Z)
    (date start stop : string) (open : bool) (l : list Availability) :
  declared numeric d date start stop open
    (declared numeric d date start stop open l)
  = declared numeric d date start stop open l.
Proof.
  unfold declared at 2 3.
  destruct (find (doctor_bp.same_key numeric d date start) l) as [w0|] eqn:E.
  - unfold declared. rewrite find_map_same.
    + rewrite E. simpl. rewrite Z.eqb_refl. simpl.
      rewrite map_map. apply map_ext. intros x.
      destruct (Z.eqb (availability_id x) (availability_id w0)) eqn:Ex;
        simpl; rewrite Ex; reflexivity.
    + intros x. destruct (Z.eqb (availability_id x) (availability_id w0));
        reflexivity.
  - unfold declared.
    set (new := mkAvailability (autoincrement (map availability_id l))
                  d (numeric_affinity numeric date)
                  (numeric_affinity numeric start)
                  (numeric_affinity numeric stop) open).
    assert (Hfind : find (doctor_bp.same_key numeric d date start)
                      (l ++ [new])
                    = Some new).
    { apply find_snoc_some; [exact E|].
      unfold doctor_bp.same_key. simpl.
      rewrite Z.eqb_refl, !value_eqb_refl. reflexivity. }
    rewrite Hfind. rewrite map_app. simpl. rewrite Z.eqb_refl.
    f_equal. apply map_id_when. intros x Hx.
    destruct (Z.eqb (availability_id x) (autoincrement (map availability_id l)))
      eqn:Ex; [|reflexivity].
    apply Z.eqb_eq in Ex. exfalso.
    exact (autoincrement_fresh _ _ (in_map availability_id l x Hx) Ex).
Qed.

(** X12.  Submitting the same one-row availability form a second time
    changes nothing: the database after two identical declarations is the
    database after one. *)
Theorem redeclaring_is_idempotent :
  forall (numeric : string -> option Number) (u : User) (dr : DoctorRow)
         (date start stop : string) (flags : list string) (db : DB),
    role u = doctor ->
    select_doctor (user_id u) db = Some dr ->
    let post :=
      serve (doctor_bp.availability numeric (Some u)
               (doctor_bp.mkAvailabilityForm [date] [start] [stop] flags)) [] in
    post (snd (post db)) = post db.
Proof.
  intros numeric u dr date start stop flags db Hrole Hdr post. subst post.
  rewrite (availability_one_ok numeric u dr date start stop flags db Hrole
             Hdr).
  cbn [snd].
  set (db1 := set_doctor_availability db _).
  assert (Hdr1 : select_doctor (user_id u) db1 = Some dr) by exact Hdr.
  rewrite (availability_one_ok numeric u dr date start stop flags db1 Hrole
             Hdr1).
  unfold db1. simpl. rewrite declared_twice. reflexivity.
Qed.

(** Doctor 1 declares an afternoon window twice. *)
Lemma redeclaring_is_idempotent_witness :
  let post :=
    serve (doctor_bp.availability plain_numeric (Some dr_smith)
             (doctor_bp.mkAvailabilityForm ["2025-06-02"] ["14:00"] ["17:00"]
                ["0"])) [] in
  post (snd (post clinic)) = post clinic.
Proof.
  exact (redeclaring_is_idempotent plain_numeric dr_smith
           (mkDoctor 1 10 active) "2025-06-02" "14:00" "17:00" ["0"] clinic
           eq_refl eq_refl).
Defined.

(** X13.  Closing a window closes the slot.  Dates are compared by the
    values they take in their column: when the doctor has a single window
    whose date is the value of the submitted one, and that window is
    declared again with the open box unticked, every booking request for
    that doctor and a date of the same value that reaches the availability
    check is answered 'Doctor is not available at this time.', whatever
    time() returns. *)
Theorem closed_window_refuses_bookings :
  forall (numeric : string -> option Number)
         (sql_time : Value -> option string) (doc u : User) (dr : DoctorRow)
         (p : PatientRow) (form : patient_bp.BookingForm)
         (date date' start stop time today now : string)
         (flags : list string) (db : DB),
    role doc = doctor ->
    select_doctor (user_id doc) db = Some dr ->
    windows_unique db ->
    NoDup (map availability_id (doctor_availability db)) ->
    (exists w, In w (doctor_availability db)
               /\ window_key w
                  = (doc_doctor_id dr, numeric_affinity numeric date,
                     numeric_affinity numeric start)) ->
    (forall w, In w (doctor_availability db) ->
               av_doctor_id w = doc_doctor_id dr ->
               av_date w = numeric_affinity numeric date ->
               start_time w = numeric_affinity numeric start) ->
    existsb (String.eqb "0") flags = false ->
    role u = patient ->
    select_patient (user_id u) db = Some p ->
    patient_bp.required_fields form = Some (doc_doctor_id dr, date', time) ->
    numeric_affinity numeric date' = numeric_affinity numeric date ->
    String.ltb date' today = false ->
    patient_bp.select_existing numeric (doc_doctor_id dr) date' time db
    = None ->
    let closed :=
      snd (serve (doctor_bp.availability numeric (Some doc)
                    (doctor_bp.mkAvailabilityForm [date] [start] [stop] flags))
             [] db) in
    serve (patient_bp.book_appointment numeric sql_time (Some u) form today
             now) [] closed
    = (Flashed DoctorNotAvailable, closed).
Proof.
  intros numeric sql_time doc u dr p form date date' start stop time today now
    flags db Hdoc Hdr Hk Hid Hex Honly Hflag Hrole Hp Hreq Hsame Hday Hfree
    closed.
  subst closed.
  rewrite (availability_one_ok numeric doc dr date start stop flags db Hdoc
             Hdr).
  cbn [snd]. rewrite Hflag.
  rewrite (declared_existing _ _ _ _ _ _ _ Hk Hid Hex).
  set (db' := set_doctor_availability db _).
  apply (book_unavailable numeric sql_time u p form (doc_doctor_id dr) date'
           time today now db' Hrole Hp Hreq Hday Hfree).
  unfold patient_bp.select_available, db'. simpl.
  match goal with
  | |- find ?f ?l = None =>
      destruct (find f l) as [w'|] eqn:E; [|reflexivity]
  end.
  exfalso. apply find_some in E. destruct E as [Hin Hc].
  apply in_map_iff in Hin. destruct Hin as (x & Hx & Hxin).
  unfold patient_bp.covers in Hc.
  apply andb_prop in Hc. destruct Hc as [Hc _].
  apply andb_prop in Hc. destruct Hc as [Hc Ho].
  apply andb_prop in Hc. destruct Hc as [Hd Hdt].
  apply Z.eqb_eq in Hd. apply value_eqb_eq in Hdt.
  apply Bool.eqb_prop in Ho. rewrite Hsame in Hdt.
  destruct (doctor_bp.same_key numeric (doc_doctor_id dr) date start x)
    eqn:Hsk; subst w'.
  - simpl in Ho. discriminate.
  - assert (Hkey : doctor_bp.same_key numeric (doc_doctor_id dr) date start x
                   = true).
    { apply same_key_spec. unfold window_key.
      rewrite Hd, Hdt, (Honly x Hxin Hd Hdt). reflexivity. }
    congruence.
Qed.

(** Doctor 1 closes the morning window of 2 June; alice asks for 09:30. *)
Lemma closed_window_refuses_bookings_witness :
  fst (serve (patient_bp.book_appointment plain_numeric clock_time
                (Some alice) slot_0930 "2025-06-01" "now") []
         (snd (serve (doctor_bp.availability plain_numeric (Some dr_smith)
                        (doctor_bp.mkAvailabilityForm ["2025-06-02"] ["09:00"]
                           ["12:00"] [])) [] clinic)))
  = Flashed DoctorNotAvailable.
Proof.
  assert (Hk : windows_unique clinic).
  { unfold windows_unique. simpl. repeat constructor. simpl. tauto. }
  assert (Hid : NoDup (map availability_id (doctor_availability clinic))).
  { simpl. repeat constructor. simpl. tauto. }
  assert (Hex : exists w, In w (doctor_availability clinic)
                  /\ window_key w
                     = (1, numeric_affinity plain_numeric "2025-06-02",
                        numeric_affinity plain_numeric "09:00")).
  { eexists. split; [left; reflexivity | reflexivity]. }
  assert (Honly : forall w, In w (doctor_availability clinic) ->
            av_doctor_id w = 1 ->
            av_date w = numeric_affinity plain_numeric "2025-06-02" ->
            start_time w = numeric_affinity plain_numeric "09:00").
  { intros w [<-|[]] _ _. reflexivity. }
  rewrite (closed_window_refuses_bookings plain_numeric clock_time dr_smith
             alice (mkDoctor 1 10 active) (mkPatient 1 20 active) slot_0930
             "2025-06-02" "2025-06-02" "09:00" "12:00" "09:30" "2025-06-01"
             "now" [] clinic eq_refl eq_refl Hk Hid Hex Honly eq_refl eq_refl
             eq_refl eq_refl eq_refl eq_refl eq_refl).
  reflexivity.
Defined.

(** * The user directory *)

Ltac run_site :=
  cbv [site.serve site.bind site.ret site.raise site.try_except site.fetch
       site.execute site.commit site.rollback site.storage_call
       site.subscript site.page_queries site.committed site.working
       site.faults site.on_base site.fetch_id site.execute_id site.bind_int
       fst snd option_map].

Ltac split_faults :=
  repeat match goal with
  | |- context [match ?l with [] => _ | _ :: _ => _ end] =>
      is_var l; destruct l as [|[|] l]; run_site
  end.

(** ** Running transactions on a site *)

Section SiteRuns.

Context {A B : Type}.

Lemma site_ret_inv (a : A) (c c' : site.Conn) (r : Exn + A) :
  site.ret a c = (r, c') -> r = inr a /\ c' = c.
Proof. unfold site.ret. intros H. inversion H. auto. Qed.

Lemma site_raise_inv (e : Exn) (c c' : site.Conn) (r : Exn + A) :
  site.raise e c = (r, c') -> r = inl e /\ c' = c.
Proof. unfold site.raise. intros H. inversion H. auto. Qed.

Lemma site_bind_inv (m : site.Tx A) (k : A -> site.Tx B) (c c' : site.Conn)
    (r : Exn + B) :
  site.bind m k c = (r, c') ->
  (exists e, m c = (inl e, c') /\ r = inl e)
  \/ (exists a c1, m c = (inr a, c1) /\ k a c1 = (r, c')).
Proof.
  unfold site.bind. destruct (m c) as [[e|a] c1]; intros H.
  - left. exists e. inversion H. auto.
  - right. exists a, c1. auto.
Qed.

Lemma site_subscript_inv (row : option A) (c c' : site.Conn) (r : Exn + A) :
  site.subscript row c = (r, c') ->
  c' = c /\ ((exists a, row = Some a /\ r = inr a)
             \/ (row = None /\ r = inl TypeError)).
Proof.
  destruct row as [a|]; simpl; intros H.
  - apply site_ret_inv in H. destruct H as [-> ->]. split; [reflexivity|].
    left. exists a. auto.
  - apply site_raise_inv in H. destruct H as [-> ->]. auto.
Qed.

Lemma site_fetch_inv (q : site.Site -> A) (c c' : site.Conn) (r : Exn + A) :
  site.fetch q c = (r, c') ->
  site.committed c' = site.committed c /\ site.working c' = site.working c
  /\ (r = inr (q (site.working c)) \/ r = inl OperationalError).
Proof.
  unfold site.fetch, site.bind, site.storage_call.
  destruct (site.faults c) as [|[|] fs]; intros H; inversion H; simpl; auto.
Qed.

End SiteRuns.

Lemma site_storage_call_inv (c c' : site.Conn) (r : Exn + unit) :
  site.storage_call c = (r, c') ->
  site.committed c' = site.committed c /\ site.working c' = site.working c
  /\ (r = inr tt \/ r = inl OperationalError).
Proof.
  unfold site.storage_call.
  destruct (site.faults c) as [|[|] fs]; intros H; inversion H; simpl; auto.
Qed.

Lemma site_execute_inv (stmt : site.Site -> Exn + site.Site)
    (c c' : site.Conn) (r : Exn + unit) :
  site.execute stmt c = (r, c') ->
  site.committed c' = site.committed c
  /\ ((exists e, r = inl e /\ site.working c' = site.working c)
      \/ (r = inr tt /\ stmt (site.working c) = inr (site.working c'))).
Proof.
  unfold site.execute, site.bind, site.storage_call.
  destruct (site.faults c) as [|[|] fs]; simpl;
    try (intros H; inversion H; simpl; split; [reflexivity|];
         left; eexists; split; reflexivity);
    destruct (stmt (site.working c)) as [e|d] eqn:E; rewrite ?E;
    intros H; inversion H; simpl; split; try reflexivity;
    solve [left; eexists; split; reflexivity | right; auto].
Qed.

Lemma site_fetch_id_inv {A : Type} (id : Z) (q : site.Site -> A)
    (c c' : site.Conn) (r : Exn + A) :
  site.fetch_id id q c = (r, c') ->
  site.committed c' = site.committed c /\ site.working c' = site.working c
  /\ ((r = inr (q (site.working c)) /\ int64 id = true)
      \/ r = inl OperationalError
      \/ (r = inl OverflowError /\ int64 id = false)).
Proof.
  unfold site.fetch_id, site.bind, site.storage_call, site.bind_int,
    site.ret, site.raise.
  destruct (site.faults c) as [|[|] fs]; destruct (int64 id);
    intros H; inversion H; simpl; intuition congruence.
Qed.

Lemma site_execute_id_inv (id : Z) (stmt : site.Site -> Exn + site.Site)
    (c c' : site.Conn) (r : Exn + unit) :
  site.execute_id id stmt c = (r, c') ->
  site.committed c' = site.committed c
  /\ ((exists e, r = inl e /\ site.working c' = site.working c)
      \/ (r = inr tt /\ int64 id = true
          /\ stmt (site.working c) = inr (site.working c'))).
Proof.
  unfold site.execute_id, site.bind, site.storage_call, site.bind_int,
    site.ret, site.raise.
  destruct (site.faults c) as [|[|] fs]; destruct (int64 id); simpl;
    try (intros H; inversion H; simpl; split; [reflexivity|];
         left; eexists; split; reflexivity);
    destruct (stmt (site.working c)) as [e|d] eqn:E; rewrite ?E;
    intros H; inversion H; simpl; split; try reflexivity;
    solve [left; eexists; split; reflexivity | right; auto].
Qed.

Lemma site_commit_inv (c c' : site.Conn) (r : Exn + unit) :
  site.commit c = (r, c') ->
  (r = inl OperationalError /\ site.committed c' = site.committed c
   /\ site.working c' = site.working c)
  \/ (r = inr tt /\ site.committed c' = site.working c
      /\ site.working c' = site.working c).
Proof.
  unfold site.commit, site.bind, site.storage_call.
  destruct (site.faults c) as [|[|] fs]; intros H; inversion H; simpl; auto.
Qed.

Lemma site_rollback_inv (c c' : site.Conn) (r : Exn + unit) :
  site.rollback c = (r, c') ->
  r = inr tt /\ site.committed c' = site.committed c
  /\ site.working c' = site.committed c.
Proof. unfold site.rollback. intros H. inversion H. simpl. auto. Qed.

Lemma site_page_queries_inv (n : nat) (c c' : site.Conn) (r : Exn + unit) :
  site.page_queries n c = (r, c') ->
  site.committed c' = site.committed c /\ site.working c' = site.working c.
Proof.
  revert c. induction n as [|n IH]; simpl; intros c H.
  - apply site_ret_inv in H. destruct H as [_ ->]. auto.
  - apply site_bind_inv in H.
    destruct H as [(e & H & _) | (a & c1 & H1 & H2)].
    + apply site_storage_call_inv in H. tauto.
    + apply site_storage_call_inv in H1. apply IH in H2.
      destruct H1 as (E1 & E2 & _). destruct H2 as (E3 & E4).
      split; congruence.
Qed.

Ltac inv_site :=
  repeat match goal with
  | H : site.bind _ _ _ = (_, _) |- _ =>
      apply site_bind_inv in H;
      destruct H as [(?e & H & ?) | (?a & ?c & ?H & H)]
  | H : site.ret _ _ = (_, _) |- _ =>
      apply site_ret_inv in H; destruct H as [? ?]
  | H : site.raise _ _ = (_, _) |- _ =>
      apply site_raise_inv in H; destruct H as [? ?]
  | H : site.subscript _ _ = (_, _) |- _ =>
      apply site_subscript_inv in H;
      destruct H as [? [(?a & ? & ?) | (? & ?)]]
  | H : site.fetch _ _ = (_, _) |- _ =>
      apply site_fetch_inv in H; destruct H as (? & ? & [? | ?])
  | H : site.fetch_id _ _ _ = (_, _) |- _ =>
      apply site_fetch_id_inv in H;
      destruct H as (? & ? & [(? & ?) | [? | (? & ?)]])
  | H : site.execute_id _ _ _ = (_, _) |- _ =>
      apply site_execute_id_inv in H;
      destruct H as (? & [(?e & ? & ?) | (? & ? & ?)])
  | H : site.storage_call _ = (_, _) |- _ =>
      apply site_storage_call_inv in H; destruct H as (? & ? & [? | ?])
  | H : site.execute _ _ = (_, _) |- _ =>
      apply site_execute_inv in H;
      destruct H as (? & [(?e & ? & ?) | (? & ?)])
  | H : site.commit _ = (_, _) |- _ =>
      apply site_commit_inv in H;
      destruct H as [(? & ? & ?) | (? & ? & ?)]
  | H : site.rollback _ = (_, _) |- _ =>
      apply site_rollback_inv in H; destruct H as (? & ? & ?)
  | H : site.page_queries _ _ = (_, _) |- _ =>
      apply site_page_queries_inv in H; destruct H as (? & ?)
  | H : (inr _, _) = (_, _) |- _ => inversion H; clear H
  | H : inl _ = inl _ |- _ => inversion H; clear H
  | H : inr _ = inr _ |- _ => inversion H; clear H
  | H : inl _ = inr _ |- _ => discriminate H
  | H : inr _ = inl _ |- _ => discriminate H
  end.

Create HintDb site_tx.

Lemma site_keeps_safe {A : Type} (m : site.Tx A) : site_keeps m -> site_safe m.
Proof. intros H c e c' Hrun. exact (H _ _ _ Hrun). Qed.

Lemma site_keeps_ret {A : Type} (a : A) : site_keeps (site.ret a).
Proof.
  intros c r c' H. apply site_ret_inv in H. destruct H as [_ ->]. reflexivity.
Qed.

Lemma site_keeps_peek {A : Type} (q : site.Conn -> A) :
  site_keeps (fun c => (inr (q c), c)).
Proof. intros c r c' H. inversion H. reflexivity. Qed.

Lemma site_keeps_raise {A : Type} (e : Exn) : site_keeps (@site.raise A e).
Proof.
  intros c r c' H. apply site_raise_inv in H. destruct H as [_ ->]. reflexivity.
Qed.

Lemma site_keeps_fetch {A : Type} (q : site.Site -> A) :
  site_keeps (site.fetch q).
Proof. intros c r c' H. apply site_fetch_inv in H. tauto. Qed.

Lemma site_keeps_execute (stmt : site.Site -> Exn + site.Site) :
  site_keeps (site.execute stmt).
Proof. intros c r c' H. apply site_execute_inv in H. tauto. Qed.

Lemma site_keeps_fetch_id {A : Type} (id : Z) (q : site.Site -> A) :
  site_keeps (site.fetch_id id q).
Proof. intros c r c' H. apply site_fetch_id_inv in H. tauto. Qed.

Lemma site_keeps_execute_id (id : Z) (stmt : site.Site -> Exn + site.Site) :
  site_keeps (site.execute_id id stmt).
Proof. intros c r c' H. apply site_execute_id_inv in H. tauto. Qed.

Lemma site_keeps_rollback : site_keeps site.rollback.
Proof. intros c r c' H. apply site_rollback_inv in H. tauto. Qed.

Lemma site_keeps_page_queries (n : nat) : site_keeps (site.page_queries n).
Proof. intros c r c' H. apply site_page_queries_inv in H. tauto. Qed.

Lemma site_keeps_subscript {A : Type} (row : option A) :
  site_keeps (site.subscript row).
Proof.
  destruct row; simpl; [apply site_keeps_ret | apply site_keeps_raise].
Qed.

Lemma site_keeps_bind {A B : Type} (m : site.Tx A) (k : A -> site.Tx B) :
  site_keeps m -> (forall a, site_keeps (k a)) -> site_keeps (site.bind m k).
Proof.
  intros Hm Hk c r c' H. apply site_bind_inv in H.
  destruct H as [(e & H & _) | (a & c1 & H1 & H2)].
  - exact (Hm _ _ _ H).
  - rewrite (Hk _ _ _ _ H2). exact (Hm _ _ _ H1).
Qed.

Lemma site_keeps_for_in {A : Type} (xs : list A) (body : A -> site.Tx unit) :
  (forall x, site_keeps (body x)) -> site_keeps (site.for_in xs body).
Proof.
  intros Hb. induction xs as [|x xs IH]; simpl.
  - apply site_keeps_ret.
  - apply site_keeps_bind; auto.
Qed.

Lemma site_safe_bind {A B : Type} (m : site.Tx A) (k : A -> site.Tx B) :
  site_keeps m -> (forall a, site_safe (k a)) -> site_safe (site.bind m k).
Proof.
  intros Hm Hk c e c' H. apply site_bind_inv in H.
  destruct H as [(e' & H & _) | (a & c1 & H1 & H2)].
  - exact (Hm _ _ _ H).
  - rewrite (Hk _ _ _ _ H2). exact (Hm _ _ _ H1).
Qed.

Lemma site_safe_commit_ret {A : Type} (a : A) :
  site_safe (site.bind site.commit (fun _ => site.ret a)).
Proof.
  intros c e c' H. apply site_bind_inv in H.
  destruct H as [(e' & H & _) | (x & c1 & _ & H2)].
  - apply site_commit_inv in H.
    destruct H as [(_ & H & _) | (H & _)]; [exact H | discriminate].
  - apply site_ret_inv in H2. destruct H2 as [H2 _]. discriminate.
Qed.

#[export] Hint Resolve site_keeps_ret site_keeps_raise site_keeps_fetch
  site_keeps_execute site_keeps_fetch_id site_keeps_execute_id
  site_keeps_rollback site_keeps_page_queries
  site_keeps_subscript site_keeps_bind site_keeps_for_in site_keeps_peek
  site_safe_commit_ret site_safe_bind : site_tx.

Lemma site_try_except_split {A : Type} (body : site.Tx A)
    (handler : Exn -> site.Tx A) (c c' : site.Conn) (r : Exn + A) :
  site_safe body -> (forall e, site_keeps (handler e)) ->
  site.try_except body handler c = (r, c') ->
  (exists a, body c = (inr a, c') /\ r = inr a)
  \/ (exists e c1, handler e c1 = (r, c')
                   /\ site.committed c' = site.committed c).
Proof.
  intros Hs Hk H. unfold site.try_except in H.
  destruct (body c) as [[e|a] c1] eqn:E.
  - right. exists e, c1. split; [exact H|].
    rewrite (Hk _ _ _ _ H). exact (Hs _ _ _ E).
  - left. exists a. inversion H; subst. auto.
Qed.

Lemma site_serve_run {A : Type} (h : site.Tx A) (fs : list bool)
    (s : site.Site) :
  exists r c', h (site.mkConn s s fs) = (r, c')
    /\ site.serve h fs s = (r, site.committed c').
Proof.
  unfold site.serve. destruct (h (site.mkConn s s fs)) as [r c'].
  exists r, c'. auto.
Qed.

(** ** Logging in *)

Lemma login_run (check : string -> string -> bool) (cu : option User)
    (email password : option string) (fs : list bool) (s : site.Site) :
  let out := site.serve (auth_bp.login check cu email password) fs s in
  snd out = s
  /\ (forall u, fst out = inr (auth_bp.LoggedIn u) ->
        exists r,
          select_user_by_email (text email) s = Some r
          /\ check (site.ur_password r) (text password) = true
          /\ site.ur_status r <> Some blacklisted
          /\ u = mkUser (site.ur_user_id r) (site.ur_role r)).
Proof.
  intros out. subst out. unfold auth_bp.login.
  destruct cu as [u0|]; [split; [reflexivity|discriminate]|].
  destruct (negb (truthy email) || negb (truthy password))%bool;
    [split; [reflexivity|discriminate]|].
  run_site. split_faults;
    try (split; [reflexivity|discriminate]);
    (destruct (select_user_by_email (text email) s) as [r|] eqn:E;
     [|split; [reflexivity|discriminate]];
     destruct (check (site.ur_password r) (text password)) eqn:Hc;
     [|split; [reflexivity|discriminate]];
     destruct (site.ur_status r) as [[|]|] eqn:Hs;
     (split; [reflexivity|]); try discriminate;
     intros u Hu; inversion Hu; exists r;
     repeat split; auto; rewrite Hs; discriminate).
Qed.

(** X14.  Logging in never writes, and whoever is logged in is a user of
    the directory: the first row with the submitted email, whose stored
    hash accepts the submitted password and whose status is not
    'blacklisted' (it is 'active' or NULL); the session carries that row's
    id and role.  In particular no password logs a blacklisted account in.
    This holds under every oracle. *)
Theorem login_is_sound :
  forall (check_password_hash : string -> string -> bool)
         (cu : option User) (email password : option string)
         (fs : list bool) (s : site.Site),
    let out :=
      site.serve (auth_bp.login check_password_hash cu email password) fs s in
    snd out = s
    /\ (forall u, fst out = inr (auth_bp.LoggedIn u) ->
          exists r,
            select_user_by_email (text email) s = Some r
            /\ check_password_hash (site.ur_password r) (text password) = true
            /\ site.ur_status r <> Some blacklisted
            /\ u = mkUser (site.ur_user_id r) (site.ur_role r))
    /\ (forall r,
          select_user_by_email (text email) s = Some r ->
          site.ur_status r = Some blacklisted ->
          forall u, fst out <> inr (auth_bp.LoggedIn u)).
Proof.
  intros check cu email password fs s out.
  destruct (login_run check cu email password fs s) as [Hsame Hsound].
  split; [exact Hsame|]. split; [exact Hsound|].
  intros r Hr Hblack u Hu.
  destruct (Hsound u Hu) as (r' & Hr' & _ & Hact & _).
  rewrite Hr in Hr'. inversion Hr'; subst r'. congruence.
Qed.

(** alice logs in. *)
Lemma login_is_sound_witness :
  exists r,
    select_user_by_email "alice@example.com" clinic_site = Some r
    /\ toy_check (site.ur_password r) "alice-pw" = true
    /\ site.ur_status r <> Some blacklisted
    /\ mkUser 20 patient = mkUser (site.ur_user_id r) (site.ur_role r).
Proof.
  exact (proj1 (proj2 (login_is_sound toy_check None
                         (Some "alice@example.com") (Some "alice-pw") []
                         clinic_site))
           (mkUser 20 patient) eq_refl).
Defined.

(** ** Registering *)

Lemma max_bound (ids : list Z) (i : Z) :
  In i ids -> i <= fold_right Z.max 0 ids.
Proof.
  induction ids as [|j ids IH]; simpl; [contradiction|].
  intros [->|Hin]; [lia|]. specialize (IH Hin). lia.
Qed.

Lemma max_nonneg (ids : list Z) : 0 <= fold_right Z.max 0 ids.
Proof. induction ids as [|j ids IH]; simpl; lia. Qed.

Lemma max_snoc (ids : list Z) (i : Z) :
  fold_right Z.max 0 ids <= i ->
  fold_right Z.max 0 (ids ++ [i]) = i.
Proof.
  induction ids as [|j ids IH]; simpl; intros H; [lia|].
  rewrite IH by lia. lia.
Qed.

Lemma lastrowid_after_insert (s : site.Site) (r : site.UserRow) :
  site.ur_user_id r = autoincrement (map site.ur_user_id (site.users s)) ->
  lastrowid_users (site.set_users s (site.users s ++ [r]))
  = site.ur_user_id r.
Proof.
  intros Hid. unfold lastrowid_users. simpl. rewrite map_app. simpl.
  apply max_snoc. rewrite Hid. unfold autoincrement. lia.
Qed.

Lemma register_body_safe (name email hash : string) (gender : option string) :
  site_safe
    (site.bind (site.execute (insert_user name email hash patient)) (fun _ =>
     site.bind (fun c => (inr (lastrowid_users (site.working c)), c))
       (fun user_id =>
     site.bind (site.execute (site.on_base (insert_patient user_id gender)))
       (fun _ =>
     site.bind site.commit (fun _ => site.ret auth_bp.Registered))))).
Proof. auto 10 with site_tx. Qed.

Lemma register_handler_keeps (e : Exn) :
  site_keeps (site.bind site.rollback
                (fun _ => site.ret (auth_bp.RegistrationFailed e))).
Proof. auto with site_tx. Qed.

(** X15.  Registration is all or nothing, under every oracle: either the
    answer is 'Registration successful! Please login.', the email was not
    registered, the gender passes its CHECK, and exactly one user row and
    one patient row were stored, the patient row carrying the new user's
    id, the user row the role patient, the status active and the salted
    hash of the password; or the answer is another one and the site is as
    it was: no user row is left behind without its patient row. *)
Theorem register_all_or_nothing :
  forall (generate_password_hash : string -> string -> string)
         (salt : string) (cu : option User) (form : auth_bp.RegisterForm)
         (fs : list bool) (s : site.Site),
    let out :=
      site.serve (auth_bp.register generate_password_hash salt cu form) fs s in
    (fst out = inr auth_bp.Registered
     /\ select_user_by_email (text (auth_bp.f_email form)) s = None
     /\ check_gender (auth_bp.f_gender form) = true
     /\ let uid := autoincrement (map site.ur_user_id (site.users s)) in
        snd out =
        site.mkSite
          (site.users s ++
           [site.mkUserRow uid (text (auth_bp.f_name form))
              (text (auth_bp.f_email form))
              (generate_password_hash salt (text (auth_bp.f_password form)))
              patient (Some active)])
          (set_patients (site.base s)
             (patients (site.base s) ++
              [mkPatient
                 (autoincrement (map pat_patient_id (patients (site.base s))))
                 uid active])))
    \/ (fst out <> inr auth_bp.Registered /\ snd out = s).
Proof.
  intros gen salt cu form fs s out.
  destruct (site_serve_run (auth_bp.register gen salt cu form) fs s)
    as (r & c' & Hrun & Hserve).
  subst out. rewrite Hserve. simpl. clear Hserve.
  unfold auth_bp.register in Hrun.
  destruct cu as [u0|];
    [inv_site; subst; right; split; [discriminate|reflexivity]|].
  destruct (negb _);
    [inv_site; subst; right; split; [discriminate|reflexivity]|].
  destruct (negb _);
    [inv_site; subst; right; split; [discriminate|reflexivity]|].
  destruct (Nat.ltb _ 6);
    [inv_site; subst; right; split; [discriminate|reflexivity]|].
  apply site_bind_inv in Hrun.
  destruct Hrun as [(e & Hf & ->) | (existing & c1 & Hf & Hrun)].
  { apply site_fetch_inv in Hf. destruct Hf as (Hc & _ & _).
    right. split; [discriminate|exact Hc]. }
  apply site_fetch_inv in Hf. destruct Hf as (Hc1 & Hw1 & Hex). simpl in *.
  destruct existing as [x|].
  { inv_site; subst. right. split; [discriminate|reflexivity]. }
  destruct Hex as [Hex|Hex]; [|discriminate]. inversion Hex as [Hnone].
  symmetry in Hnone.
  apply site_try_except_split in Hrun;
    [|apply register_body_safe|apply register_handler_keeps].
  destruct Hrun as [(a & Hbody & ->) | (e & c2 & Hh & Hc2)].
  2:{ right. split; [|congruence]. inv_site; subst; discriminate. }
  left. inv_site; subst; try discriminate.
  rewrite Hw1 in *. unfold insert_user in *.
  destruct (existsb _ (site.users (site.committed c1))); [discriminate|].
  match goal with H : inr _ = inr (site.working _) |- _ =>
    inversion H as [Hw0]; clear H end.
  match goal with H : site.on_base _ _ = _ |- _ =>
    rewrite <- Hw0 in H; rewrite lastrowid_after_insert in H by reflexivity;
    unfold site.on_base, insert_patient in H; simpl in H;
    destruct (existsb _ (patients (site.base (site.committed c1))));
    simpl in H; [discriminate|];
    destruct (check_gender (auth_bp.f_gender form)); simpl in H;
    [|discriminate]; inversion H as [Hw2] end.
  repeat split.
  match goal with H : site.committed _ = site.working _ |- _ => rewrite H end.
  rewrite <- Hw2. reflexivity.
Qed.

Lemma register_ok (gen : string -> string -> string) (salt : string)
    (form : auth_bp.RegisterForm) (s : site.Site) :
  (truthy (auth_bp.f_name form) && truthy (auth_bp.f_email form)
   && truthy (auth_bp.f_password form)
   && truthy (auth_bp.f_confirm_password form))%bool = true ->
  text (auth_bp.f_password form) = text (auth_bp.f_confirm_password form) ->
  (6 <= String.length (text (auth_bp.f_password form)))%nat ->
  select_user_by_email (text (auth_bp.f_email form)) s = None ->
  check_gender (auth_bp.f_gender form) = true ->
  existsb (fun p => Z.eqb (pat_user_id p)
                      (autoincrement (map site.ur_user_id (site.users s))))
    (patients (site.base s)) = false ->
  site.serve (auth_bp.register gen salt None form) [] s
  = (inr auth_bp.Registered,
     site.mkSite
       (site.users s ++
        [site.mkUserRow (autoincrement (map site.ur_user_id (site.users s)))
           (text (auth_bp.f_name form)) (text (auth_bp.f_email form))
           (gen salt (text (auth_bp.f_password form))) patient (Some active)])
       (set_patients (site.base s)
          (patients (site.base s) ++
           [mkPatient
              (autoincrement (map pat_patient_id (patients (site.base s))))
              (autoincrement (map site.ur_user_id (site.users s)))
              active]))).
Proof.
  intros Hform Hsame Hlen Hnew Hgender Hfree.
  unfold auth_bp.register. rewrite Hform. simpl negb. cbv iota.
  rewrite <- Hsame, String.eqb_refl. simpl negb. cbv iota.
  replace (Nat.ltb _ 6) with false
    by (symmetry; apply Nat.ltb_ge; exact Hlen).
  unfold site.serve, site.bind at 1, site.fetch, site.bind at 1,
    site.storage_call. simpl. rewrite Hnew.
  unfold site.try_except, site.bind at 1, site.execute, site.bind at 1,
    site.storage_call. simpl.
  unfold insert_user at 1.
  rewrite (find_none_existsb _ _ Hnew).
  cbv [site.bind site.ret site.commit site.storage_call site.faults
       site.working site.committed].
  rewrite lastrowid_after_insert by reflexivity.
  unfold site.on_base, insert_patient. simpl site.base.
  simpl site.ur_user_id. rewrite Hfree, Hgender. reflexivity.
Qed.

Lemma find_fresh_id {A : Type} (key : A -> Z) (l : list A) :
  find (fun x => Z.eqb (key x) (autoincrement (map key l))) l = None.
Proof.
  destruct (find _ l) as [x|] eqn:E; [|reflexivity].
  apply find_some in E. destruct E as [Hin Heq]. apply Z.eqb_eq in Heq.
  exfalso. exact (autoincrement_fresh _ _ (in_map key _ _ Hin) Heq).
Qed.

Lemma login_ok (check : string -> string -> bool) (email password : option string)
    (s : site.Site) (r : site.UserRow) :
  truthy email = true -> truthy password = true ->
  select_user_by_email (text email) s = Some r ->
  check (site.ur_password r) (text password) = true ->
  site.ur_status r <> Some blacklisted ->
  site.serve (auth_bp.login check None email password) [] s
  = (inr (auth_bp.LoggedIn (mkUser (site.ur_user_id r) (site.ur_role r))), s).
Proof.
  intros He Hp Hr Hc Hs. unfold auth_bp.login. rewrite He, Hp. simpl.
  run_site. rewrite Hr, Hc.
  destruct (site.ur_status r) as [[|]|]; try reflexivity.
  contradiction Hs. reflexivity.
Qed.

(** X16.  Registering and then logging in: without storage failure, a
    complete form with a new email, a password of six characters or more
    typed twice and a listed gender is registered; the same email and
    password then log in as a patient under the new user id, the session
    loader finds that user, and the patient routes find the patient row
    made with it.  Werkzeug's contract is assumed for the submitted
    password only; every patient row is assumed to belong to a user. *)
Theorem register_then_login :
  forall (generate_password_hash : string -> string -> string)
         (check_password_hash : string -> string -> bool)
         (salt : string) (form : auth_bp.RegisterForm) (s : site.Site),
    check_password_hash
      (generate_password_hash salt (text (auth_bp.f_password form)))
      (text (auth_bp.f_password form)) = true ->
    (truthy (auth_bp.f_name form) && truthy (auth_bp.f_email form)
     && truthy (auth_bp.f_password form)
     && truthy (auth_bp.f_confirm_password form))%bool = true ->
    text (auth_bp.f_password form) = text (auth_bp.f_confirm_password form) ->
    (6 <= String.length (text (auth_bp.f_password form)))%nat ->
    select_user_by_email (text (auth_bp.f_email form)) s = None ->
    check_gender (auth_bp.f_gender form) = true ->
    (forall p, In p (patients (site.base s)) ->
       exists r, In r (site.users s) /\ site.ur_user_id r = pat_user_id p) ->
    let out :=
      site.serve (auth_bp.register generate_password_hash salt None form)
        [] s in
    let uid := autoincrement (map site.ur_user_id (site.users s)) in
    fst out = inr auth_bp.Registered
    /\ site.serve
         (auth_bp.login check_password_hash None (auth_bp.f_email form)
            (auth_bp.f_password form)) [] (snd out)
       = (inr (auth_bp.LoggedIn (mkUser uid patient)), snd out)
    /\ app.load_user uid (snd out) = Some (mkUser uid patient)
    /\ select_patient uid (site.base (snd out))
       = Some (mkPatient
                 (autoincrement (map pat_patient_id (patients (site.base s))))
                 uid active).
Proof.
  intros gen check salt form s Hhash Hform Hsame Hlen Hnew Hgender Hdir out uid.
  assert (Hnone : find (fun p => Z.eqb (pat_user_id p) uid)
                    (patients (site.base s)) = None).
  { destruct (find _ _) as [p|] eqn:E; [|reflexivity].
    apply find_some in E. destruct E as [Hin Heq]. apply Z.eqb_eq in Heq.
    destruct (Hdir p Hin) as (r & Hr & Hid). exfalso.
    apply (autoincrement_fresh (map site.ur_user_id (site.users s))
             (site.ur_user_id r)); [apply in_map; exact Hr|].
    rewrite Hid. exact Heq. }
  subst out.
  rewrite (register_ok gen salt form s Hform Hsame Hlen Hnew Hgender
             (find_none_existsb _ _ Hnone)).
  simpl fst. simpl snd.
  apply andb_prop in Hform. destruct Hform as [Hform Hconfirm].
  apply andb_prop in Hform. destruct Hform as [Hform Hpw].
  apply andb_prop in Hform. destruct Hform as [Hname Hemail].
  split; [reflexivity|]. split; [|split].
  - apply (login_ok check (auth_bp.f_email form) (auth_bp.f_password form) _
             (site.mkUserRow uid (text (auth_bp.f_name form))
                (text (auth_bp.f_email form))
                (gen salt (text (auth_bp.f_password form))) patient (Some active)));
      try assumption; try reflexivity; try discriminate.
    unfold select_user_by_email. simpl.
    apply find_snoc_some; [exact Hnew|]. simpl. apply String.eqb_refl.
  - unfold app.load_user. simpl. unfold uid.
    rewrite (find_snoc_some _ _ _ (find_fresh_id site.ur_user_id _));
      [reflexivity|]. simpl. apply Z.eqb_refl.
  - unfold select_patient. simpl.
    apply find_snoc_some; [exact Hnone|]. simpl. apply Z.eqb_refl.
Qed.

Lemma register_then_login_witness :
  let form :=
    auth_bp.mkRegisterForm (Some "Carol") (Some "carol@example.com")
      (Some "carol-pw") (Some "carol-pw") (Some "Female") in
  let out := site.serve (auth_bp.register toy_hash "s" None form) [] clinic_site in
  fst out = inr auth_bp.Registered
  /\ site.serve
       (auth_bp.login toy_check None (Some "carol@example.com")
          (Some "carol-pw")) [] (snd out)
     = (inr (auth_bp.LoggedIn (mkUser 22 patient)), snd out)
  /\ app.load_user 22 (snd out) = Some (mkUser 22 patient)
  /\ select_patient 22 (site.base (snd out)) = Some (mkPatient 3 22 active).
Proof.
  apply (register_then_login toy_hash toy_check "s"
           (auth_bp.mkRegisterForm (Some "Carol") (Some "carol@example.com")
              (Some "carol-pw") (Some "carol-pw") (Some "Female"))
           clinic_site);
    try reflexivity.
  - simpl. lia.
  - intros p [<-|[<-|[]]]; eexists.
    + split; [do 3 right; left; reflexivity|reflexivity].
    + split; [do 4 right; left; reflexivity|reflexivity].
Defined.

(** ** Blacklisting *)





Lemma delete_patient_ok (u : User) (id : Z) (p : PatientRow) (s : site.Site) :
  role u = admin ->
  int64 id = true ->
  admin_directory.select_patient_by_id id s = Some p ->
  exists s1 db2,
    blacklist_user (pat_user_id p) s = inr s1
    /\ blacklist_patient id (site.base s) = inr db2
    /\ site.serve (admin_directory.delete_patient (Some u) id) [] s
       = (inr admin_directory.PatientBlacklisted, site.set_base s1 db2).
Proof.
  intros Hrole Hid Hp. eexists. eexists. split; [reflexivity|].
  split; [reflexivity|].
  unfold admin_directory.delete_patient, admin_directory.admin_required.
  rewrite Hrole. simpl role_eqb. cbv iota. run_site. rewrite Hid. run_site.
  rewrite Hp. reflexivity.
Qed.

Lemma select_after_blacklist (email : string) (uid : Z) (s s1 : site.Site) :
  blacklist_user uid s = inr s1 ->
  forall r1, select_user_by_email email s1 = Some r1 ->
  exists r, select_user_by_email email s = Some r
            /\ site.ur_user_id r1 = site.ur_user_id r
            /\ (site.ur_user_id r = uid -> site.ur_status r1 = Some blacklisted).
Proof.
  unfold blacklist_user, select_user_by_email. intros H. inversion H. simpl.
  clear. induction (site.users s) as [|x l IH]; simpl; intros r1 Hr1;
    [discriminate|].
  destruct (Z.eqb (site.ur_user_id x) uid) eqn:Hx; simpl in Hr1;
    destruct (String.eqb (site.ur_email x) email) eqn:He.
  - inversion Hr1; subst. exists x. simpl. auto.
  - apply IH. exact Hr1.
  - inversion Hr1; subst. exists r1. split; [reflexivity|].
    split; [reflexivity|]. intros Huid. apply Z.eqb_neq in Hx. contradiction.
  - apply IH. exact Hr1.
Qed.

Lemma load_user_after_blacklist (uid uid' : Z) (s s1 : site.Site) :
  blacklist_user uid s = inr s1 ->
  app.load_user uid' s1 = app.load_user uid' s.
Proof.
  unfold blacklist_user, app.load_user. intros H. inversion H. simpl. clear.
  induction (site.users s) as [|x l IH]; simpl; [reflexivity|].
  destruct (Z.eqb (site.ur_user_id x) uid); simpl;
    destruct (Z.eqb (site.ur_user_id x) uid'); auto.
Qed.

(** X18.  Blacklisting a patient closes the front door only.  After the
    administrator's request for a stored patient row (whose identifier,
    being stored, fits 64 bits), served without storage failure, no
    password logs the account in, under any oracle; but the session loader,
    which does not read the status column, answers for every user id as
    before, so a session opened earlier goes on; and appointments,
    availability windows and treatments are as they were. *)
Theorem blacklisting_ends_logins_not_sessions :
  forall (u : User) (patient_id : Z) (p : PatientRow) (r : site.UserRow)
         (email : option string) (s : site.Site),
    role u = admin ->
    int64 patient_id = true ->
    admin_directory.select_patient_by_id patient_id s = Some p ->
    select_user_by_email (text email) s = Some r ->
    site.ur_user_id r = pat_user_id p ->
    let out := site.serve (admin_directory.delete_patient (Some u) patient_id)
                 [] s in
    fst out = inr admin_directory.PatientBlacklisted
    /\ (forall check_password_hash password fs v,
          fst (site.serve
                 (auth_bp.login check_password_hash None email password)
                 fs (snd out))
          <> inr (auth_bp.LoggedIn v))
    /\ (forall uid, app.load_user uid (snd out) = app.load_user uid s)
    /\ appointments (site.base (snd out)) = appointments (site.base s)
    /\ doctor_availability (site.base (snd out))
       = doctor_availability (site.base s)
    /\ treatments (site.base (snd out)) = treatments (site.base s).
Proof.
  intros u id p r email s Hrole Hfits Hp Hr Hid out.
  destruct (delete_patient_ok u id p s Hrole Hfits Hp)
    as (s1 & db2 & Hs1 & Hdb2 & Hrun).
  subst out. rewrite Hrun. simpl fst. simpl snd.
  split; [reflexivity|]. split; [|split].
  - intros check password fs v Hv.
    destruct (login_run check None email password fs (site.set_base s1 db2))
      as [_ Hsound].
    destruct (Hsound v Hv) as (r1 & Hr1 & _ & Hact & _).
    destruct (select_after_blacklist (text email) _ s s1 Hs1 r1 Hr1)
      as (r0 & Hr0 & _ & Hblack).
    rewrite Hr in Hr0. inversion Hr0; subst r0.
    exact (Hact (Hblack Hid)).
  - intros uid. exact (load_user_after_blacklist _ uid s s1 Hs1).
  - unfold blacklist_patient in Hdb2. inversion Hdb2. simpl. auto.
Qed.

(** root blacklists alice. *)
Lemma blacklisting_ends_logins_not_sessions_witness :
  let out := site.serve (admin_directory.delete_patient (Some root) 1) []
               clinic_site in
  fst out = inr admin_directory.PatientBlacklisted
  /\ (forall check_password_hash password fs v,
        fst (site.serve
               (auth_bp.login check_password_hash None
                  (Some "alice@example.com") password)
               fs (snd out))
        <> inr (auth_bp.LoggedIn v))
  /\ (forall uid, app.load_user uid (snd out) = app.load_user uid clinic_site)
  /\ appointments (site.base (snd out)) = appointments (site.base clinic_site)
  /\ doctor_availability (site.base (snd out))
     = doctor_availability (site.base clinic_site)
  /\ treatments (site.base (snd out)) = treatments (site.base clinic_site).
Proof.
  exact (blacklisting_ends_logins_not_sessions root 1 (mkPatient 1 20 active)
           (site.mkUserRow 20 "Alice" "alice@example.com" "s$alice-pw"
              patient (Some active))
           (Some "alice@example.com") clinic_site
           eq_refl eq_refl eq_refl eq_refl eq_refl).
Defined.
(** ** Adding a doctor *)

Lemma appends_windows_nil (s : site.Site) : appends_windows s s [].
Proof.
  split; [reflexivity|]. exists []. rewrite app_nil_r.
  split; [|reflexivity]. destruct s as [us db]. destruct db. reflexivity.
Qed.

Lemma appends_windows_trans (s1 s2 s3 : site.Site)
    (l1 l2 : list (Z * Value * Value * Value * bool)) :
  appends_windows s1 s2 l1 -> appends_windows s2 s3 l2 ->
  appends_windows s1 s3 (l1 ++ l2).
Proof.
  intros (Hu1 & ws1 & Hb1 & Hc1) (Hu2 & ws2 & Hb2 & Hc2).
  split; [congruence|]. exists (ws1 ++ ws2).
  rewrite map_app, Hc1, Hc2. split; [|reflexivity].
  rewrite Hb2, Hb1. simpl. rewrite app_assoc. reflexivity.
Qed.

Lemma insert_window_appends (numeric : string -> option Number) (d : Z)
    (date start stop : string) (open : bool) (s s' : site.Site) :
  site.on_base (doctor_bp.insert_window numeric d date start stop open) s
  = inr s' ->
  appends_windows s s'
    [(d, numeric_affinity numeric date, numeric_affinity numeric start,
      numeric_affinity numeric stop, open)].
Proof.
  unfold site.on_base, doctor_bp.insert_window.
  destruct (existsb _ _); [discriminate|]. intros H. inversion H.
  split; [reflexivity|]. eexists. split; reflexivity.
Qed.

Lemma for_in_appends {A : Type} (body : A -> site.Tx unit)
    (g : A -> list (Z * Value * Value * Value * bool)) :
  (forall x c c', body x c = (inr tt, c') ->
     site.committed c' = site.committed c
     /\ appends_windows (site.working c) (site.working c') (g x)) ->
  forall xs c c',
    site.for_in xs body c = (inr tt, c') ->
    site.committed c' = site.committed c
    /\ appends_windows (site.working c) (site.working c') (flat_map g xs).
Proof.
  intros Hbody. induction xs as [|x xs IH]; simpl; intros c c' H.
  - apply site_ret_inv in H. destruct H as [_ ->].
    split; [reflexivity|apply appends_windows_nil].
  - apply site_bind_inv in H.
    destruct H as [(e & _ & He) | ([] & c1 & H1 & H2)]; [discriminate|].
    apply Hbody in H1. apply IH in H2.
    destruct H1 as [Hc1 Ha1]. destruct H2 as [Hc2 Ha2].
    split; [congruence|]. exact (appends_windows_trans _ _ _ _ _ Ha1 Ha2).
Qed.

Lemma default_windows_run (numeric : string -> option Number) (d : Z)
    (day : nat -> string) (c c' : site.Conn) :
  site.for_in (seq 0 7) (fun i =>
    site.for_in admin_directory.time_slots (fun slot =>
      site.execute
        (site.on_base
           (doctor_bp.insert_window numeric d (day i) (fst slot) (snd slot)
              true))))
    c = (inr tt, c') ->
  site.committed c' = site.committed c
  /\ appends_windows (site.working c) (site.working c')
       (default_windows numeric d day).
Proof.
  intros H.
  apply (for_in_appends _
           (fun i => flat_map
                       (fun slot => [(d, numeric_affinity numeric (day i),
                                      numeric_affinity numeric (fst slot),
                                      numeric_affinity numeric (snd slot),
                                      true)])
                       admin_directory.time_slots)) in H.
  - exact H.
  - intros i c0 c1 Hi.
    apply (for_in_appends _
             (fun slot => [(d, numeric_affinity numeric (day i),
                            numeric_affinity numeric (fst slot),
                            numeric_affinity numeric (snd slot), true)]))
      in Hi;
      [exact Hi|].
    intros slot c2 c3 Hs. apply site_execute_inv in Hs.
    destruct Hs as (Hc & [(e & He & _) | (_ & Hs)]); [discriminate|].
    split; [exact Hc|]. apply insert_window_appends. exact Hs.
Qed.

Lemma add_doctor_body_safe (numeric : string -> option Number)
    (name email hash : string) (day : nat -> string) :
  site_safe
    (site.bind (site.execute (insert_user name email hash doctor)) (fun _ =>
     site.bind (fun c => (inr (lastrowid_users (site.working c)), c))
       (fun user_id =>
     site.bind (site.execute (site.on_base (insert_doctor user_id))) (fun _ =>
     site.bind (fun c => (inr user_id, c)) (fun doctor_id =>
     site.bind
       (site.for_in (seq 0 7) (fun i =>
          site.for_in admin_directory.time_slots (fun slot =>
            site.execute
              (site.on_base
                 (doctor_bp.insert_window numeric doctor_id (day i)
                    (fst slot) (snd slot) true)))))
       (fun _ =>
     site.bind site.commit
       (fun _ => site.ret admin_directory.DoctorAdded))))))).
Proof.
  apply site_safe_bind; [auto with site_tx|]. intros _.
  apply site_safe_bind; [apply site_keeps_peek|]. intros user_id.
  apply site_safe_bind; [auto with site_tx|]. intros _.
  apply site_safe_bind; [apply (site_keeps_peek (fun _ => user_id))|].
  intros doctor_id.
  apply site_safe_bind; [|intros _; apply site_safe_commit_ret].
  apply site_keeps_for_in. intros i. apply site_keeps_for_in. intros slot.
  apply site_keeps_execute.
Qed.

Lemma add_doctor_handler_keeps (e : Exn) :
  site_keeps (site.bind site.rollback (fun _ =>
              site.bind (site.page_queries 1) (fun _ =>
              site.ret (admin_directory.ErrorAdding e)))).
Proof. auto with site_tx. Qed.

(** The try block of [admin_directory.add_doctor], run to its end. *)
Lemma add_doctor_body_run (numeric : string -> option Number)
    (gen : string -> string -> string) (salt : string)
    (day : nat -> string) (form : admin_directory.DoctorForm)
    (s : site.Site) (c c' : site.Conn) (a : admin_directory.Outcome) :
  site.working c = s ->
  (site.bind
       (site.execute
          (insert_user (text (admin_directory.f_name form))
             (text (admin_directory.f_email form))
             (gen salt (text (admin_directory.f_password form))) doctor))
       (fun _ =>
     site.bind (fun c => (inr (lastrowid_users (site.working c)), c))
       (fun user_id =>
     site.bind (site.execute (site.on_base (insert_doctor user_id))) (fun _ =>
     site.bind (fun c => (inr user_id, c)) (fun doctor_id =>
     site.bind
       (site.for_in (seq 0 7) (fun i =>
          site.for_in admin_directory.time_slots (fun slot =>
            site.execute
              (site.on_base
                 (doctor_bp.insert_window numeric doctor_id (day i)
                    (fst slot) (snd slot) true)))))
       (fun _ =>
     site.bind site.commit
       (fun _ => site.ret admin_directory.DoctorAdded))))))) c = (inr a, c') ->
  let uid := autoincrement (map site.ur_user_id (site.users s)) in
  a = admin_directory.DoctorAdded
  /\ (site.users (site.committed c')
       = site.users s ++
         [site.mkUserRow uid (text (admin_directory.f_name form))
            (text (admin_directory.f_email form))
            (gen salt (text (admin_directory.f_password form)))
            doctor (Some active)]
       /\ doctors (site.base (site.committed c'))
          = doctors (site.base s) ++
            [mkDoctor
               (autoincrement (map doc_doctor_id (doctors (site.base s))))
               uid active]
       /\ (exists ws,
             doctor_availability (site.base (site.committed c'))
             = doctor_availability (site.base s) ++ ws
             /\ map window_columns ws = default_windows numeric uid day)
       /\ patients (site.base (site.committed c')) = patients (site.base s)
       /\ appointments (site.base (site.committed c')) = appointments (site.base s)
       /\ treatments (site.base (site.committed c')) = treatments (site.base s)).
Proof.
  intros Hw1 Hbody uid.
  apply site_bind_inv in Hbody.
  destruct Hbody as [(e & _ & He) | ([] & c2 & Hu & Hbody)]; [discriminate|].
  apply site_execute_inv in Hu.
  destruct Hu as (Hc2 & [(e & He & _) | (_ & Hu)]); [discriminate|].
  rewrite Hw1 in Hu. unfold insert_user in Hu.
  destruct (existsb _ (site.users s)); [discriminate|].
  injection Hu as Hw2.
  apply site_bind_inv in Hbody.
  destruct Hbody as [(e & _ & He) | (user_id & c3 & Hid & Hbody)];
    [discriminate|].
  injection Hid as <- <-. rewrite <- Hw2 in Hbody.
  rewrite lastrowid_after_insert in Hbody by reflexivity.
  simpl site.ur_user_id in Hbody. fold uid in Hbody, Hw2.
  apply site_bind_inv in Hbody.
  destruct Hbody as [(e & _ & He) | ([] & c4 & Hd & Hbody)]; [discriminate|].
  apply site_execute_inv in Hd.
  destruct Hd as (Hc4 & [(e & He & _) | (_ & Hd)]); [discriminate|].
  rewrite <- Hw2 in Hd. unfold site.on_base, insert_doctor in Hd.
  simpl site.base in Hd.
  destruct (existsb _ (doctors (site.base s))); [discriminate|].
  injection Hd as Hw4.
  apply site_bind_inv in Hbody.
  destruct Hbody as [(e & _ & He) | (doctor_id & c5 & Hid & Hbody)];
    [discriminate|].
  injection Hid as <- <-.
  apply site_bind_inv in Hbody.
  destruct Hbody as [(e & _ & He) | ([] & c6 & Hloop & Hbody)];
    [discriminate|].
  apply default_windows_run in Hloop.
  destruct Hloop as (Hc6 & Hus & ws & Hb6 & Hcols).
  apply site_bind_inv in Hbody.
  destruct Hbody as [(e & _ & He) | ([] & c7 & Hcommit & Hbody)];
    [discriminate|].
  apply site_commit_inv in Hcommit.
  destruct Hcommit as [(He & _) | (_ & Hc7 & _)]; [discriminate|].
  apply site_ret_inv in Hbody. destruct Hbody as [Ha ->].
  split; [congruence|].
  rewrite Hc7. rewrite Hus, Hb6, <- Hw4. simpl.
  repeat split. exists ws. split; [reflexivity|exact Hcols].
Qed.

(** A request to add a doctor either runs the try block to its end, or
    stores nothing. *)
Lemma add_doctor_cases (numeric : string -> option Number)
    (gen : string -> string -> string) (salt : string)
    (day : nat -> string) (u : User) (form : admin_directory.DoctorForm)
    (fs : list bool) (s : site.Site) :
  role u = admin ->
  let out :=
    site.serve (admin_directory.add_doctor numeric gen salt day (Some u) form) fs s in
  (exists c c',
     site.working c = s
     /\ (site.bind
       (site.execute
          (insert_user (text (admin_directory.f_name form))
             (text (admin_directory.f_email form))
             (gen salt (text (admin_directory.f_password form))) doctor))
       (fun _ =>
     site.bind (fun c => (inr (lastrowid_users (site.working c)), c))
       (fun user_id =>
     site.bind (site.execute (site.on_base (insert_doctor user_id))) (fun _ =>
     site.bind (fun c => (inr user_id, c)) (fun doctor_id =>
     site.bind
       (site.for_in (seq 0 7) (fun i =>
          site.for_in admin_directory.time_slots (fun slot =>
            site.execute
              (site.on_base
                 (doctor_bp.insert_window numeric doctor_id (day i)
                    (fst slot) (snd slot) true)))))
       (fun _ =>
     site.bind site.commit
       (fun _ => site.ret admin_directory.DoctorAdded))))))) c = (inr admin_directory.DoctorAdded, c')
     /\ out = (inr admin_directory.DoctorAdded, site.committed c'))
  \/ (fst out <> inr admin_directory.DoctorAdded /\ snd out = s).
Proof.
  intros Hrole out.
  destruct (site_serve_run
              (admin_directory.add_doctor numeric gen salt day (Some u) form) fs s)
    as (r & c' & Hrun & Hserve).
  subst out. rewrite Hserve. simpl fst. simpl snd. clear Hserve.
  unfold admin_directory.add_doctor, admin_directory.admin_required in Hrun.
  rewrite Hrole in Hrun.
  change (role_eqb admin admin) with true in Hrun. cbv iota in Hrun.
  destruct (negb _).
  { assert (Hk : site_keeps
              (site.bind (site.page_queries 1)
                 (fun _ => site.ret admin_directory.FillRequired)))
      by auto with site_tx.
    right. split; [|exact (Hk _ _ _ Hrun)].
    intros ->. inv_site; discriminate. }
  apply site_bind_inv in Hrun.
  destruct Hrun as [(e & Hf & ->) | (existing & c1 & Hf & Hrun)].
  { apply site_fetch_inv in Hf. destruct Hf as (Hc & _ & _).
    right. split; [discriminate|exact Hc]. }
  apply site_fetch_inv in Hf. destruct Hf as (Hc1 & Hw1 & Hex).
  simpl in Hc1, Hw1, Hex.
  destruct existing as [x|].
  { assert (Hk : site_keeps
              (site.bind (site.page_queries 1)
                 (fun _ => site.ret admin_directory.EmailExists)))
      by auto with site_tx.
    right. split; [|rewrite (Hk _ _ _ Hrun); exact Hc1].
    intros ->. inv_site; discriminate. }
  apply site_try_except_split in Hrun;
    [|apply add_doctor_body_safe|apply add_doctor_handler_keeps].
  destruct Hrun as [(a & Hbody & ->) | (e & c2 & Hh & Hc2)].
  - left. exists c1, c'.
    destruct (add_doctor_body_run numeric gen salt day form s c1 c' a Hw1 Hbody)
      as [-> _].
    split; [exact Hw1|]. split; [exact Hbody|reflexivity].
  - right. split; [|congruence]. intros ->. inv_site; discriminate.
Qed.

(** X19.  Adding a doctor, under every oracle, for an administrator.  When
    the answer is 'Doctor added successfully!' one user row with the role
    doctor and one doctor row are stored, and fourteen open windows, two on
    each of seven days; other tables are untouched.  The windows do not
    carry the id of the new doctor row: the value read for doctor_id is
    the lastrowid of the cursor of the INSERT INTO users, so they are filed
    under the new user's id.  With any other answer nothing is stored. *)
Theorem add_doctor_windows_under_user_id :
  forall (numeric : string -> option Number)
         (generate_password_hash : string -> string -> string)
         (salt : string) (day : nat -> string) (u : User)
         (form : admin_directory.DoctorForm) (fs : list bool)
         (s : site.Site),
    role u = admin ->
    let out :=
      site.serve
        (admin_directory.add_doctor numeric generate_password_hash salt day
           (Some u) form) fs s in
    let uid := autoincrement (map site.ur_user_id (site.users s)) in
    (fst out = inr admin_directory.DoctorAdded ->
     site.users (snd out)
     = site.users s ++
       [site.mkUserRow uid (text (admin_directory.f_name form))
          (text (admin_directory.f_email form))
          (generate_password_hash salt
             (text (admin_directory.f_password form)))
          doctor (Some active)]
     /\ doctors (site.base (snd out))
        = doctors (site.base s) ++
          [mkDoctor (autoincrement (map doc_doctor_id (doctors (site.base s))))
             uid active]
     /\ (exists ws,
           doctor_availability (site.base (snd out))
           = doctor_availability (site.base s) ++ ws
           /\ map window_columns ws = default_windows numeric uid day)
     /\ patients (site.base (snd out)) = patients (site.base s)
     /\ appointments (site.base (snd out)) = appointments (site.base s)
     /\ treatments (site.base (snd out)) = treatments (site.base s))
    /\ (fst out <> inr admin_directory.DoctorAdded -> snd out = s).
Proof.
  intros numeric gen salt day u form fs s Hrole out uid. subst out.
  destruct (add_doctor_cases numeric gen salt day u form fs s Hrole)
    as [(c & c' & Hw & Hbody & Hout) | (Hne & Hsame)].
  - rewrite Hout. simpl fst. simpl snd.
    split; [intros _ | intros Hne; contradiction].
    exact (proj2 (add_doctor_body_run numeric gen salt day form s c c' _ Hw Hbody)).
  - split; [intros Hadded; contradiction | intros _; exact Hsame].
Qed.

(** root adds Dr. Adams on 1 June: her user id is 22, her doctor id 3, and
    her windows are filed under 22. *)
Lemma add_doctor_windows_under_user_id_witness :
  let out :=
    site.serve
      (admin_directory.add_doctor plain_numeric toy_hash "s" june (Some root)
         (admin_directory.mkDoctorForm (Some "Dr. Ann Adams")
            (Some "ann.adams@hospital.com") (Some "doctor123")
            (Some "Neurology"))) [] clinic_site in
  site.users (snd out)
  = site.users clinic_site ++
    [site.mkUserRow 22 "Dr. Ann Adams" "ann.adams@hospital.com"
       "s$doctor123" doctor (Some active)]
  /\ doctors (site.base (snd out))
     = doctors (site.base clinic_site) ++ [mkDoctor 3 22 active]
  /\ (exists ws,
        doctor_availability (site.base (snd out))
        = doctor_availability (site.base clinic_site) ++ ws
        /\ map window_columns ws = default_windows plain_numeric 22 june)
  /\ patients (site.base (snd out)) = patients (site.base clinic_site)
  /\ appointments (site.base (snd out))
     = appointments (site.base clinic_site)
  /\ treatments (site.base (snd out)) = treatments (site.base clinic_site).
Proof.
  exact (proj1 (add_doctor_windows_under_user_id plain_numeric toy_hash "s" june root
                  (admin_directory.mkDoctorForm (Some "Dr. Ann Adams")
                     (Some "ann.adams@hospital.com") (Some "doctor123")
                     (Some "Neurology")) [] clinic_site eq_refl)
           eq_refl).
Defined.

Lemma default_windows_doctor (numeric : string -> option Number) (d : Z)
    (day : nat -> string) (ws : list Availability) (w : Availability) :
  map window_columns ws = default_windows numeric d day ->
  In w ws -> av_doctor_id w = d.
Proof.
  intros Hcols Hin. apply (in_map window_columns) in Hin.
  rewrite Hcols in Hin. unfold default_windows in Hin.
  apply in_flat_map in Hin. destruct Hin as (i & _ & Hin).
  apply in_map_iff in Hin. destruct Hin as (slot & Heq & _).
  unfold window_columns in Heq. congruence.
Qed.

(** X20.  A doctor who was just added cannot be booked.  When the new
    user's id differs from the new doctor's id and the ledger held no
    window under the latter, no request for the new doctor is answered
    'Appointment booked!', whoever asks, for whatever date and time, under
    any oracle: the default windows are filed under the user's
    id, so the availability check finds none for the doctor. *)
Theorem new_doctor_is_not_bookable :
  forall (numeric : string -> option Number)
         (sql_time : Value -> option string)
         (generate_password_hash : string -> string -> string)
         (salt : string) (day : nat -> string) (u : User)
         (form : admin_directory.DoctorForm) (fs : list bool)
         (s : site.Site) (cu : option User) (booking : patient_bp.BookingForm)
         (today now : string) (fs' : list bool),
    role u = admin ->
    let out :=
      site.serve
        (admin_directory.add_doctor numeric generate_password_hash salt day
           (Some u) form) fs s in
    let doctor_id := autoincrement (map doc_doctor_id (doctors (site.base s))) in
    fst out = inr admin_directory.DoctorAdded ->
    autoincrement (map site.ur_user_id (site.users s)) <> doctor_id ->
    (forall w, In w (doctor_availability (site.base s)) ->
               av_doctor_id w <> doctor_id) ->
    patient_bp.f_doctor_id booking = Some doctor_id ->
    In (mkDoctor doctor_id (autoincrement (map site.ur_user_id (site.users s)))
          active)
       (doctors (site.base (snd out)))
    /\ fst (serve (patient_bp.book_appointment numeric sql_time cu booking
                     today now)
              fs' (site.base (snd out)))
       <> Flashed AppointmentBooked.
Proof.
  intros numeric sql_time gen salt day u form fs s cu booking today now fs'
    Hrole
    out did Hadded Hne Hold Hdoc.
  destruct (add_doctor_cases numeric gen salt day u form fs s Hrole)
    as [(c & c0 & Hw & Hbody & Hout) | (Hnot & _)]; [|contradiction].
  destruct (add_doctor_body_run numeric gen salt day form s c c0 _ Hw Hbody)
    as (_ & _ & Hdocs & (ws & Hws & Hcols) & _).
  assert (Hsnd : site.committed c0 = snd out)
    by (unfold out; rewrite Hout; reflexivity).
  rewrite Hsnd in Hdocs, Hws. split.
  { rewrite Hdocs. apply in_or_app. right. left. reflexivity. }
  destruct (serve_run (patient_bp.book_appointment numeric sql_time cu
                         booking today now) fs' (site.base (snd out)))
    as (r & c' & Hbook & Hserve).
  rewrite Hserve. simpl fst. intros Hr.
  apply book_run in Hbook; [|reflexivity].
  destruct Hbook as [(_ & u' & p & d & date & time & w & _ & _ & _ & Hreq & _
                      & _ & Hav & _) | (Hnot & _)].
  2:{ destruct r as [e|f]; [discriminate|]. apply Hnot. congruence. }
  simpl committed in Hav.
  unfold patient_bp.required_fields in Hreq. rewrite Hdoc in Hreq.
  destruct (patient_bp.f_appointment_date booking); [|discriminate].
  destruct (patient_bp.f_appointment_time booking); [|discriminate].
  destruct (_ && _)%bool; [|discriminate].
  injection Hreq as <- <- <-.
  unfold patient_bp.select_available in Hav. apply find_some in Hav.
  destruct Hav as [Hin Hcov]. unfold patient_bp.covers in Hcov.
  apply andb_prop in Hcov. destruct Hcov as [Hcov _].
  apply andb_prop in Hcov. destruct Hcov as [Hcov _].
  apply andb_prop in Hcov. destruct Hcov as [Hd _].
  apply Z.eqb_eq in Hd.
  rewrite Hws in Hin. apply in_app_or in Hin. destruct Hin as [Hin|Hin].
  - exact (Hold w Hin Hd).
  - apply Hne. rewrite <- (default_windows_doctor _ _ _ _ _ Hcols Hin).
    exact Hd.
Qed.

(** Dr. Adams, added on 1 June with windows from 09:00 on that day, cannot
    be booked by alice for 2 June at 09:30. *)
Lemma new_doctor_is_not_bookable_witness :
  let out :=
    site.serve
      (admin_directory.add_doctor plain_numeric toy_hash "s" june (Some root)
         (admin_directory.mkDoctorForm (Some "Dr. Ann Adams")
            (Some "ann.adams@hospital.com") (Some "doctor123")
            (Some "Neurology"))) [] clinic_site in
  In (mkDoctor 3 22 active) (doctors (site.base (snd out)))
  /\ fst (serve (patient_bp.book_appointment plain_numeric clock_time
                   (Some alice)
                   (patient_bp.mkBookingForm (Some 3) (Some "2025-06-02")
                      (Some "09:30") None)
                   "2025-06-01" "now") [] (site.base (snd out)))
     <> Flashed AppointmentBooked.
Proof.
  assert (Hold : forall w, In w (doctor_availability (site.base clinic_site)) ->
                   av_doctor_id w <> 3).
  { intros w [<-|[]]. simpl. discriminate. }
  assert (Hne : autoincrement (map site.ur_user_id (site.users clinic_site))
                <> autoincrement
                     (map doc_doctor_id (doctors (site.base clinic_site)))).
  { vm_compute. discriminate. }
  exact (new_doctor_is_not_bookable plain_numeric clock_time toy_hash "s" june root
           (admin_directory.mkDoctorForm (Some "Dr. Ann Adams")
              (Some "ann.adams@hospital.com") (Some "doctor123")
              (Some "Neurology")) [] clinic_site (Some alice)
           (patient_bp.mkBookingForm (Some 3) (Some "2025-06-02")
              (Some "09:30") None)
           "2025-06-01" "now" [] eq_refl eq_refl Hne Hold eq_refl).
Defined.
